(** * xlsx-diff: a shallow embedding of [xlsx_diff.py] and its properties

    The development follows the layout of the Python source:
    - [Py]: the fragment of Python's built-in behaviour the program relies on
      (exceptions, [str] methods, [int()], list indexing and slicing);
    - [Xml]: the part of the lxml element API that is used;
    - then one section per function of [xlsx_diff.py], under its own name.

    Python [str] values are modelled by [string]; a character is an 8-bit
    code point.  Python [int] values are modelled by [Z] (or [nat] for
    counters that start at zero and are only incremented). *)

From Stdlib Require Import ZArith Ascii String List Lia Bool Floats.
From stdpp Require Import base option list gmap strings pretty.

Local Open Scope string_scope.
Local Open Scope list_scope.
Local Open Scope Z_scope.

(* ===================================================================== *)
(** ** Python built-ins *)
(* ===================================================================== *)

Module Py.

(** The exceptions the program can raise from the operations we model. *)
Inductive exn : Type :=
| IndexError
| ValueError
| AttributeError.

(** A computation that either returns a value or raises. *)
Inductive result (A : Type) : Type :=
| Ok (a : A)
| Raise (e : exn).
Arguments Ok {A} a.
Arguments Raise {A} e.

#[export] Instance result_ret : MRet result := fun A a => Ok a.
#[export] Instance result_bind : MBind result := fun A B f m =>
  match m with
  | Ok a => f a
  | Raise e => Raise e
  end.
#[export] Instance result_fmap : FMap result := fun A B f m =>
  match m with
  | Ok a => Ok (f a)
  | Raise e => Raise e
  end.

Definition is_ok {A} (r : result A) : bool :=
  match r with Ok _ => true | Raise _ => false end.

(** [ord] and [chr] on 8-bit code points. *)
Definition ord (c : ascii) : Z := Z.of_N (N_of_ascii c).
Definition chr (n : Z) : ascii := ascii_of_N (Z.to_N n).

(** [s.startswith(p)] *)
Definition startswith (p s : string) : bool := String.prefix p s.

(** [s.replace(old, new)] for a non-empty [old]: occurrences are replaced
    from left to right and do not overlap.  [skip] counts the characters of
    the occurrence just replaced that are still to be dropped. *)
Fixpoint replace_from (skip : nat) (old new s : string) : string :=
  match s with
  | EmptyString => EmptyString
  | String c s' =>
      match skip with
      | S k => replace_from k old new s'
      | O =>
          if String.prefix old s
          then new +:+ replace_from (String.length old - 1) old new s'
          else String c (replace_from 0 old new s')
      end
  end.

Definition replace (old new s : string) : string := replace_from 0 old new s.

(** [''.join(l)] *)
Definition join (l : list string) : string := fold_right String.append "" l.

Definition isdigit (c : ascii) : bool :=
  let n := ord c in (48 <=? n) && (n <=? 57).

Definition isupper_AZ (c : ascii) : bool :=
  let n := ord c in (65 <=? n) && (n <=? 90).

(** The most decimal digits [int()] reads and [str()] writes: CPython's
    default for [sys.get_int_max_str_digits()].  A literal or a number with
    more digits raises [ValueError]. *)
Definition int_max_str_digits : Z := 4300.

(** The digits of a text; signs, underscores and white space do not
    count. *)
Definition count_digits (s : string) : Z :=
  Z.of_nat (length (List.filter isdigit (list_ascii_of_string s))).

(** [str(n)] for an integer: its decimal notation, unless that has more
    digits than the limit. *)
Definition str (n : Z) : result string :=
  let text := pretty n in
  if int_max_str_digits <? count_digits text then Raise ValueError
  else Ok text.

(** The characters [int()] skips before and after a literal: tab to
    carriage return and the space, and of the code points above 127 the
    next-line character and the no-break space. *)
Definition isspace (c : ascii) : bool :=
  let n := ord c in
  ((9 <=? n) && (n <=? 13)) || (n =? 32) || (n =? 133) || (n =? 160).

Fixpoint lstrip (s : string) : string :=
  match s with
  | EmptyString => EmptyString
  | String c s' => if isspace c then lstrip s' else s
  end.

Definition strip (s : string) : string :=
  String.rev (lstrip (String.rev (lstrip s))).

(** The digits of an [int()] literal: decimal digits, where single
    underscores may separate digits.  [after_digit] tells whether the
    previous character was a digit. *)
Fixpoint int_digits (acc : Z) (after_digit : bool) (s : string) : option Z :=
  match s with
  | EmptyString => if after_digit then Some acc else None
  | String c s' =>
      if isdigit c then int_digits (10 * acc + (ord c - 48)) true s'
      else if Ascii.eqb c "_" && after_digit then int_digits acc false s'
      else None
  end.

(** [int(s)]: surrounding white space is ignored, one sign is allowed, and
    the literal has no more digits than the limit; anything else raises
    [ValueError]. *)
Definition int (s : string) : result Z :=
  let body := strip s in
  let '(sign, digits) :=
    match body with
    | String "-" d => (-1, d)
    | String "+" d => (1, d)
    | _ => (1, body)
    end in
  match int_digits 0 false digits with
  | Some n =>
      if int_max_str_digits <? count_digits digits then Raise ValueError
      else Ok (sign * n)
  | None => Raise ValueError
  end.

(** [l[i]] for a non-negative index. *)
Definition getitem {A} (l : list A) (i : nat) : result A :=
  match l !! i with
  | Some x => Ok x
  | None => Raise IndexError
  end.

(** [l[start:stop]], with Python's treatment of negative and
    out-of-range bounds. *)
Definition clamp_index (len i : Z) : Z :=
  if i <? 0 then Z.max (i + len) 0 else Z.min i len.

Definition slice {A} (l : list A) (start stop : Z) : list A :=
  let len := Z.of_nat (length l) in
  let lo := clamp_index len start in
  let hi := clamp_index len stop in
  take (Z.to_nat (hi - lo)) (drop (Z.to_nat lo) l).

(** [l.insert(i, x)] for a non-negative index: past the end it appends. *)
Definition insert {A} (i : nat) (x : A) (l : list A) : list A :=
  take i l ++ x :: drop i l.

End Py.

Import Py.

(* ===================================================================== *)
(** ** [get_next_excel_column_name] *)
(* ===================================================================== *)

(** One iteration of the loop over [reversed(column_name)]; the state is
    [(result, carry)]. *)
Definition next_column_step (st : string * Z) (char : ascii) : string * Z :=
  let '(result, carry) := st in
  let new_char_val := ord char - ord "A" + carry in
  (String (chr (ord "A" + new_char_val `mod` 26)) result, new_char_val `div` 26).

Definition get_next_excel_column_name (column_name : string) : string :=
  let '(result, carry) :=
    fold_left next_column_step
      (rev (list_ascii_of_string column_name)) (EmptyString, 1) in
  if carry =? 0 then result else String "A" result.

(** The number a column name stands for: base 26 without a zero digit,
    A=1 ... Z=26, AA=27. *)
Definition column_number (s : string) : Z :=
  fold_left (fun acc c => 26 * acc + (ord c - 64)) (list_ascii_of_string s) 0.

Definition is_column_name (s : string) : bool :=
  forallb isupper_AZ (list_ascii_of_string s).



(** Monadic iteration for [result]: the body of a [for] loop that threads a
    state and may raise. *)
Fixpoint foldM {A S} (f : S -> A -> result S) (s : S) (l : list A) : result S :=
  match l with
  | [] => Ok s
  | x :: l' => s' ← f s x; foldM f s' l'
  end.

(** A Python [dict] with string keys, in insertion order: assigning to a key
    that is present keeps its place.  Used where the program enumerates the
    keys. *)
Module Dict.

Definition dict (V : Type) : Type := list (string * V).

Fixpoint get {V} (d : dict V) (k : string) : option V :=
  match d with
  | [] => None
  | (k', v) :: d' => if String.eqb k' k then Some v else get d' k
  end.

Fixpoint set {V} (k : string) (v : V) (d : dict V) : dict V :=
  match d with
  | [] => [(k, v)]
  | (k', v') :: d' =>
      if String.eqb k' k then (k, v) :: d' else (k', v') :: set k v d'
  end.

Definition keys {V} (d : dict V) : list string := map fst d.

End Dict.

(* ===================================================================== *)
(** ** The lxml element tree *)
(* ===================================================================== *)

Module Xml.

(** An element: tag, attributes, the text before its first child, and its
    child elements in document order. *)
#[local] Unset Elimination Schemes.
Inductive element : Type :=
| Element (tag : string) (attrib : gmap string string)
          (text : option string) (children : list element).
#[local] Set Elimination Schemes.

Definition tag (e : element) : string :=
  match e with Element t _ _ _ => t end.
Definition attrib (e : element) : gmap string string :=
  match e with Element _ a _ _ => a end.
Definition text (e : element) : option string :=
  match e with Element _ _ x _ => x end.
Definition children (e : element) : list element :=
  match e with Element _ _ _ c => c end.

(** [e.text = s] *)
Definition set_text (s : option string) (e : element) : element :=
  match e with Element t a _ c => Element t a s c end.

(** [e.get(name)] *)
Definition get (e : element) (name : string) : option string :=
  attrib e !! name.

Definition has_tag (t : string) (e : element) : bool := String.eqb (tag e) t.

(** [e.findall(tag)]: the children with that tag. *)
Definition findall (t : string) (e : element) : list element :=
  List.filter (has_tag t) (children e).

(** [e.find(tag)]: the first child with that tag, or [None]. *)
Definition find (t : string) (e : element) : option element :=
  List.find (has_tag t) (children e).

(** An element followed by everything below it, in document order. *)
Fixpoint subtree (e : element) : list element :=
  match e with
  | Element _ _ _ c => e :: flat_map subtree c
  end.

(** [e.findall('.//' + tag)]: all elements below [e] with that tag, in
    document order; [e] itself is not among them. *)
Definition findall_below (t : string) (e : element) : list element :=
  List.filter (has_tag t) (flat_map subtree (children e)).

(** The element reached from [e] by child positions. *)
Fixpoint at_path (e : element) (p : list nat) : option element :=
  match p with
  | [] => Some e
  | k :: p' =>
      match children e !! k with
      | Some c => at_path c p'
      | None => None
      end
  end.

End Xml.

Import Xml.

Definition XMLNS : string :=
  "{http://schemas.openxmlformats.org/spreadsheetml/2006/main}".

(* ===================================================================== *)
(** ** [build_shared_strings_map], [replace_shared_strings_in_sheet] *)
(* ===================================================================== *)

(** Both functions are modelled from the parsed tree on: the encoding to
    bytes, [ET.fromstring] and [ET.tostring] are lxml's. *)

(** [enumerate(l)] *)
Definition enumerate {A} (l : list A) : list (nat * A) :=
  zip (seq 0 (length l)) l.

Definition build_shared_strings_map (tree : element)
    : gmap Z (option string) :=
  fold_left
    (fun shared_strings '(index, si) =>
       match find (XMLNS +:+ "t") si with
       | Some t => <[Z.of_nat index := text t]> shared_strings
       | None => shared_strings
       end)
    (enumerate (findall (XMLNS +:+ "si") tree)) ∅.

(** The predicate [c[@t="s"]] of the path expression. *)
Definition is_shared_string_cell (e : element) : bool :=
  has_tag (XMLNS +:+ "c") e
  && bool_decide (get e "t" = Some "s").

(** The body of the loop for one cell, given the cell's children:
    [v = c.find('v')]; if [v] and [v.text] are there, [int(v.text)] is
    looked up and, when present, replaces the text. *)
Fixpoint resolve_first_v (shared_strings : gmap Z (option string))
    (cs : list element) : result (list element) :=
  match cs with
  | [] => Ok []
  | v :: rest =>
      if has_tag (XMLNS +:+ "v") v then
        match text v with
        | None => Ok cs
        | Some v_text =>
            index ← int v_text;
            match shared_strings !! index with
            | Some s => Ok (set_text s v :: rest)
            | None => Ok cs
            end
        end
      else (cons v) <$> resolve_first_v shared_strings rest
  end.

(** The loop over [tree.findall('.//c[@t="s"]')] as a traversal: every
    matched element below the root gets the loop body.  The body only
    assigns the text of a child, so it selects the same elements and the
    same [v] whether it runs before or after the elements below. *)
Fixpoint resolve_subtree (shared_strings : gmap Z (option string))
    (e : element) : result element :=
  match e with
  | Element t a x cs =>
      cs' ← mapM (resolve_subtree shared_strings) cs;
      cs'' ← (if is_shared_string_cell e
              then resolve_first_v shared_strings cs'
              else Ok cs');
      Ok (Element t a x cs'')
  end.

Definition replace_shared_strings_in_sheet (tree : element)
    (shared_strings : gmap Z (option string)) : result element :=
  match tree with
  | Element t a x cs =>
      cs' ← mapM (resolve_subtree shared_strings) cs;
      Ok (Element t a x cs')
  end.

(** Every shared-string cell below the root holds text [int()] accepts. *)
Definition index_text_ok (e : element) : bool :=
  negb (is_shared_string_cell e) ||
  match find (XMLNS +:+ "v") e with
  | Some v => match text v with
              | Some v_text => is_ok (int v_text)
              | None => true
              end
  | None => true
  end.

Definition indices_ok (tree : element) : bool :=
  forallb index_text_ok (flat_map subtree (children tree)).


(* ===================================================================== *)
(** ** [summarize_sheet_files] *)
(* ===================================================================== *)

(** The characters the summarizer escapes. *)
Definition LF : string := String (ascii_of_nat 10) "".
Definition CR : string := String (ascii_of_nat 13) "".

(** [pattern.match(s).group(1)] for [pattern = ([A-Z]+)\d+]: the longest
    run of letters A-Z at the start of [s], which must not be empty and
    must be followed by a digit; [None] when the pattern does not match. *)
Fixpoint span_AZ (s : string) : string * string :=
  match s with
  | EmptyString => (EmptyString, EmptyString)
  | String c s' =>
      if isupper_AZ c
      then let '(letters, rest) := span_AZ s' in (String c letters, rest)
      else (EmptyString, s)
  end.

Definition pattern_match_group1 (s : string) : option string :=
  match span_AZ s with
  | (String c letters, String d _) =>
      if isdigit d then Some (String c letters) else None
  | _ => None
  end.

(** The escaping applied to a cell's text, and the line made of it. *)
Definition escape_text (value_text : string) : string :=
  replace CR "\r" (replace LF "\n" value_text).

(** The state of the loop over the cells of a row. *)
Record cell_loop : Type := CellLoop {
  last_cell_location : option string;
  elements_text : list string;
  location : list string
}.

(** The coordinate the loop gives to a cell, with the new value of
    [last_cell_location]. *)
Definition locate_cell (row_number : Z) (last : option string)
    (cell : element) : result (string * option string) :=
  match get cell "r" with
  | Some cell_location => Ok (cell_location, Some cell_location)
  | None =>
      match last with
      | Some last_location =>
          match pattern_match_group1 last_location with
          | Some last_column_letter =>
              let last_column_letter :=
                get_next_excel_column_name last_column_letter in
              number ← str row_number;
              Ok (last_column_letter +:+ number, last)
          | None => Raise AttributeError
          end
      | None =>
          number ← str row_number;
          let cell_location := "A" +:+ number in
          Ok (cell_location, Some cell_location)
      end
  end.

(** [value.text] for [value = cell[0]], when both are there. *)
Definition cell_value_text (cell : element) : option string :=
  match children cell with
  | value :: _ => text value
  | [] => None
  end.

(** One iteration of the loop over the cells of a row. *)
Definition cell_step (row_number : Z) (st : cell_loop) (cell : element)
    : result cell_loop :=
  '(cell_location, last) ←
     locate_cell row_number (last_cell_location st) cell;
  match cell_value_text cell with
  | Some value_text =>
      Ok (CellLoop last
            (elements_text st ++ [escape_text value_text +:+ LF])
            (location st ++ [cell_location]))
  | None => Ok (CellLoop last (elements_text st) (location st))
  end.

(** One iteration of the loop over the rows; the state is
    [(row_number, elements_text, location)]. *)
Definition row_step (st : Z * list string * list string) (row : element)
    : result (Z * list string * list string) :=
  let '(row_number, elements_text0, location0) := st in
  row_number ← match get row "r" with
               | Some r => int r
               | None => Ok (row_number + 1)
               end;
  st' ← foldM (cell_step row_number)
              (CellLoop None elements_text0 location0)
              (findall (XMLNS +:+ "c") row);
  Ok (row_number, elements_text st', location st').

(** The summary of one parsed sheet: [[elements_text, location]]. *)
Definition summarize_sheet (xml_root : element)
    : result (list string * list string) :=
  '(_, elements_text0, location0) ←
     foldM row_step (0, [], []) (findall_below (XMLNS +:+ "row") xml_root);
  Ok (elements_text0, location0).

(** [re.search(r'sheet(\d+)\.xml', path).group(1)]: the digits of the
    leftmost place where [sheet], at least one digit and [.xml] follow one
    another. *)
Fixpoint span_digits (s : string) : string * string :=
  match s with
  | EmptyString => (EmptyString, EmptyString)
  | String c s' =>
      if isdigit c
      then let '(digits, rest) := span_digits s' in (String c digits, rest)
      else (EmptyString, s)
  end.

Definition sheet_id_here (s : string) : option string :=
  if String.prefix "sheet" s then
    match span_digits (String.substring 5 (String.length s - 5) s) with
    | (String d digits, rest) =>
        if String.prefix ".xml" rest then Some (String d digits) else None
    | _ => None
    end
  else None.

Fixpoint search_sheet_id (s : string) : option string :=
  match sheet_id_here s with
  | Some id => Some id
  | None =>
      match s with
      | EmptyString => None
      | String _ s' => search_sheet_id s'
      end
  end.

(** [modified_sheets] maps a path to the sheet's content, here already
    parsed; [sheet_names] maps a sheet id to its name. *)
Definition summarize_sheet_files
    (modified_sheets : Dict.dict element) (sheet_names : gmap string string)
    : result (Dict.dict (list string * list string)) :=
  foldM
    (fun summaries '(sheet_path, xml_root) =>
       sheet_id ← match search_sheet_id sheet_path with
                  | Some id => Ok id
                  | None => Raise AttributeError
                  end;
       let sheet_name := default "" (sheet_names !! sheet_id) in
       summary ← summarize_sheet xml_root;
       Ok (Dict.set sheet_name summary summaries))
    [] modified_sheets.


(* ===================================================================== *)
(** ** [difflib.SequenceMatcher] and [similarity] *)
(* ===================================================================== *)

(** [SequenceMatcher(None, a, b).ratio()] belongs to Python's standard
    library, not to the program.  It is modelled here after CPython's
    [difflib] so that [similarity] can be evaluated: no junk predicate, the
    automatic junk heuristic switched on.  None of the general results
    below looks inside it. *)
Module SequenceMatcher.
Section Matcher.

Variables a b : list string.

(** [__chain_b]: for every element of [b] the increasing list of its
    positions; when [b] has 200 elements or more, the elements that occur
    more than [n // 100 + 1] times are purged. *)
Definition b2j : gmap string (list nat) :=
  let all :=
    fold_left (fun m '(i, elt) => <[elt := default [] (m !! elt) ++ [i]]> m)
              (enumerate b) (∅ : gmap string (list nat)) in
  let n := length b in
  if (200 <=? n)%nat
  then filter (fun kv => (length kv.2 <= n / 100 + 1)%nat) all
  else all.

(** The best match found so far: [(besti, bestj, bestsize)]. *)
Definition best : Type := (nat * nat * nat)%type.

(** The loop [for j in b2j.get(a[i], [])] of [find_longest_match]; the
    state is the best match and [newj2len]. *)
Fixpoint scan_js (i blo bhi : nat) (j2len : gmap nat nat) (js : list nat)
    (st : best * gmap nat nat) : best * gmap nat nat :=
  match js with
  | [] => st
  | j :: js' =>
      if (j <? blo)%nat then scan_js i blo bhi j2len js' st
      else if (bhi <=? j)%nat then st
      else
        let '((besti, bestj, bestsize), newj2len) := st in
        let k := (match j with
                  | O => 0
                  | S j' => default 0 (j2len !! j')
                  end + 1)%nat in
        let newj2len := <[j := k]> newj2len in
        let bst := if (bestsize <? k)%nat
                   then ((i + 1 - k)%nat, (j + 1 - k)%nat, k)
                   else (besti, bestj, bestsize) in
        scan_js i blo bhi j2len js' (bst, newj2len)
  end.

(** The loop [for i in range(alo, ahi)]; the state is the best match and
    [j2len]. *)
Definition scan_is (alo ahi blo bhi : nat) : best :=
  fst (fold_left
         (fun '(bst, j2len) i =>
            let js := match a !! i with
                      | Some elt => default [] (b2j !! elt)
                      | None => []
                      end in
            scan_js i blo bhi j2len js (bst, ∅))
         (seq alo (ahi - alo)) ((alo, blo, 0%nat), ∅)).

Definition same_at (i j : nat) : bool :=
  match a !! i, b !! j with
  | Some x, Some y => String.eqb x y
  | _, _ => false
  end.

(** The two loops that extend the match over equal elements before and
    after it (they matter when popular elements were purged); [n] bounds
    the number of iterations. *)
Fixpoint extend_before (n alo blo : nat) (bst : best) : best :=
  let '(besti, bestj, bestsize) := bst in
  match n with
  | O => bst
  | S n' =>
      if (alo <? besti)%nat && (blo <? bestj)%nat
         && same_at (besti - 1) (bestj - 1)
      then extend_before n' alo blo
             ((besti - 1)%nat, (bestj - 1)%nat, (bestsize + 1)%nat)
      else bst
  end.

Fixpoint extend_after (n ahi bhi : nat) (bst : best) : best :=
  let '(besti, bestj, bestsize) := bst in
  match n with
  | O => bst
  | S n' =>
      if (besti + bestsize <? ahi)%nat && (bestj + bestsize <? bhi)%nat
         && same_at (besti + bestsize) (bestj + bestsize)
      then extend_after n' ahi bhi (besti, bestj, (bestsize + 1)%nat)
      else bst
  end.

(** [find_longest_match(alo, ahi, blo, bhi)]; the two further loops of the
    original only run over junk elements, and there are none. *)
Definition find_longest_match (alo ahi blo bhi : nat) : best :=
  let bst := scan_is alo ahi blo bhi in
  let bst := extend_before (length a) alo blo bst in
  extend_after (length a) ahi bhi bst.

(** The sum of the sizes of the blocks of [get_matching_blocks], which
    splits the ranges around the longest match and goes on in both parts;
    [n] bounds the depth. *)
Fixpoint matching_size (n alo ahi blo bhi : nat) : nat :=
  match n with
  | O => 0%nat
  | S n' =>
      let '(i, j, k) := find_longest_match alo ahi blo bhi in
      if (k =? 0)%nat then 0%nat
      else
        (k
         + (if (alo <? i)%nat && (blo <? j)%nat
            then matching_size n' alo i blo j else 0)
         + (if (i + k <? ahi)%nat && (j + k <? bhi)%nat
            then matching_size n' (i + k) ahi (j + k) bhi else 0))%nat
  end.

Definition float_of_nat (n : nat) : float :=
  PrimFloat.of_uint63 (Uint63.of_Z (Z.of_nat n)).

(** [ratio()]: [2.0 * matches / length], or [1.0] for two empty
    sequences. *)
Definition ratio : float :=
  let matches := matching_size (S (length a)) 0 (length a) 0 (length b) in
  let len := (length a + length b)%nat in
  if (len =? 0)%nat then 1%float
  else PrimFloat.div (PrimFloat.mul 2%float (float_of_nat matches))
                     (float_of_nat len).

End Matcher.
End SequenceMatcher.

Definition similarity (content_from content_to : list string) : float :=
  SequenceMatcher.ratio content_from content_to.

(* ===================================================================== *)
(** ** [compare_sheet_names] *)
(* ===================================================================== *)

(** A summary is the two-element list [[elements_text, location]]. *)
Definition summary : Type := (list string * list string)%type.

(** [summaries.get(name, [])[0]]: the lines of the sheet; for a name
    without a summary the subscript of the empty default raises. *)
Definition get_lines (summaries : Dict.dict summary) (name : string)
    : result (list string) :=
  match Dict.get summaries name with
  | Some s => Ok (fst s)
  | None => Raise IndexError
  end.

(** [summaries.get(name, [])[1]] *)
Definition get_locations (summaries : Dict.dict summary) (name : string)
    : result (list string) :=
  match Dict.get summaries name with
  | Some s => Ok (snd s)
  | None => Raise IndexError
  end.

(** [x in l] *)
Definition contains (x : string) (l : list string) : bool :=
  bool_decide (x ∈ l).

(** [similarity(content_from, content_to) > 0.5] *)
Definition similar (content_from content_to : list string) : bool :=
  PrimFloat.ltb 0.5%float (similarity content_from content_to).

(** The loop [for name_to in sheet_names_to] with its [break]: the name
    the sheet was renamed to, if one is found. *)
Fixpoint find_rename (summaries_to : Dict.dict summary)
    (name_from : string) (content_from : list string)
    (names_to : list string) : result (option string) :=
  match names_to with
  | [] => Ok None
  | name_to :: rest =>
      if negb (String.eqb name_to name_from) then
        content_to ← get_lines summaries_to name_to;
        if similar content_from content_to
        then Ok (Some name_to)
        else find_rename summaries_to name_from content_from rest
      else find_rename summaries_to name_from content_from rest
  end.

(** One iteration of the loop over [sheet_names_from]; the state is
    [(removed_sheets, renamed_sheets)]. *)
Definition classify_old_sheet (sheet_names_to : list string)
    (summaries_from summaries_to : Dict.dict summary)
    (st : list string * list (string * string)) (name_from : string)
    : result (list string * list (string * string)) :=
  let '(removed_sheets, renamed_sheets) := st in
  content_from ← get_lines summaries_from name_from;
  if negb (contains name_from sheet_names_to) then
    target ← find_rename summaries_to name_from content_from sheet_names_to;
    match target with
    | Some name_to =>
        Ok (removed_sheets, renamed_sheets ++ [(name_from, name_to)])
    | None => Ok (removed_sheets ++ [name_from], renamed_sheets)
    end
  else Ok st.

(** The result is [(added_sheets, removed_sheets, renamed_sheets)]. *)
Definition compare_sheet_names (sheet_names_from sheet_names_to : list string)
    (summaries_from summaries_to : Dict.dict summary)
    : result (list string * list string * list (string * string)) :=
  '(removed_sheets, renamed_sheets) ←
     foldM (classify_old_sheet sheet_names_to summaries_from summaries_to)
           ([], []) sheet_names_from;
  let added_sheets :=
    List.filter
      (fun name_to =>
         negb (contains name_to sheet_names_from)
         && negb (contains name_to (map snd renamed_sheets)))
      sheet_names_to in
  Ok (added_sheets, removed_sheets, renamed_sheets).


(* ===================================================================== *)
(** ** Files, output and the external diff engine *)
(* ===================================================================== *)

(** [s.splitlines(True)]: the lines of [s] with their line ends.  A line
    ends at a line feed, a carriage return (with a line feed that follows
    it), or one of the other separators [str.splitlines] knows. *)
Definition is_line_end (c : ascii) : bool :=
  let n := ord c in
  ((10 <=? n) && (n <=? 13)) || ((28 <=? n) && (n <=? 30)) || (n =? 133).

Fixpoint splitlines_from (cur : string) (s : string) : list string :=
  match s with
  | EmptyString =>
      match cur with EmptyString => [] | _ => [cur] end
  | String c s' =>
      if is_line_end c then
        match s' with
        | String c' s'' =>
            if (ord c =? 13) && (ord c' =? 10)
            then (cur +:+ String c (String c' "")) :: splitlines_from "" s''
            else (cur +:+ String c "") :: splitlines_from "" s'
        | EmptyString => [cur +:+ String c ""]
        end
      else splitlines_from (cur +:+ String c "") s'
  end.

Definition splitlines (s : string) : list string := splitlines_from "" s.

(** What the program can see and change outside itself: the temporary
    files on disk (name and content), how many of them were created so far
    (the next one gets a fresh name), and what was printed. *)
Record world : Type := World {
  tempfiles : gmap string string;
  created : nat;
  printed : list string
}.

(** A computation that reads and changes the world and may raise. *)
Definition M (A : Type) : Type := world -> result A * world.

#[export] Instance M_ret : MRet M := fun A a w => (Ok a, w).
#[export] Instance M_bind : MBind M := fun A B f m w =>
  match m w with
  | (Ok a, w') => f a w'
  | (Raise e, w') => (Raise e, w')
  end.

Definition lift {A} (r : result A) : M A := fun w => (r, w).

(** [print(s, end=e)] *)
Definition print (s e : string) : M unit := fun w =>
  (Ok tt, World (tempfiles w) (created w) (printed w ++ [s +:+ e])).

(** The name of the [n]-th temporary file. *)
Definition tmp_name (n : nat) : string := "/tmp/tmp" +:+ pretty n.

(** [tempfile.NamedTemporaryFile(mode='w+', delete=False)] followed by
    writing [content]: the file stays on disk after it is closed. *)
Definition NamedTemporaryFile (content : string) : M string := fun w =>
  let name := tmp_name (created w) in
  (Ok name,
   World (<[name := content]> (tempfiles w)) (S (created w)) (printed w)).

(** [os.remove(name)] *)
Definition os_remove (name : string) : M unit := fun w =>
  (Ok tt, World (delete name (tempfiles w)) (created w) (printed w)).

(** The outcome of [subprocess.run]. *)
Record CompletedProcess : Type := Completed {
  returncode : Z;
  stdout : string;
  stderr : string
}.

(** A loop over a list that threads a state through [M]. *)
Fixpoint foldW {A S} (f : S -> A -> M S) (s : S) (l : list A) : M S :=
  match l with
  | [] => mret s
  | x :: l' => s' ← f s x; foldW f s' l'
  end.

(** Colours of the report. *)
Definition ESC : string := String (ascii_of_nat 27) "".
Definition gray : string := ESC +:+ "[38;5;232m".
Definition reset_format : string := ESC +:+ "[0m".
Definition green : string := ESC +:+ "[92m".
Definition red : string := ESC +:+ "[91m".
Definition blue : string := ESC +:+ "[94m".

(* ===================================================================== *)
(** ** Hunk headers and coordinate annotation (in [compare_dirs]) *)
(* ===================================================================== *)

Fixpoint strip_prefix (p s : string) : option string :=
  match p, s with
  | EmptyString, _ => Some s
  | String a p', String b s' =>
      if Ascii.eqb a b then strip_prefix p' s' else None
  | String _ _, EmptyString => None
  end.

(** [\d+] *)
Definition match_digits (s : string) : option (string * string) :=
  match span_digits s with
  | (String d ds, rest) => Some (String d ds, rest)
  | _ => None
  end.

(** [(,(\d+))?] *)
Definition match_count (s : string) : option string * string :=
  match s with
  | String "," s' =>
      match match_digits s' with
      | Some (ds, rest) => (Some ds, rest)
      | None => (None, s)
      end
  | _ => (None, s)
  end.

(** [re.match] with the pattern
    [@@ -(\d+)(,(\d+))? \+(\d+)(,(\d+))? @@]: the groups [from_start],
    [from_count], [to_start] and [to_count]. *)
Definition match_hunk_header (line : string)
    : option (string * option string * string * option string) :=
  s ← strip_prefix "@@ -" line;
  '(from_start, s) ← match_digits s;
  let '(from_count, s) := match_count s in
  s ← strip_prefix " +" s;
  '(to_start, s) ← match_digits s;
  let '(to_count, s) := match_count s in
  _ ← strip_prefix " @@" s;
  Some (from_start, from_count, to_start, to_count).

(** The four integers of a hunk header, a missing count being 1;
    [None] for a line that is not a hunk header. *)
Definition hunk_header (line : string) : result (option (Z * Z * Z * Z)) :=
  match match_hunk_header line with
  | None => Ok None
  | Some (g_from_start, g_from_count, g_to_start, g_to_count) =>
      from_start ← int g_from_start;
      from_count ← match g_from_count with
                   | Some g => int g
                   | None => Ok 1
                   end;
      to_start ← int g_to_start;
      to_count ← match g_to_count with
                 | Some g => int g
                 | None => Ok 1
                 end;
      Ok (Some (from_start, from_count, to_start, to_count))
  end.

(** A change: [(from_start, from_count, to_start, to_count, index)]. *)
Definition change : Type := (Z * Z * Z * Z * nat)%type.

Definition line_changes (diff_list : list string) : result (list change) :=
  foldM
    (fun changes '(index, line) =>
       h ← hunk_header line;
       match h with
       | Some (from_start, from_count, to_start, to_count) =>
           Ok (changes
                 ++ [(from_start, from_count, to_start, to_count, index)])
       | None => Ok changes
       end)
    [] (enumerate diff_list).

(** The three annotation lines. *)
Definition removal_note (old_coord : string) : string :=
  gray +:+ "(-" +:+ old_coord +:+ ")" +:+ reset_format +:+ LF.
Definition addition_note (new_coord : string) : string :=
  gray +:+ "(+" +:+ new_coord +:+ ")" +:+ reset_format +:+ LF.
Definition paired_note (old_coord new_coord : string) : string :=
  gray +:+ "(-" +:+ old_coord +:+ " +" +:+ new_coord +:+ ")"
       +:+ reset_format +:+ LF.

(** The [while i < from_count or j < to_count] loop.  Every iteration
    reads [diff_list_final[idx]], inserts one line and moves [idx] by two,
    so [idx] gets one step closer to the end of the list each time: [fuel]
    bounds the number of iterations and [length diff_list_final - idx] is
    enough, as [annotate_walk_fuel] shows.  The result is
    [(diff_list_final, offset)]. *)
Fixpoint annotate_walk (fuel : nat) (from_count to_count : Z)
    (locations_from_subset locations_to_subset : list string)
    (i j idx offset : nat) (diff_list_final : list string)
    : result (list string * nat) :=
  if (Z.of_nat i <? from_count) || (Z.of_nat j <? to_count) then
    match fuel with
    | O => Raise IndexError
    | S fuel' =>
        line ← getitem diff_list_final idx;
        if startswith "-" line then
          old_coord ← getitem locations_from_subset i;
          annotate_walk fuel' from_count to_count
            locations_from_subset locations_to_subset
            (i + 1) j (idx + 2) (offset + 1)
            (insert idx (removal_note old_coord) diff_list_final)
        else if startswith "+" line then
          new_coord ← getitem locations_to_subset j;
          annotate_walk fuel' from_count to_count
            locations_from_subset locations_to_subset
            i (j + 1) (idx + 2) (offset + 1)
            (insert idx (addition_note new_coord) diff_list_final)
        else
          old_coord ← getitem locations_from_subset i;
          new_coord ← getitem locations_to_subset j;
          annotate_walk fuel' from_count to_count
            locations_from_subset locations_to_subset
            (i + 1) (j + 1) (idx + 2) (offset + 1)
            (insert idx (paired_note old_coord new_coord) diff_list_final)
    end
  else Ok (diff_list_final, offset).

(** One iteration of the loop [for change in line_changes]; the state is
    [(diff_list_final, offset)]. *)
Definition annotate_change (locations_from locations_to : list string)
    (st : list string * nat) (c : change) : result (list string * nat) :=
  let '(diff_list_final, offset) := st in
  let '(from_start, from_count, to_start, to_count, index_start) := c in
  let locations_from_subset :=
    slice locations_from (from_start - 1) (from_start - 1 + from_count) in
  let locations_to_subset :=
    slice locations_to (to_start - 1) (to_start - 1 + to_count) in
  let idx := (index_start + offset + 1)%nat in
  annotate_walk (length diff_list_final - idx) from_count to_count
    locations_from_subset locations_to_subset 0 0 idx offset
    diff_list_final.

(** The part of the body of [compare_dirs] that turns [diff_list] into
    [diff_list_final]. *)
Definition annotate_diff (locations_from locations_to : list string)
    (diff_list : list string) : result (list string) :=
  changes ← line_changes diff_list;
  '(diff_list_final, _) ←
     foldM (annotate_change locations_from locations_to)
           (diff_list, 0%nat) changes;
  Ok diff_list_final.


(* ===================================================================== *)
(** ** [diff_files], [compare_dirs], [custom_diff] *)
(* ===================================================================== *)

Section Engine.

(** The external engine: what [git diff --no-index file_from file_to]
    answers, given the temporary files on disk and the two names. *)
Variable git_diff : gmap string string -> string -> string -> CompletedProcess.

Definition diff_files (lines_from lines_to : list string)
    (file_from_name file_to_name : string) : M (list string) :=
  file_from ← NamedTemporaryFile (join lines_from);
  file_to ← NamedTemporaryFile (join lines_to);
  result ← (fun w => (Ok (git_diff (tempfiles w) file_from file_to), w));
  if negb ((returncode result =? 0) || (returncode result =? 1)) then
    _ ← print ("An error occurred while running git diff: "
               +:+ stderr result) LF;
    mret []
  else
    let diff_output := drop 2 (splitlines (stdout result)) in
    let diff_output :=
      if (1 <? length diff_output)%nat
      then <[1%nat := "+++ " +:+ file_to_name +:+ LF]>
             (<[0%nat := "--- " +:+ file_from_name +:+ LF]> diff_output)
      else diff_output in
    _ ← os_remove file_from;
    _ ← os_remove file_to;
    mret diff_output.

(** One iteration of the loop over [summaries_from.keys()]; the state is
    [differences]. *)
Definition compare_sheet (summaries_from summaries_to : Dict.dict summary)
    (file_from file_to : string) (removed_sheets : list string)
    (renamed_sheets : list (string * string))
    (differences : list string) (file_name : string) : M (list string) :=
  let index :=
    List.find (fun item => String.eqb (fst item) file_name) renamed_sheets in
  if contains file_name removed_sheets then mret differences
  else
    let file_name_to :=
      match index with
      | Some item => snd item
      | None => file_name
      end in
    lines_from ← lift (get_lines summaries_from file_name);
    lines_to ← lift (get_lines summaries_to file_name_to);
    locations_from ← lift (get_locations summaries_from file_name);
    locations_to ← lift (get_locations summaries_to file_name_to);
    diff_list ← diff_files lines_from lines_to
                  (file_from +:+ " " +:+ file_name)
                  (file_to +:+ " " +:+ file_name_to);
    diff_list_final ← lift (annotate_diff locations_from locations_to
                                          diff_list);
    mret (differences ++ diff_list_final).

Definition compare_dirs (summaries_from summaries_to : Dict.dict summary)
    (file_from file_to : string) (removed_sheets : list string)
    (renamed_sheets : list (string * string)) : M (list string) :=
  foldW (compare_sheet summaries_from summaries_to file_from file_to
                       removed_sheets renamed_sheets)
        [] (Dict.keys summaries_from).

(** The renderer's treatment of the escapes: backslash-n becomes a line
    feed and a space, backslash-r a carriage return. *)
Definition unescape_line (line : string) : string :=
  replace "\r" CR (replace "\n" (LF +:+ " ") line).

Definition color_line (line : string) : string :=
  if startswith "+" line then green +:+ unescape_line line +:+ reset_format
  else if startswith "-" line then red +:+ unescape_line line +:+ reset_format
  else if startswith "@@" line
       then blue +:+ unescape_line line +:+ reset_format
  else unescape_line line.

Definition custom_diff (summaries_from summaries_to : Dict.dict summary)
    (file_from file_to : string) : M unit :=
  let sheet_names_from := Dict.keys summaries_from in
  let sheet_names_to := Dict.keys summaries_to in
  '(added_sheets, removed_sheets, renamed_sheets) ←
     lift (compare_sheet_names sheet_names_from sheet_names_to
                               summaries_from summaries_to);
  _ ← foldW (fun _ sheet =>
               print (green +:+ "Sheet " +:+ sheet +:+ " has been added."
                      +:+ LF) reset_format)
            tt added_sheets;
  _ ← foldW (fun _ sheet =>
               print (red +:+ "Sheet " +:+ sheet +:+ " has been removed."
                      +:+ LF) reset_format)
            tt removed_sheets;
  _ ← foldW (fun _ '(old_name, new_name) =>
               print (blue +:+ "Sheet " +:+ old_name
                      +:+ " has been renamed to " +:+ new_name +:+ "."
                      +:+ LF) reset_format)
            tt renamed_sheets;
  differences ← compare_dirs summaries_from summaries_to file_from file_to
                  removed_sheets renamed_sheets;
  let colored_lines :=
    fold_left (fun acc line => acc +:+ color_line line) differences "" in
  print colored_lines "".

End Engine.

(** The world before anything was created or printed. *)
Definition initial_world : world := World ∅ 0 [].


(* ===================================================================== *)
(** ** Definitions used to state the properties *)
(* ===================================================================== *)

(** A text with a space put after every line feed: what the report shows
    for a cell's text with line breaks. *)
Fixpoint indent_after_line_feeds (s : string) : string :=
  match s with
  | EmptyString => EmptyString
  | String c s' =>
      if Ascii.eqb c (ascii_of_nat 10)
      then String c (String " " (indent_after_line_feeds s'))
      else String c (indent_after_line_feeds s')
  end.

(** The text holds a backslash directly followed by [n] or by [r]: the
    two characters the summarizer writes for a line break. *)
Fixpoint has_escape_sequence (s : string) : bool :=
  match s with
  | EmptyString => false
  | String c s' =>
      (Ascii.eqb c "\"
       && match s' with
          | String d _ => Ascii.eqb d "n" || Ascii.eqb d "r"
          | EmptyString => false
          end)
      || has_escape_sequence s'
  end.

(** The text contains the character [c]. *)
Fixpoint has_char (c : ascii) (s : string) : bool :=
  match s with
  | EmptyString => false
  | String c' s' => Ascii.eqb c' c || has_char c s'
  end.


(** The cells of a sheet in the order the summarizer visits them. *)
Definition sheet_cells (xml_root : element) : list element :=
  flat_map (findall (XMLNS +:+ "c"))
           (findall_below (XMLNS +:+ "row") xml_root).

(** The value of a computation that returned. *)
Definition returned {A} (r : result A) : option A :=
  match r with
  | Ok a => Some a
  | Raise _ => None
  end.

(** The last cell reference among [before], the cells that come before a
    cell in its row. *)
Definition last_reference (before : list element) : option string :=
  last (omap (fun cell => get cell "r") before).

(** The coordinate of a cell of the row with the number [row_number],
    given the cells [before] it in the row.  A cell with a reference has
    that reference.  A cell without one needs the row number written out,
    and then: as the first cell of its row it is in column A; after other
    cells its column is the successor of the column letters that the last
    reference before it starts with, and when no cell before it has a
    reference, of those of column A of the row.  There is no coordinate
    when the row number cannot be written, or when that reference does not
    start with letters A-Z followed by a digit. *)
Definition cell_coordinate (row_number : Z) (before : list element)
    (cell : element) : option string :=
  match get cell "r" with
  | Some reference => Some reference
  | None =>
      number ← returned (str row_number);
      match before with
      | [] => Some ("A" +:+ number)
      | _ :: _ =>
          column ← pattern_match_group1
                     (default ("A" +:+ number) (last_reference before));
          Some (get_next_excel_column_name column +:+ number)
      end
  end.

(** The cells of a row with their coordinates, [before] being the cells of
    the row already passed. *)
Fixpoint row_coordinates (row_number : Z) (before cells : list element)
    : option (list (element * string)) :=
  match cells with
  | [] => Some []
  | cell :: rest =>
      cell_location ← cell_coordinate row_number before cell;
      located ← row_coordinates row_number (before ++ [cell]) rest;
      Some ((cell, cell_location) :: located)
  end.

(** The cells of the rows with their coordinates.  The number of a row is
    its attribute [r] read as an integer, and one more than the number
    [previous] of the row before when it has none; the first row follows
    the number 0. *)
Fixpoint rows_coordinates (previous : Z) (rows : list element)
    : option (list (element * string)) :=
  match rows with
  | [] => Some []
  | row :: rest =>
      row_number ← match get row "r" with
                   | Some r => returned (int r)
                   | None => Some (previous + 1)
                   end;
      here ← row_coordinates row_number [] (findall (XMLNS +:+ "c") row);
      below ← rows_coordinates row_number rest;
      Some (here ++ below)
  end.

(** Every cell of the sheet with its coordinate, in document order;
    [None] when a row number cannot be read or a cell has no coordinate. *)
Definition sheet_coordinates (xml_root : element)
    : option (list (element * string)) :=
  rows_coordinates 0 (findall_below (XMLNS +:+ "row") xml_root).

(** The entries [(line, coordinate)] of the cells that carry text. *)
Definition summary_entries (cells : list (element * string))
    : list (string * string) :=
  omap (fun '(cell, cell_location) =>
          (fun value_text => (escape_text value_text +:+ LF, cell_location))
            <$> cell_value_text cell)
       cells.

(** Elements for the examples: a cell with an optional reference and an
    optional value, a row with an optional number, a sheet. *)
Definition make_cell (r v : option string) : element :=
  Element (XMLNS +:+ "c")
          (match r with Some r => {[ "r" := r ]} | None => ∅ end) None
          (match v with
           | Some v => [Element (XMLNS +:+ "v") ∅ (Some v) []]
           | None => []
           end).

Definition make_row (r : option string) (cells : list element) : element :=
  Element (XMLNS +:+ "row")
          (match r with Some r => {[ "r" := r ]} | None => ∅ end) None cells.

Definition make_sheet (rows : list element) : element :=
  Element (XMLNS +:+ "worksheet") ∅ None
          [Element (XMLNS +:+ "sheetData") ∅ None rows].

(** A row of three cells of which only the first has a reference. *)
Definition sheet_A1_then_two_bare_cells : element :=
  make_sheet
    [make_row (Some "1")
       [make_cell (Some "A1") (Some "x");
        make_cell None (Some "y");
        make_cell None (Some "z")]].

(** A sheet whose only row has a number that is no integer, and no
    cell. *)
Definition sheet_unreadable_row : element :=
  make_sheet [make_row (Some "x") []].

(** A sheet of two rows with a cell without text. *)
Definition sheet_two_rows : element :=
  make_sheet
    [make_row (Some "7")
       [make_cell None (Some "x"); make_cell (Some "C7") None;
        make_cell None (Some "z")];
     make_row None [make_cell (Some "AZ8") (Some "q")]].


(** What the resolver leaves in a cell whose index text reads as [index]:
    the table's entry when there is one, the text [raw] otherwise. *)
Definition resolved_text (shared_strings : gmap Z (option string))
    (raw : string) (index : Z) : option string :=
  match shared_strings !! index with
  | Some s => s
  | None => Some raw
  end.


(** A shared-string cell with the index text [v]. *)
Definition make_shared_cell (r : string) (v : string) : element :=
  Element (XMLNS +:+ "c") {[ "r" := r; "t" := "s" ]} None
          [Element (XMLNS +:+ "v") ∅ (Some v) []].

(** A sheet whose cells refer to the entries 0 and 5 of the table, and a
    table that has the entry 0 only. *)
Definition sheet_with_indices : element :=
  make_sheet
    [make_row (Some "1")
       [make_shared_cell "A1" "0"; make_shared_cell "B1" "5";
        make_cell (Some "C1") (Some "0")]].

Definition table_with_entry_0 : gmap Z (option string) :=
  {[ 0 := Some "hello" ]}.


(** The sheet classification in closed form.  [rename_target] is the
    first of all new names whose lines are similar to the old sheet's. *)
Definition rename_candidate (summaries_to : Dict.dict summary)
    (content_from : list string) (name_to : string) : bool :=
  match Dict.get summaries_to name_to with
  | Some s => similar content_from (fst s)
  | None => false
  end.

Definition rename_target (sheet_names_to : list string)
    (summaries_from summaries_to : Dict.dict summary)
    (name_from : string) : option string :=
  match Dict.get summaries_from name_from with
  | Some s => List.find (rename_candidate summaries_to (fst s)) sheet_names_to
  | None => None
  end.

(** What the loop over the old names adds to [renamed_sheets] and to
    [removed_sheets] for one old name. *)
Definition renamed_of (sheet_names_to : list string)
    (summaries_from summaries_to : Dict.dict summary)
    (name_from : string) : option (string * string) :=
  if contains name_from sheet_names_to then None
  else pair name_from
         <$> rename_target sheet_names_to summaries_from summaries_to
               name_from.

Definition removed_of (sheet_names_to : list string)
    (summaries_from summaries_to : Dict.dict summary)
    (name_from : string) : bool :=
  negb (contains name_from sheet_names_to)
  && bool_decide (rename_target sheet_names_to summaries_from summaries_to
                    name_from = None).

(** The rule as the specification words it: only the new names that are
    not old names are candidates. *)
Definition rename_target_new_only (sheet_names_from sheet_names_to : list string)
    (summaries_from summaries_to : Dict.dict summary)
    (name_from : string) : option string :=
  match Dict.get summaries_from name_from with
  | Some s =>
      List.find (fun name_to =>
                   negb (contains name_to sheet_names_from)
                   && rename_candidate summaries_to (fst s) name_to)
                sheet_names_to
  | None => None
  end.

(** A classification follows the specification's rule for the old sheets
    that are absent from the new names. *)
Definition classified_new_only (sheet_names_from sheet_names_to : list string)
    (summaries_from summaries_to : Dict.dict summary)
    (removed_sheets : list string) (renamed_sheets : list (string * string))
    : Prop :=
  forall name_from,
    name_from ∈ sheet_names_from -> name_from ∉ sheet_names_to ->
    match rename_target_new_only sheet_names_from sheet_names_to
            summaries_from summaries_to name_from with
    | Some name_to => (name_from, name_to) ∈ renamed_sheets
    | None => name_from ∈ removed_sheets
    end.

(** No new name is the rename target of two old names. *)
Definition targets_claimed_once (renamed_sheets : list (string * string))
    : Prop :=
  forall name_to old1 old2,
    (old1, name_to) ∈ renamed_sheets -> (old2, name_to) ∈ renamed_sheets ->
    old1 = old2.

(** Every name of the list has a summary. *)
Definition all_summarized (summaries : Dict.dict summary)
    (names : list string) : Prop :=
  Forall (fun name => is_Some (Dict.get summaries name)) names.

(** Summaries for the examples: sheets with the single line [x]. *)
Definition one_line : summary := (["x" +:+ LF], ["A1"]).
Definition summaries_A_B : Dict.dict summary :=
  [("A", one_line); ("B", one_line)].
Definition summaries_B : Dict.dict summary := [("B", one_line)].
Definition summaries_C : Dict.dict summary := [("C", one_line)].


(** An annotation line as the report has it: the text between the escape
    sequence for the colour 232 and the one that resets the format, ended
    by a line feed. *)
Definition annotation_line (text : string) : string :=
  String (ascii_of_nat 27) "[38;5;232m" +:+ text
  +:+ String (ascii_of_nat 27) "[0m" +:+ String (ascii_of_nat 10) "".

(** The annotation of a hunk's body as the specification words it: the
    lines are walked in order with an old-side cursor [i] and a new-side
    cursor [j]; before each line comes one annotation line: [(-old)] for a
    line that starts with [-], [(+new)] for a line that starts with [+],
    [(-old +new)] for any other line, [old] and [new] being the
    coordinates under the cursors, which the line consumes; the walk ends
    when neither cursor is below its count.  [hunk_walk ... i j body out]
    relates the body lines walked from the cursors [i], [j] on to the
    annotated lines. *)
Inductive hunk_walk (from_count to_count : Z)
    (old_coords new_coords : list string)
    : nat -> nat -> list string -> list string -> Prop :=
| walk_done i j :
    ~ (Z.of_nat i < from_count \/ Z.of_nat j < to_count) ->
    hunk_walk from_count to_count old_coords new_coords i j [] []
| walk_removal i j line old_coord body out :
    Z.of_nat i < from_count \/ Z.of_nat j < to_count ->
    startswith "-" line = true ->
    old_coords !! i = Some old_coord ->
    hunk_walk from_count to_count old_coords new_coords (i + 1) j body out ->
    hunk_walk from_count to_count old_coords new_coords i j
      (line :: body)
      (annotation_line ("(-" +:+ old_coord +:+ ")") :: line :: out)
| walk_addition i j line new_coord body out :
    Z.of_nat i < from_count \/ Z.of_nat j < to_count ->
    startswith "-" line = false ->
    startswith "+" line = true ->
    new_coords !! j = Some new_coord ->
    hunk_walk from_count to_count old_coords new_coords i (j + 1) body out ->
    hunk_walk from_count to_count old_coords new_coords i j
      (line :: body)
      (annotation_line ("(+" +:+ new_coord +:+ ")") :: line :: out)
| walk_paired i j line old_coord new_coord body out :
    Z.of_nat i < from_count \/ Z.of_nat j < to_count ->
    startswith "-" line = false ->
    startswith "+" line = false ->
    old_coords !! i = Some old_coord ->
    new_coords !! j = Some new_coord ->
    hunk_walk from_count to_count old_coords new_coords (i + 1) (j + 1)
      body out ->
    hunk_walk from_count to_count old_coords new_coords i j
      (line :: body)
      (annotation_line ("(-" +:+ old_coord +:+ " +" +:+ new_coord +:+ ")")
         :: line :: out).

(** A diff with every hunk annotated: a line that is no hunk header stays;
    a hunk header is followed by its annotated body, for which the two
    coordinate lists are sliced at the header's ranges and both cursors
    start at 0.  No line inside a body is itself a hunk header. *)
Inductive annotated (locations_from locations_to : list string)
    : list string -> list string -> Prop :=
| annotated_nil : annotated locations_from locations_to [] []
| annotated_line line rest out :
    hunk_header line = Ok None ->
    annotated locations_from locations_to rest out ->
    annotated locations_from locations_to (line :: rest) (line :: out)
| annotated_hunk line from_start from_count to_start to_count
      body body_out rest out :
    hunk_header line = Ok (Some (from_start, from_count, to_start, to_count)) ->
    hunk_walk from_count to_count
      (slice locations_from (from_start - 1) (from_start - 1 + from_count))
      (slice locations_to (to_start - 1) (to_start - 1 + to_count))
      0 0 body body_out ->
    Forall (fun l => hunk_header l = Ok None) body ->
    annotated locations_from locations_to rest out ->
    annotated locations_from locations_to
      (line :: body ++ rest) (line :: body_out ++ out).

(** The loop of [line_changes] started at the index [base] with the
    changes [acc]. *)
Definition line_changes_from (base : nat) (acc : list change)
    (diff_list : list string) : result (list change) :=
  foldM
    (fun changes '(index, line) =>
       h ← hunk_header line;
       match h with
       | Some (from_start, from_count, to_start, to_count) =>
           Ok (changes
                 ++ [(from_start, from_count, to_start, to_count, index)])
       | None => Ok changes
       end)
    acc (zip (seq base (length diff_list)) diff_list).

(** A diff of two hunks, and the coordinates of two sheets of ten and
    eleven cells in column A. *)
Definition diff_of_two_hunks : list string :=
  ["--- a"; "+++ b"; "@@ -1,3 +1,3 @@"; " x"; "-y"; "+z"; " w";
   "@@ -10 +10,2 @@"; " k"; "+m"].

Definition coords_A (n : nat) : list string :=
  map (fun k => "A" +:+ pretty k) (seq 1 n).


(** The files on disk once [diff_files] has written its two temporary
    files in the world [w]. *)
Definition files_written (lines_from lines_to : list string) (w : world)
    : gmap string string :=
  <[tmp_name (S (created w)) := join lines_to]>
    (<[tmp_name (created w) := join lines_from]> (tempfiles w)).

(** The world in which [diff_files] returns when the engine has failed
    with the error output [err]. *)
Definition world_after_failure (lines_from lines_to : list string)
    (err : string) (w : world) : world :=
  World (files_written lines_from lines_to w) (S (S (created w)))
        (printed w
           ++ [("An error occurred while running git diff: " +:+ err)
               +:+ LF]).

(** The name [compare_dirs] compares the old sheet [file_name] with. *)
Definition counterpart (renamed_sheets : list (string * string))
    (file_name : string) : string :=
  match List.find (fun item => String.eqb (fst item) file_name)
                  renamed_sheets with
  | Some item => snd item
  | None => file_name
  end.

(** An engine that fails with git's usage error, and one that reports a
    changed line. *)
Definition failing_engine
    : gmap string string -> string -> string -> CompletedProcess :=
  fun _ _ _ => Completed 129 "" "usage: git diff --no-index <path> <path>".

Definition engine_y_to_z
    : gmap string string -> string -> string -> CompletedProcess :=
  fun _ file_from file_to =>
    Completed 1
      ("diff --git a" +:+ file_from +:+ " b" +:+ file_to +:+ LF
       +:+ "index 975fbec..b680253 100644" +:+ LF
       +:+ "--- a" +:+ file_from +:+ LF
       +:+ "+++ b" +:+ file_to +:+ LF
       +:+ "@@ -1 +1 @@" +:+ LF
       +:+ "-y" +:+ LF
       +:+ "+z" +:+ LF)
      "".

(** Summaries of the sheets Sales and Notes for the examples. *)
Definition summaries_Sales_Notes : Dict.dict summary :=
  [("Sales", (["y" +:+ LF], ["B1"])); ("Notes", (["y" +:+ LF], ["A1"]))].

(** Two sheets with one cell each: its text holds a next-line character
    (U+0085) in the old sheet and is [c] in the new one.  Then the
    summaries of the two workbooks, and what [git diff --no-index] answers
    for the two files written from them. *)
Definition NEL : string := String (ascii_of_nat 133) "".

Definition sheet_with_next_line : element :=
  make_sheet
    [make_row (Some "1") [make_cell (Some "A1") (Some ("a" +:+ NEL +:+ "b"))]].

Definition sheet_with_c : element :=
  make_sheet [make_row (Some "1") [make_cell (Some "A1") (Some "c")]].

Definition summaries_next_line : Dict.dict summary :=
  [("Sheet1", (["a" +:+ NEL +:+ "b" +:+ LF], ["A1"]))].

Definition summaries_c : Dict.dict summary :=
  [("Sheet1", (["c" +:+ LF], ["A1"]))].

Definition engine_next_line
    : gmap string string -> string -> string -> CompletedProcess :=
  fun files file_from file_to =>
    if bool_decide (files !! file_from = Some ("a" +:+ NEL +:+ "b" +:+ LF)
                    /\ files !! file_to = Some ("c" +:+ LF))
    then Completed 1
           ("diff --git a" +:+ file_from +:+ " b" +:+ file_to +:+ LF
            +:+ "index 404ae43..f2ad6c7 100644" +:+ LF
            +:+ "--- a" +:+ file_from +:+ LF
            +:+ "+++ b" +:+ file_to +:+ LF
            +:+ "@@ -1 +1 @@" +:+ LF
            +:+ "-a" +:+ NEL +:+ "b" +:+ LF
            +:+ "+c" +:+ LF)
           ""
    else Completed 129 "" "usage: git diff --no-index <path> <path>".

(* ===================================================================== *)
(** ** Auxiliary definitions for the proofs *)
(* ===================================================================== *)

(** The number of a list of letters, as [column_number] computes it. *)
Definition digit_sum (l : list ascii) : Z :=
  fold_left (fun acc c => 26 * acc + (ord c - 64)) l 0.

(** A string rewritten character by character. *)
Fixpoint expand (f : ascii -> string) (s : string) : string :=
  match s with
  | EmptyString => EmptyString
  | String c s' => f c +:+ expand f s'
  end.

(** What [escape_text] makes of one character. *)
Definition escape_char (x : ascii) : string :=
  if Ascii.eqb x (ascii_of_nat 10) then "\n"
  else if Ascii.eqb x (ascii_of_nat 13) then "\r"
  else String x "".

(** What the renderer's first replacement makes of an escaped text, in
    terms of the text [s] that was escaped: a line feed of [s] and a
    backslash followed by [n] come out as a line feed and a space, a
    carriage return as backslash and [r]. *)
Fixpoint line_feeds_shown (s : string) : string :=
  match s with
  | EmptyString => EmptyString
  | String c s' =>
      if Ascii.eqb c (ascii_of_nat 10)
      then String (ascii_of_nat 10) (String " " (line_feeds_shown s'))
      else if Ascii.eqb c (ascii_of_nat 13)
      then String "\" (String "r" (line_feeds_shown s'))
      else if Ascii.eqb c "\" then
        match s' with
        | String d s'' =>
            if Ascii.eqb d "n"
            then String (ascii_of_nat 10) (String " " (line_feeds_shown s''))
            else String c (line_feeds_shown s')
        | EmptyString => String c EmptyString
        end
      else String c (line_feeds_shown s')
  end.

(** What the renderer shows for the escaped text of [s]: as before, and a
    backslash followed by [r] comes out as a carriage return. *)
Fixpoint shown (s : string) : string :=
  match s with
  | EmptyString => EmptyString
  | String c s' =>
      if Ascii.eqb c (ascii_of_nat 10)
      then String (ascii_of_nat 10) (String " " (shown s'))
      else if Ascii.eqb c "\" then
        match s' with
        | String d s'' =>
            if Ascii.eqb d "n"
            then String (ascii_of_nat 10) (String " " (shown s''))
            else if Ascii.eqb d "r"
            then String (ascii_of_nat 13) (shown s'')
            else String c (shown s')
        | EmptyString => String c EmptyString
        end
      else String c (shown s')
  end.

(** How often the character [c] occurs in a text. *)
Fixpoint count_char (c : ascii) (s : string) : nat :=
  match s with
  | EmptyString => 0%nat
  | String c' s' => ((if Ascii.eqb c' c then 1 else 0) + count_char c s')%nat
  end.

(** Two elements with the same tag, attributes and children. *)
Definition same_node (x y : element) : Prop :=
  tag y = tag x /\ attrib y = attrib x /\ children y = children x.

(** What the resolver does to the cells at and below an element. *)
Definition cells_resolved (shared : gmap Z (option string))
    (e e' : element) : Prop :=
  forall p c v raw i,
    at_path e p = Some c -> is_shared_string_cell c = true ->
    find (XMLNS +:+ "v") c = Some v -> text v = Some raw -> int raw = Ok i ->
    exists c' v',
      at_path e' p = Some c' /\ is_shared_string_cell c' = true
      /\ find (XMLNS +:+ "v") c' = Some v'
      /\ text v' = resolved_text shared raw i.

(** What the loop over the cells of a row remembers as the last cell
    location once it has passed the cells [before]. *)
Definition remembered (row_number : Z) (before : list element)
    : option string :=
  match before with
  | [] => None
  | _ :: _ =>
      Some (default ("A" +:+ pretty row_number) (last_reference before))
  end.

(** No character of the string is white space. *)
Definition no_space (s : string) : Prop :=
  Forall (fun c => isspace c = false) (list_ascii_of_string s).


(* ===================================================================== *)
(** ** [get_sheet_names], [get_letters], [replace_shared_strings] *)
(* ===================================================================== *)

(** [get_sheet_names], from the parsed [workbook.xml] on: every [sheet]
    element below the root assigns its [name] to its [sheetId]; both
    [get]s may give [None]. *)
Definition get_sheet_names (root : element)
    : gmap (option string) (option string) :=
  fold_left
    (fun sheet_names sheet =>
       <[get sheet "sheetId" := get sheet "name"]> sheet_names)
    (findall_below (XMLNS +:+ "sheet") root) ∅.

(** [c.isalpha()] on 8-bit code points: the letters of Latin-1. *)
Definition isalpha (c : ascii) : bool :=
  let n := ord c in
  ((65 <=? n) && (n <=? 90)) || ((97 <=? n) && (n <=? 122))
  || (n =? 170) || (n =? 181) || (n =? 186)
  || ((192 <=? n) && (n <=? 214)) || ((216 <=? n) && (n <=? 246))
  || ((248 <=? n) && (n <=? 255)).

(** [''.join([c for c in s if c.isalpha()])] *)
Definition get_letters (s : string) : string :=
  join (map (fun c => String c "")
            (List.filter isalpha (list_ascii_of_string s))).

(** [os.path.join(a, b)] on POSIX. *)
Definition ends_with_slash (a : string) : bool :=
  match String.rev a with
  | String "/" _ => true
  | _ => false
  end.

Definition os_path_join (a b : string) : string :=
  if String.prefix "/" b then b
  else if String.eqb a "" || ends_with_slash a then a +:+ b
  else a +:+ "/" +:+ b.

(** [re.match(r'^sheet\d+\.xml$', file)]: [$] also matches before a line
    feed that ends the string. *)
Definition is_sheet_file (file : string) : bool :=
  match strip_prefix "sheet" file with
  | Some s =>
      match span_digits s with
      | (String _ _, rest) =>
          String.eqb rest ".xml" || String.eqb rest (".xml" +:+ LF)
      | _ => false
      end
  | None => false
  end.

Section Directory.

(** The unpacked package: [read_sheet path] is the content of the file at
    [path], parsed. *)
Variable read_sheet : string -> element.

(** [replace_shared_strings], from the parsed [sharedStrings.xml] on;
    [walk] is what [os.walk(directory)] yields, each directory with the
    names of its files. *)
Definition replace_shared_strings (shared_strings_tree : element)
    (walk : list (string * list string)) : result (Dict.dict element) :=
  let shared_strings := build_shared_strings_map shared_strings_tree in
  foldM
    (fun modified_sheets '(root, files) =>
       foldM
         (fun modified_sheets file =>
            if is_sheet_file file then
              let sheet_path := os_path_join root file in
              modified_content ←
                replace_shared_strings_in_sheet (read_sheet sheet_path)
                                                shared_strings;
              Ok (Dict.set sheet_path modified_content modified_sheets)
            else Ok modified_sheets)
         modified_sheets files)
    [] walk.

End Directory.

(* ===================================================================== *)
(** ** Definitions used to state further properties *)
(* ===================================================================== *)

(** The list [l'] is [l] with lines that satisfy [P] put in. *)
Inductive lines_inserted (P : string -> Prop)
    : list string -> list string -> Prop :=
| inserted_nil : lines_inserted P [] []
| inserted_keep x l l' :
    lines_inserted P l l' -> lines_inserted P (x :: l) (x :: l')
| inserted_new x l l' :
    P x -> lines_inserted P l l' -> lines_inserted P l (x :: l').

(** An annotation line made of coordinates of the two sheets. *)
Definition is_note (locations_from locations_to : list string)
    (line : string) : Prop :=
  (exists c, c ∈ locations_from /\ line = removal_note c)
  \/ (exists c, c ∈ locations_to /\ line = addition_note c)
  \/ (exists c c', c ∈ locations_from /\ c' ∈ locations_to
                   /\ line = paired_note c c').

(** The name [summarize_sheet_files] files a sheet under. *)
Definition sheet_name_of (sheet_names : gmap string string)
    (sheet_path : string) : option string :=
  (fun sheet_id => default "" (sheet_names !! sheet_id))
    <$> search_sheet_id sheet_path.

(** A workbook with two [sheet] elements of the same [sheetId]. *)
Definition workbook_with_duplicate_id : element :=
  Element (XMLNS +:+ "workbook") ∅ None
    [Element (XMLNS +:+ "sheets") ∅ None
       [Element (XMLNS +:+ "sheet")
                {[ "sheetId" := "1"; "name" := "Sales" ]} None [];
        Element (XMLNS +:+ "sheet")
                {[ "sheetId" := "2"; "name" := "Notes" ]} None [];
        Element (XMLNS +:+ "sheet")
                {[ "sheetId" := "1"; "name" := "Totals" ]} None []]].

(** A shared-string table with a plain entry, a rich-text entry (no [t]
    child) and another plain entry. *)
Definition sst_with_rich_text : element :=
  Element (XMLNS +:+ "sst") ∅ None
    [Element (XMLNS +:+ "si") ∅ None
       [Element (XMLNS +:+ "t") ∅ (Some "hello") []];
     Element (XMLNS +:+ "si") ∅ None
       [Element (XMLNS +:+ "r") ∅ None
          [Element (XMLNS +:+ "t") ∅ (Some "rich") []]];
     Element (XMLNS +:+ "si") ∅ None
       [Element (XMLNS +:+ "t") ∅ (Some "world") []]].


(** For the element [e], the resolver has nothing to put in: [e] is no
    shared-string cell, or it has no index text, or its index text reads
    as an integer that the table has no entry for. *)
Definition nothing_to_resolve (shared_strings : gmap Z (option string))
    (e : element) : bool :=
  negb (is_shared_string_cell e) ||
  match find (XMLNS +:+ "v") e with
  | Some v =>
      match text v with
      | Some v_text =>
          match int v_text with
          | Ok index => bool_decide (shared_strings !! index = None)
          | Raise _ => false
          end
      | None => true
      end
  | None => true
  end.


(** The messages of [custom_diff] as they are printed: the text in
    green, red or blue, a line feed, and the escape sequence that resets
    the format. *)
Definition added_message (sheet : string) : string :=
  String (ascii_of_nat 27) "[92mSheet " +:+ sheet +:+ " has been added."
  +:+ String (ascii_of_nat 10) (String (ascii_of_nat 27) "[0m").

Definition removed_message (sheet : string) : string :=
  String (ascii_of_nat 27) "[91mSheet " +:+ sheet +:+ " has been removed."
  +:+ String (ascii_of_nat 10) (String (ascii_of_nat 27) "[0m").

Definition renamed_message (pair : string * string) : string :=
  String (ascii_of_nat 27) "[94mSheet " +:+ fst pair
  +:+ " has been renamed to " +:+ snd pair +:+ "."
  +:+ String (ascii_of_nat 10) (String (ascii_of_nat 27) "[0m").

(** A line of the differences as the report shows it: backslash-n
    replaced by a line feed and a space, then backslash-r by a carriage
    return; in green when the line starts with [+], in red when it starts
    with [-], in blue when it starts with [@@], and plain otherwise. *)
Definition report_line (line : string) : string :=
  let text :=
    replace "\r" (String (ascii_of_nat 13) "")
            (replace "\n" (String (ascii_of_nat 10) " ") line) in
  if String.prefix "+" line
  then String (ascii_of_nat 27) "[92m" +:+ text
       +:+ String (ascii_of_nat 27) "[0m"
  else if String.prefix "-" line
  then String (ascii_of_nat 27) "[91m" +:+ text
       +:+ String (ascii_of_nat 27) "[0m"
  else if String.prefix "@@" line
  then String (ascii_of_nat 27) "[94m" +:+ text
       +:+ String (ascii_of_nat 27) "[0m"
  else text.

(** The world once [custom_diff] has printed its messages about the
    sheets. *)
Definition world_after_messages (added removed : list string)
    (renamed : list (string * string)) (w : world) : world :=
  World (tempfiles w) (created w)
        (printed w ++ map added_message added
         ++ map removed_message removed ++ map renamed_message renamed).

(** A message of [diff_files] about a failure of the engine. *)
Definition is_engine_error (message : string) : Prop :=
  String.prefix "An error occurred while running git diff: " message = true.


(** The number a run of decimal digits stands for, read after [acc]. *)
Definition digits_value (acc : Z) (digits : list ascii) : Z :=
  fold_left (fun a c => 10 * a + (ord c - 48)) digits acc.

(** A hunk header as the engine writes it, with both counts and without. *)
Definition header_text (from_start from_count to_start to_count : Z)
    (rest : string) : string :=
  "@@ -" +:+ pretty from_start +:+ "," +:+ pretty from_count
  +:+ " +" +:+ pretty to_start +:+ "," +:+ pretty to_count
  +:+ " @@" +:+ rest.

Definition header_text_without_counts (from_start to_start : Z)
    (rest : string) : string :=
  "@@ -" +:+ pretty from_start +:+ " +" +:+ pretty to_start
  +:+ " @@" +:+ rest.


(** A run of digits with more digits than [int()] reads. *)
Definition too_long (digits : string) : bool :=
  int_max_str_digits <? Z.of_nat (String.length digits).

(** A hunk header one of whose numbers has more digits than [int()]
    reads. *)
Definition header_too_long (line : string) : bool :=
  match match_hunk_header line with
  | Some (from_start, from_count, to_start, to_count) =>
      too_long from_start
      || from_option too_long false from_count
      || too_long to_start
      || from_option too_long false to_count
  | None => false
  end.


(** The texts of the cells of a sheet that carry text, in document
    order. *)
Definition cell_texts (xml_root : element) : list string :=
  omap cell_value_text (sheet_cells xml_root).


(** A hunk header whose first number has 4301 digits. *)
Definition header_with_long_number : string :=
  "@@ -" +:+ string_of_list_ascii (repeat "1"%char 4301) +:+ " +1 @@".

(* ===================================================================== *)
(** * Properties *)
(* ===================================================================== *)

(** ** Characters and strings *)

Lemma ord_range c : 0 <= ord c < 256.
Proof.
  unfold ord. pose proof (N_ascii_bounded c) as H. lia.
Qed.

Lemma ord_inj c1 c2 : ord c1 = ord c2 -> c1 = c2.
Proof.
  unfold ord. intros H.
  rewrite <- (ascii_N_embedding c1), <- (ascii_N_embedding c2).
  f_equal. lia.
Qed.

Lemma ord_chr n : 0 <= n < 256 -> ord (chr n) = n.
Proof.
  intros H. unfold ord, chr. rewrite N_ascii_embedding; lia.
Qed.

Lemma isupper_AZ_spec c : isupper_AZ c = true <-> 65 <= ord c <= 90.
Proof. unfold isupper_AZ. cbv zeta. rewrite andb_true_iff, !Z.leb_le. tauto. Qed.

Lemma digit_sum_snoc l c : digit_sum (l ++ [c]) = 26 * digit_sum l + (ord c - 64).
Proof. unfold digit_sum. now rewrite fold_left_app. Qed.

Lemma digit_sum_nonneg l : forallb isupper_AZ l = true -> 0 <= digit_sum l.
Proof.
  induction l as [|c l IH] using rev_ind; intros H.
  - reflexivity.
  - rewrite forallb_app in H. apply andb_true_iff in H as [Hl Hc].
    simpl in Hc. rewrite andb_true_r in Hc. apply isupper_AZ_spec in Hc.
    rewrite digit_sum_snoc. specialize (IH Hl). lia.
Qed.

Lemma digit_sum_inj l1 : forall l2,
  forallb isupper_AZ l1 = true -> forallb isupper_AZ l2 = true ->
  digit_sum l1 = digit_sum l2 -> l1 = l2.
Proof.
  induction l1 as [|c1 l1 IH] using rev_ind; intros l2 H1 H2 E.
  - destruct l2 as [|c2 l2 _] using rev_ind; [reflexivity|].
    rewrite forallb_app in H2. apply andb_true_iff in H2 as [Hl Hc].
    simpl in Hc. rewrite andb_true_r in Hc. apply isupper_AZ_spec in Hc.
    rewrite digit_sum_snoc in E. pose proof (digit_sum_nonneg _ Hl).
    change (digit_sum []) with 0 in E. lia.
  - rewrite forallb_app in H1. apply andb_true_iff in H1 as [Hl1 Hc1].
    simpl in Hc1. rewrite andb_true_r in Hc1. apply isupper_AZ_spec in Hc1.
    destruct l2 as [|c2 l2 _] using rev_ind.
    + rewrite digit_sum_snoc in E. pose proof (digit_sum_nonneg _ Hl1).
      change (digit_sum []) with 0 in E. lia.
    + rewrite forallb_app in H2. apply andb_true_iff in H2 as [Hl2 Hc2].
      simpl in Hc2. rewrite andb_true_r in Hc2. apply isupper_AZ_spec in Hc2.
      rewrite !digit_sum_snoc in E.
      assert (digit_sum l1 = digit_sum l2 /\ ord c1 = ord c2) as [E1 E2] by lia.
      f_equal; [now apply IH | f_equal; now apply ord_inj].
Qed.

Lemma append_cons c s r : String c s +:+ r = String c (s +:+ r).
Proof. reflexivity. Qed.

Lemma append_nil_r s : s +:+ "" = s.
Proof. induction s as [|c s IH]; [reflexivity|]. now rewrite append_cons, IH. Qed.

Lemma string_of_list_ascii_snoc hi c r :
  string_of_list_ascii (hi ++ [c]) +:+ r = string_of_list_ascii hi +:+ String c r.
Proof.
  induction hi as [|h hi IH]; [reflexivity|].
  cbn [string_of_list_ascii app]. rewrite !append_cons. f_equal. exact IH.
Qed.

(** The loop of [get_next_excel_column_name], started with any [result] and
    a carry of 0 or 1, on letters read from the last one to the first. *)
Lemma next_column_loop l : forall result carry,
  forallb isupper_AZ l = true -> 0 <= carry <= 1 ->
  exists hi carry',
    fold_left next_column_step l (result, carry)
      = (string_of_list_ascii hi +:+ result, carry')
    /\ 0 <= carry' <= 1
    /\ length hi = length l
    /\ forallb isupper_AZ hi = true
    /\ digit_sum hi + 26 ^ Z.of_nat (length l) * carry'
       = digit_sum (rev l) + carry.
Proof.
  induction l as [|c l IH]; intros result carry Hup Hc.
  - exists [], carry. simpl. repeat split; try lia.
  - simpl in Hup. apply andb_true_iff in Hup as [Hcu Hl].
    apply isupper_AZ_spec in Hcu.
    cbn [fold_left]. unfold next_column_step at 2.
    change (ord "A") with 65.
    set (v := ord c - 65 + carry).
    assert (Hv : 0 <= v <= 26) by (unfold v; lia).
    assert (Hq : 0 <= v `div` 26 <= 1).
    { split; [apply Z.div_pos; lia | apply Z.div_le_upper_bound; lia]. }
    pose proof (Z.mod_pos_bound v 26 ltac:(lia)) as Hm.
    pose proof (Z.div_mod v 26 ltac:(lia)) as Hdm.
    destruct (IH (String (chr (65 + v `mod` 26)) result) (v `div` 26) Hl Hq)
      as (hi & carry' & Hfold & Hc' & Hlen & Hhi & Hsum).
    exists (hi ++ [chr (65 + v `mod` 26)]), carry'.
    split; [|split; [|split; [|split]]].
    + rewrite Hfold. now rewrite string_of_list_ascii_snoc.
    + exact Hc'.
    + rewrite length_app. simpl. lia.
    + rewrite forallb_app, Hhi. simpl. rewrite andb_true_r.
      apply isupper_AZ_spec. rewrite ord_chr; lia.
    + rewrite digit_sum_snoc, ord_chr by lia.
      cbn [rev]. rewrite digit_sum_snoc.
      replace (Z.of_nat (length (c :: l))) with (Z.succ (Z.of_nat (length l)))
        by (simpl; lia).
      rewrite Z.pow_succ_r by lia. unfold v in *. lia.
Qed.

Lemma digit_sum_cons_A l :
  digit_sum ("A"%char :: l) = 26 ^ Z.of_nat (length l) + digit_sum l.
Proof.
  induction l as [|c l IH] using rev_ind.
  - reflexivity.
  - rewrite app_comm_cons, !digit_sum_snoc, IH, length_app. simpl.
    replace (Z.of_nat (length l + 1)) with (Z.succ (Z.of_nat (length l))) by lia.
    rewrite Z.pow_succ_r by lia. lia.
Qed.

Lemma next_column_number s :
  is_column_name s = true ->
  is_column_name (get_next_excel_column_name s) = true
  /\ column_number (get_next_excel_column_name s) = column_number s + 1.
Proof.
  intros Hs. unfold is_column_name in *.
  unfold get_next_excel_column_name, column_number.
  assert (Hrev : forallb isupper_AZ (rev (list_ascii_of_string s)) = true).
  { rewrite forallb_forall in *. intros x Hx. apply Hs. now apply in_rev. }
  destruct (next_column_loop _ EmptyString 1 Hrev ltac:(lia))
    as (hi & carry' & Hfold & Hc' & Hlen & Hhi & Hsum).
  rewrite Hfold. rewrite rev_involutive in Hsum. fold (digit_sum (list_ascii_of_string s)).
  rewrite append_nil_r.
  destruct (Z.eqb_spec carry' 0) as [E|E].
  - rewrite list_ascii_of_string_of_list_ascii. fold (digit_sum hi).
    split; [exact Hhi|]. subst carry'. lia.
  - cbn [list_ascii_of_string]. rewrite list_ascii_of_string_of_list_ascii.
    split.
    + simpl. exact Hhi.
    + fold (digit_sum ("A"%char :: hi)). rewrite digit_sum_cons_A.
      assert (carry' = 1) by lia. subst carry'.
      rewrite length_rev in Hlen. rewrite Hlen. rewrite length_rev in Hsum. lia.
Qed.

(** Claim C7.  On column names (strings of the letters A to Z),
    [get_next_excel_column_name] is the successor in base 26 without a zero
    digit (A=1 ... Z=26): the result is again a column name, its number is
    one more than the argument's, and it is the only column name with that
    number; an overflow of every letter adds a leading "A".  In particular
    A gives B, Z gives AA, AZ gives BA and ZZ gives AAA. *)
Theorem get_next_excel_column_name_successor (s : string)
    (Hs : is_column_name s = true) :
  is_column_name (get_next_excel_column_name s) = true
  /\ column_number (get_next_excel_column_name s) = column_number s + 1
  /\ (forall t, is_column_name t = true ->
        column_number t = column_number s + 1 ->
        t = get_next_excel_column_name s)
  /\ get_next_excel_column_name "A" = "B"
  /\ get_next_excel_column_name "Z" = "AA"
  /\ get_next_excel_column_name "AZ" = "BA"
  /\ get_next_excel_column_name "ZZ" = "AAA".
Proof.
  destruct (next_column_number s Hs) as [Hup Hnum].
  split; [exact Hup|]. split; [exact Hnum|].
  split; [|repeat split; reflexivity].
  intros t Ht Hn.
  rewrite <- (string_of_list_ascii_of_string t).
  rewrite <- (string_of_list_ascii_of_string (get_next_excel_column_name s)).
  f_equal. apply digit_sum_inj; [exact Ht | exact Hup |].
  unfold column_number in Hn, Hnum. unfold digit_sum. congruence.
Qed.

Lemma get_next_excel_column_name_successor_witness :
  is_column_name (get_next_excel_column_name "AZ") = true
  /\ column_number (get_next_excel_column_name "AZ") = column_number "AZ" + 1
  /\ (forall t, is_column_name t = true ->
        column_number t = column_number "AZ" + 1 ->
        t = get_next_excel_column_name "AZ")
  /\ get_next_excel_column_name "A" = "B"
  /\ get_next_excel_column_name "Z" = "AA"
  /\ get_next_excel_column_name "AZ" = "BA"
  /\ get_next_excel_column_name "ZZ" = "AAA".
Proof. apply (get_next_excel_column_name_successor "AZ"). reflexivity. Defined.

(** ** Escaping of line breaks, and what the renderer makes of it *)

Lemma append_nil_l s : "" +:+ s = s.
Proof. reflexivity. Qed.

Ltac norm_append := repeat (rewrite append_cons || rewrite append_nil_l).

Lemma prefix_cons a p b s :
  String.prefix (String a p) (String b s)
  = if Ascii.eqb a b then String.prefix p s else false.
Proof.
  cbn [String.prefix]. destruct (ascii_dec a b) as [->|Hne].
  - now rewrite Ascii.eqb_refl.
  - apply Ascii.eqb_neq in Hne. now rewrite Hne.
Qed.

Lemma prefix_nil s : String.prefix "" s = true.
Proof. now destruct s. Qed.

(** Replacing one character by a string. *)
Lemma replace_char c new s :
  replace (String c "") new s
  = expand (fun x => if Ascii.eqb c x then new else String x "") s.
Proof.
  unfold replace. induction s as [|x s IH]; [reflexivity|].
  cbn [replace_from expand]. rewrite prefix_cons, prefix_nil.
  cbn [String.length Nat.sub]. rewrite IH.
  destruct (Ascii.eqb c x); reflexivity.
Qed.

Lemma append_assoc3 (s1 s2 s3 : string) :
  (s1 +:+ s2) +:+ s3 = s1 +:+ (s2 +:+ s3).
Proof.
  induction s1 as [|c s1 IH]; [reflexivity|].
  rewrite !append_cons. now rewrite IH.
Qed.

Lemma expand_app f s1 s2 :
  expand f (s1 +:+ s2) = expand f s1 +:+ expand f s2.
Proof.
  induction s1 as [|c s1 IH]; [reflexivity|].
  rewrite append_cons. cbn [expand]. rewrite IH.
  now rewrite append_assoc3.
Qed.

Lemma escape_text_expand s : escape_text s = expand escape_char s.
Proof.
  unfold escape_text, LF, CR. rewrite !replace_char.
  induction s as [|x s IH]; [reflexivity|].
  cbn [expand]. rewrite expand_app, IH. f_equal.
  unfold escape_char.
  rewrite (Ascii.eqb_sym x (ascii_of_nat 10)), (Ascii.eqb_sym x (ascii_of_nat 13)).
  destruct (Ascii.eqb (ascii_of_nat 10) x) eqn:E10; [reflexivity|].
  cbn [expand]. rewrite append_nil_r.
  destruct (Ascii.eqb (ascii_of_nat 13) x); reflexivity.
Qed.

Lemma replace_from_0_cons old new c s :
  replace_from 0 old new (String c s)
  = if String.prefix old (String c s)
    then new +:+ replace_from (String.length old - 1) old new s
    else String c (replace_from 0 old new s).
Proof. reflexivity. Qed.

Lemma replace_from_S_cons k old new c s :
  replace_from (S k) old new (String c s) = replace_from k old new s.
Proof. reflexivity. Qed.

(** The two replacements of the renderer on an escaped text, for every
    text: first the line feeds, then the carriage returns. *)
Lemma unescape_line_feeds_upto n : forall s,
  (String.length s <= n)%nat ->
  replace "\n" (LF +:+ " ") (expand escape_char s) = line_feeds_shown s.
Proof.
  unfold replace.
  induction n as [|n IH]; intros s Hlen.
  { destruct s; [reflexivity | cbn in Hlen; lia]. }
  destruct s as [|x s]; [reflexivity|].
  cbn [String.length] in Hlen.
  cbn [expand line_feeds_shown]. unfold escape_char at 1.
  destruct (Ascii.eqb x (ascii_of_nat 10)) eqn:E10.
  { norm_append.
    rewrite replace_from_0_cons, !prefix_cons, prefix_nil.
    change (Ascii.eqb "\" "\") with true. change (Ascii.eqb "n" "n") with true.
    cbn [String.length Nat.sub]. rewrite replace_from_S_cons, IH by lia.
    reflexivity. }
  destruct (Ascii.eqb x (ascii_of_nat 13)) eqn:E13.
  { norm_append.
    rewrite replace_from_0_cons, !prefix_cons.
    change (Ascii.eqb "\" "\") with true. change (Ascii.eqb "n" "r") with false.
    rewrite replace_from_0_cons, !prefix_cons.
    change (Ascii.eqb "\" "r") with false. now rewrite IH by lia. }
  norm_append.
  destruct (Ascii.eqb x "\") eqn:Eb.
  - apply Ascii.eqb_eq in Eb. subst x.
    destruct s as [|d s]; [reflexivity|].
    cbn [String.length] in Hlen.
    destruct (Ascii.eqb d "n") eqn:En.
    + apply Ascii.eqb_eq in En. subst d.
      cbn [expand]. change (escape_char "n") with "n". norm_append.
      rewrite replace_from_0_cons, !prefix_cons, prefix_nil.
      change (Ascii.eqb "\" "\") with true.
      change (Ascii.eqb "n" "n") with true.
      cbn [String.length Nat.sub]. rewrite replace_from_S_cons, IH by lia.
      reflexivity.
    + rewrite replace_from_0_cons.
      assert (Hp : String.prefix "\n" (String "\" (expand escape_char (String d s)))
                   = false).
      { rewrite prefix_cons. change (Ascii.eqb "\" "\") with true.
        cbn [expand]. unfold escape_char at 1.
        destruct (Ascii.eqb d (ascii_of_nat 10));
          [norm_append; now rewrite prefix_cons|].
        destruct (Ascii.eqb d (ascii_of_nat 13));
          [norm_append; now rewrite prefix_cons|].
        norm_append. rewrite prefix_cons.
        now rewrite (Ascii.eqb_sym "n" d), En. }
      rewrite Hp. now rewrite IH by (cbn [String.length]; lia).
  - rewrite replace_from_0_cons, !prefix_cons.
    rewrite (Ascii.eqb_sym "\" x), Eb. now rewrite IH by lia.
Qed.

Lemma unescape_carriage_returns_upto n : forall s,
  (String.length s <= n)%nat ->
  replace "\r" CR (line_feeds_shown s) = shown s.
Proof.
  unfold replace.
  induction n as [|n IH]; intros s Hlen.
  { destruct s; [reflexivity | cbn in Hlen; lia]. }
  destruct s as [|x s]; [reflexivity|].
  cbn [String.length] in Hlen.
  cbn [line_feeds_shown shown].
  destruct (Ascii.eqb x (ascii_of_nat 10)) eqn:E10.
  { rewrite replace_from_0_cons, !prefix_cons.
    change (Ascii.eqb "\" (ascii_of_nat 10)) with false.
    rewrite replace_from_0_cons, !prefix_cons.
    change (Ascii.eqb "\" " ") with false. now rewrite IH by lia. }
  destruct (Ascii.eqb x (ascii_of_nat 13)) eqn:E13.
  { apply Ascii.eqb_eq in E13. subst x.
    change (Ascii.eqb (ascii_of_nat 13) "\") with false.
    rewrite replace_from_0_cons, !prefix_cons, prefix_nil.
    change (Ascii.eqb "\" "\") with true. change (Ascii.eqb "r" "r") with true.
    cbn [String.length Nat.sub]. rewrite replace_from_S_cons, IH by lia.
    reflexivity. }
  destruct (Ascii.eqb x "\") eqn:Eb.
  - apply Ascii.eqb_eq in Eb. subst x.
    destruct s as [|d s]; [reflexivity|].
    cbn [String.length] in Hlen.
    destruct (Ascii.eqb d "n") eqn:En.
    + rewrite replace_from_0_cons, !prefix_cons.
      change (Ascii.eqb "\" (ascii_of_nat 10)) with false.
      rewrite replace_from_0_cons, !prefix_cons.
      change (Ascii.eqb "\" " ") with false. now rewrite IH by lia.
    + destruct (Ascii.eqb d "r") eqn:Er.
      * apply Ascii.eqb_eq in Er. subst d.
        cbn [line_feeds_shown].
        change (Ascii.eqb "r" (ascii_of_nat 10)) with false.
        change (Ascii.eqb "r" (ascii_of_nat 13)) with false.
        change (Ascii.eqb "r" "\") with false.
        rewrite replace_from_0_cons, !prefix_cons, prefix_nil.
        change (Ascii.eqb "\" "\") with true.
        change (Ascii.eqb "r" "r") with true.
        cbn [String.length Nat.sub]. rewrite replace_from_S_cons, IH by lia.
        reflexivity.
      * rewrite replace_from_0_cons.
        assert (Hp : String.prefix "\r" (String "\" (line_feeds_shown (String d s)))
                     = false).
        { rewrite prefix_cons. change (Ascii.eqb "\" "\") with true.
          cbn [line_feeds_shown].
          destruct (Ascii.eqb d (ascii_of_nat 10)); [now rewrite prefix_cons|].
          destruct (Ascii.eqb d (ascii_of_nat 13)); [now rewrite prefix_cons|].
          destruct (Ascii.eqb d "\") eqn:Ed.
          - apply Ascii.eqb_eq in Ed. subst d.
            destruct s as [|d' s]; [now rewrite prefix_cons|].
            destruct (Ascii.eqb d' "n"); now rewrite prefix_cons.
          - rewrite prefix_cons. now rewrite (Ascii.eqb_sym "r" d), Er. }
        rewrite Hp. now rewrite IH by (cbn [String.length]; lia).
  - rewrite replace_from_0_cons, !prefix_cons.
    rewrite (Ascii.eqb_sym "\" x), Eb. now rewrite IH by lia.
Qed.

(** What the report shows for every cell text. *)
Lemma unescape_escape_shown s : unescape_line (escape_text s) = shown s.
Proof.
  unfold unescape_line. rewrite escape_text_expand.
  rewrite (unescape_line_feeds_upto (String.length s)) by lia.
  now apply (unescape_carriage_returns_upto (String.length s)).
Qed.

(** Without an escape sequence in the text, the report shows it with a
    space after every line feed. *)
Lemma shown_indent s :
  has_escape_sequence s = false -> shown s = indent_after_line_feeds s.
Proof.
  induction s as [|x s IH]; intros Hs; [reflexivity|].
  cbn [has_escape_sequence] in Hs. apply orb_false_iff in Hs as [Hx Hs].
  specialize (IH Hs). cbn [shown indent_after_line_feeds].
  destruct (Ascii.eqb x (ascii_of_nat 10)) eqn:E10.
  { apply Ascii.eqb_eq in E10. subst x. now rewrite IH. }
  destruct (Ascii.eqb x "\"); [|now rewrite IH].
  destruct s as [|d s]; [reflexivity|].
  cbn [andb] in Hx. apply orb_false_iff in Hx as [En Er].
  now rewrite En, Er, IH.
Qed.

(** With an escape sequence in the text, the report shows fewer
    backslashes than the text has. *)
Lemma shown_backslashes_upto n : forall s,
  (String.length s <= n)%nat ->
  (count_char "\" (shown s) <= count_char "\" s)%nat
  /\ (has_escape_sequence s = true ->
      (count_char "\" (shown s) < count_char "\" s)%nat).
Proof.
  induction n as [|n IH]; intros s Hlen.
  { destruct s; [split; [reflexivity | discriminate] | cbn in Hlen; lia]. }
  destruct s as [|x s]; [split; [reflexivity | discriminate]|].
  cbn [String.length] in Hlen.
  destruct (IH s ltac:(lia)) as [Hle Hlt].
  cbn [shown has_escape_sequence].
  destruct (Ascii.eqb x (ascii_of_nat 10)) eqn:E10.
  { apply Ascii.eqb_eq in E10. subst x.
    change (Ascii.eqb (ascii_of_nat 10) "\") with false.
    cbn [andb orb count_char].
    change (Ascii.eqb (ascii_of_nat 10) "\") with false.
    change (Ascii.eqb " " "\") with false.
    split; [lia | intros H; specialize (Hlt H); lia]. }
  destruct (Ascii.eqb x "\") eqn:Eb.
  - apply Ascii.eqb_eq in Eb. subst x.
    destruct s as [|d s].
    { cbn. split; [lia | discriminate]. }
    cbn [String.length] in Hlen.
    destruct (IH s ltac:(lia)) as [Hle' _].
    destruct (Ascii.eqb d "n") eqn:En.
    + apply Ascii.eqb_eq in En. subst d. cbn [count_char].
      change (Ascii.eqb (ascii_of_nat 10) "\") with false.
      change (Ascii.eqb " " "\") with false.
      change (Ascii.eqb "\" "\") with true.
      change (Ascii.eqb "n" "\") with false.
      split; [lia | intros _; lia].
    + destruct (Ascii.eqb d "r") eqn:Er.
      * apply Ascii.eqb_eq in Er. subst d. cbn [count_char].
        change (Ascii.eqb (ascii_of_nat 13) "\") with false.
        change (Ascii.eqb "\" "\") with true.
        change (Ascii.eqb "r" "\") with false.
        split; [lia | intros _; lia].
      * cbn [andb orb].
        change (count_char "\" (String "\" (shown (String d s))))
          with (S (count_char "\" (shown (String d s)))).
        change (count_char "\" (String "\" (String d s)))
          with (S (count_char "\" (String d s))).
        split; [lia | intros H; specialize (Hlt H); lia].
  - cbn [andb orb]. cbn [count_char]. rewrite Eb.
    split; [lia | intros H; specialize (Hlt H); lia].
Qed.

Lemma indent_backslashes s :
  count_char "\" (indent_after_line_feeds s) = count_char "\" s.
Proof.
  induction s as [|x s IH]; [reflexivity|].
  cbn [indent_after_line_feeds].
  destruct (Ascii.eqb x (ascii_of_nat 10)) eqn:E10.
  - cbn [count_char]. change (Ascii.eqb " " "\") with false. now rewrite IH.
  - cbn [count_char]. now rewrite IH.
Qed.

Lemma indent_length s :
  (String.length s <= String.length (indent_after_line_feeds s))%nat.
Proof.
  induction s as [|x s IH]; [reflexivity|].
  cbn [indent_after_line_feeds].
  destruct (Ascii.eqb x (ascii_of_nat 10)); cbn [String.length]; lia.
Qed.

Lemma indent_without_line_feed s :
  has_char (ascii_of_nat 10) s = false -> indent_after_line_feeds s = s.
Proof.
  induction s as [|x s IH]; intros Hs; [reflexivity|].
  cbn [has_char] in Hs. apply orb_false_iff in Hs as [Hx Hs].
  cbn [indent_after_line_feeds]. rewrite Hx. now rewrite IH.
Qed.

Lemma indent_fixed s :
  indent_after_line_feeds s = s -> has_char (ascii_of_nat 10) s = false.
Proof.
  induction s as [|x s IH]; intros H; [reflexivity|].
  cbn [indent_after_line_feeds] in H. cbn [has_char].
  destruct (Ascii.eqb x (ascii_of_nat 10)) eqn:E10.
  - injection H as H. pose proof (indent_length s) as Hl.
    rewrite <- H in Hl at 1. cbn [String.length] in Hl. lia.
  - injection H as H. now rewrite (IH H).
Qed.

(** Claim C5, as the program has it.  For a cell text in which no
    backslash is directly followed by [n] or [r], escaping followed by the
    renderer's unescaping gives the text back with a space after every
    line feed (carriage returns come back as they were).  For every other
    text it does not: the renderer takes the backslash and the letter for
    an escaped line break.  So the text comes back unchanged exactly when
    it holds no line feed and no backslash followed by [n] or [r]. *)
Theorem unescape_escape_text (s : string) :
  (has_escape_sequence s = false ->
   unescape_line (escape_text s) = indent_after_line_feeds s)
  /\ (has_escape_sequence s = true ->
      unescape_line (escape_text s) <> indent_after_line_feeds s)
  /\ (unescape_line (escape_text s) = s
      <-> has_escape_sequence s = false
          /\ has_char (ascii_of_nat 10) s = false).
Proof.
  rewrite unescape_escape_shown.
  assert (Hneq : has_escape_sequence s = true ->
                 forall t, count_char "\" t = count_char "\" s ->
                           shown s <> t).
  { intros Hs t Ht E.
    destruct (shown_backslashes_upto (String.length s) s (le_n _)) as [_ Hlt].
    specialize (Hlt Hs). rewrite E, Ht in Hlt. lia. }
  split; [apply shown_indent|].
  split; [intros Hs; apply (Hneq Hs), indent_backslashes|].
  split.
  - intros E. destruct (has_escape_sequence s) eqn:Hs.
    + exfalso. now apply (Hneq eq_refl s).
    + split; [reflexivity|]. apply indent_fixed.
      now rewrite <- (shown_indent s Hs).
  - intros [Hs Hn]. rewrite (shown_indent s Hs).
    now apply indent_without_line_feed.
Qed.

Lemma unescape_escape_text_witness :
  unescape_line (escape_text ("C:\dir" +:+ CR +:+ LF +:+ "b"))
  = "C:\dir" +:+ CR +:+ LF +:+ " b"
  /\ unescape_line (escape_text "C:\dir\file") = "C:\dir\file".
Proof.
  split.
  - apply (unescape_escape_text ("C:\dir" +:+ CR +:+ LF +:+ "b")).
    reflexivity.
  - apply (unescape_escape_text "C:\dir\file"). split; reflexivity.
Defined.

(** Claim C5 as stated fails: a text with a line feed does not come back,
    the renderer puts a space after the line feed; and a text that already
    holds a backslash followed by n comes back with a line feed in its
    place. *)
Lemma unescape_escape_text_not_identity :
  unescape_line (escape_text ("a" +:+ LF +:+ "b")) = "a" +:+ LF +:+ " b"
  /\ unescape_line (escape_text ("a" +:+ LF +:+ "b")) <> "a" +:+ LF +:+ "b"
  /\ unescape_line (escape_text "a\nb") <> "a\nb".
Proof.
  split; [reflexivity|]. split; intros H; vm_compute in H; discriminate H.
Qed.

(** ** The sheet summarizer *)

Lemma result_bind_ok {A B} (f : A -> result B) a : (Ok a ≫= f) = f a.
Proof. reflexivity. Qed.

Lemma result_bind_raise {A B} (f : A -> result B) e : (Raise e ≫= f) = Raise e.
Proof. reflexivity. Qed.

Lemma summary_entries_app l1 l2 :
  summary_entries (l1 ++ l2) = summary_entries l1 ++ summary_entries l2.
Proof. unfold summary_entries. apply omap_app. Qed.

Lemma summary_entries_cons cell cell_location l :
  summary_entries ((cell, cell_location) :: l)
  = match cell_value_text cell with
    | Some value_text =>
        (escape_text value_text +:+ LF, cell_location) :: summary_entries l
    | None => summary_entries l
    end.
Proof.
  unfold summary_entries. cbn. now destruct (cell_value_text cell).
Qed.

Lemma foldM_cons {A S} (f : S -> A -> result S) s x l :
  foldM f s (x :: l) = f s x ≫= fun s' => foldM f s' l.
Proof. reflexivity. Qed.

Lemma cell_step_unfold row_number last lines locs cell :
  cell_step row_number (CellLoop last lines locs) cell
  = match locate_cell row_number last cell with
    | Ok (cell_location, last') =>
        match cell_value_text cell with
        | Some value_text =>
            Ok (CellLoop last' (lines ++ [escape_text value_text +:+ LF])
                         (locs ++ [cell_location]))
        | None => Ok (CellLoop last' lines locs)
        end
    | Raise e => Raise e
    end.
Proof.
  unfold cell_step. cbn [last_cell_location elements_text location].
  now destruct (locate_cell row_number last cell) as [[? ?]|?].
Qed.

Lemma row_step_unfold row_number lines locs row :
  row_step (row_number, lines, locs) row
  = match (match get row "r" with
           | Some r => int r
           | None => Ok (row_number + 1)
           end) with
    | Ok n =>
        match foldM (cell_step n) (CellLoop None lines locs)
                    (findall (XMLNS +:+ "c") row) with
        | Ok st => Ok (n, elements_text st, location st)
        | Raise e => Raise e
        end
    | Raise e => Raise e
    end.
Proof.
  unfold row_step.
  destruct (match get row "r" with
            | Some r => int r
            | None => Ok (row_number + 1)
            end) as [n|e]; [|reflexivity].
  rewrite result_bind_ok.
  now destruct (foldM (cell_step n) (CellLoop None lines locs)
                  (findall (XMLNS +:+ "c") row)).
Qed.

(** What [returned] tells about a computation. *)
Lemma returned_Some {A} (r : result A) a : returned r = Some a -> r = Ok a.
Proof. destruct r; [now intros [= ->] | discriminate]. Qed.

Lemma returned_None {A} (r : result A) :
  returned r = None -> exists e, r = Raise e.
Proof. destruct r as [a|e]; [discriminate | now exists e]. Qed.

Lemma str_Ok n text : str n = Ok text -> text = pretty n.
Proof.
  unfold str. cbv zeta.
  destruct (int_max_str_digits <? count_digits (pretty n));
    [discriminate | now intros [= <-]].
Qed.

Lemma last_reference_snoc before cell :
  last_reference (before ++ [cell])
  = match get cell "r" with
    | Some reference => Some reference
    | None => last_reference before
    end.
Proof.
  unfold last_reference. rewrite omap_app. cbn [omap list_omap].
  destruct (get cell "r"); [apply last_snoc | now rewrite app_nil_r].
Qed.

Lemma remembered_snoc row_number before cell :
  remembered row_number (before ++ [cell])
  = Some (default ("A" +:+ pretty row_number)
                  (last_reference (before ++ [cell]))).
Proof. now destruct before. Qed.

(** One cell: the loop gives it the coordinate [cell_coordinate] says,
    and goes on remembering what [remembered] says. *)
Lemma locate_cell_coordinate row_number before cell :
  returned (locate_cell row_number (remembered row_number before) cell)
  = (fun cell_location =>
       (cell_location, remembered row_number (before ++ [cell])))
      <$> cell_coordinate row_number before cell.
Proof.
  unfold locate_cell, cell_coordinate.
  rewrite remembered_snoc, last_reference_snoc.
  destruct (get cell "r") as [reference|]; [reflexivity|].
  destruct before as [|c0 before].
  - cbn [remembered last_reference omap list_omap last default].
    destruct (str row_number) as [number|e] eqn:Hn; [|reflexivity].
    apply str_Ok in Hn. subst number. reflexivity.
  - cbn [remembered].
    destruct (str row_number) as [number|e] eqn:Hn.
    + apply str_Ok in Hn. subst number.
      cbn [returned mbind option_bind].
      now destruct (pattern_match_group1
                      (default ("A" +:+ pretty row_number)
                               (last_reference (c0 :: before)))).
    + cbn [returned mbind option_bind].
      now destruct (pattern_match_group1
                      (default ("A" +:+ pretty row_number)
                               (last_reference (c0 :: before)))).
Qed.

(** The loop over the cells of a row appends the entries of the cells with
    their coordinates to the two lists, and raises when a cell has no
    coordinate. *)
Lemma cell_loop_coordinates row_number cells : forall before lines locs,
  returned ((fun st => (elements_text st, location st))
              <$> foldM (cell_step row_number)
                        (CellLoop (remembered row_number before) lines locs)
                        cells)
  = (fun located =>
       (lines ++ map fst (summary_entries located),
        locs ++ map snd (summary_entries located)))
      <$> row_coordinates row_number before cells.
Proof.
  induction cells as [|cell cells IH]; intros before lines locs.
  - cbn. now rewrite !app_nil_r.
  - rewrite foldM_cons, cell_step_unfold. cbn [row_coordinates].
    pose proof (locate_cell_coordinate row_number before cell) as Hc.
    destruct (locate_cell row_number (remembered row_number before) cell)
      as [[cell_location last']|e].
    + destruct (cell_coordinate row_number before cell) as [c|];
        [|discriminate Hc].
      cbn in Hc. injection Hc as -> ->.
      cbn [mbind option_bind].
      destruct (cell_value_text cell) as [value_text|] eqn:Ev;
        rewrite result_bind_ok, IH;
        (destruct (row_coordinates row_number (before ++ [cell]) cells)
           as [located|]; [|reflexivity]);
        cbn [fmap option_fmap option_map mbind option_bind];
        rewrite summary_entries_cons, Ev; cbn [map fst snd];
        now rewrite <- ?app_assoc.
    + destruct (cell_coordinate row_number before cell) as [c|];
        [discriminate Hc|]. reflexivity.
Qed.

Lemma row_loop_coordinates rows : forall previous lines locs,
  returned ((fun st => (snd (fst st), snd st))
              <$> foldM row_step (previous, lines, locs) rows)
  = (fun located =>
       (lines ++ map fst (summary_entries located),
        locs ++ map snd (summary_entries located)))
      <$> rows_coordinates previous rows.
Proof.
  induction rows as [|row rows IH]; intros previous lines locs.
  - cbn. now rewrite !app_nil_r.
  - rewrite foldM_cons, row_step_unfold. cbn [rows_coordinates].
    destruct (get row "r") as [r|].
    + destruct (int r) as [n|e]; [|reflexivity].
      cbn [returned mbind option_bind].
      pose proof (cell_loop_coordinates n (findall (XMLNS +:+ "c") row)
                    [] lines locs) as Hc.
      cbn [remembered] in Hc.
      destruct (foldM (cell_step n) (CellLoop None lines locs)
                  (findall (XMLNS +:+ "c") row)) as [st|e].
      * destruct (row_coordinates n [] (findall (XMLNS +:+ "c") row))
          as [here|]; [|discriminate Hc].
        cbn in Hc. injection Hc as Hl Hs.
        rewrite result_bind_ok, IH. cbn [mbind option_bind].
        destruct (rows_coordinates n rows) as [below|]; [|reflexivity].
        cbn [fmap option_fmap option_map mbind option_bind].
        rewrite Hl, Hs, summary_entries_app, !map_app.
        now rewrite <- !app_assoc.
      * destruct (row_coordinates n [] (findall (XMLNS +:+ "c") row))
          as [here|]; [discriminate Hc|]. reflexivity.
    + cbn [returned mbind option_bind].
      pose proof (cell_loop_coordinates (previous + 1)
                    (findall (XMLNS +:+ "c") row) [] lines locs) as Hc.
      cbn [remembered] in Hc.
      destruct (foldM (cell_step (previous + 1)) (CellLoop None lines locs)
                  (findall (XMLNS +:+ "c") row)) as [st|e].
      * destruct (row_coordinates (previous + 1) []
                    (findall (XMLNS +:+ "c") row))
          as [here|]; [|discriminate Hc].
        cbn in Hc. injection Hc as Hl Hs.
        rewrite result_bind_ok, IH. cbn [mbind option_bind].
        destruct (rows_coordinates (previous + 1) rows) as [below|];
          [|reflexivity].
        cbn [fmap option_fmap option_map mbind option_bind].
        rewrite Hl, Hs, summary_entries_app, !map_app.
        now rewrite <- !app_assoc.
      * destruct (row_coordinates (previous + 1) []
                    (findall (XMLNS +:+ "c") row))
          as [here|]; [discriminate Hc|]. reflexivity.
Qed.

(** The summarizer returns exactly when every cell of the sheet has a
    coordinate, and then the summary is made of the entries of the cells
    with their coordinates. *)
Lemma summarize_sheet_coordinates xml_root :
  returned (summarize_sheet xml_root)
  = (fun located =>
       (map fst (summary_entries located),
        map snd (summary_entries located)))
      <$> sheet_coordinates xml_root.
Proof.
  unfold summarize_sheet, sheet_coordinates.
  pose proof (row_loop_coordinates (findall_below (XMLNS +:+ "row") xml_root)
                0 [] []) as H.
  destruct (foldM row_step (0, [], [])
              (findall_below (XMLNS +:+ "row") xml_root))
    as [[[n lines] locs]|e].
  - destruct (rows_coordinates 0 (findall_below (XMLNS +:+ "row") xml_root))
      as [located|]; [|discriminate H].
    cbn in H. injection H as Hl Hs. cbn. now rewrite Hl, Hs.
  - destruct (rows_coordinates 0 (findall_below (XMLNS +:+ "row") xml_root))
      as [located|]; [discriminate H|]. reflexivity.
Qed.

Lemma row_coordinates_spec row_number cells : forall before located,
  row_coordinates row_number before cells = Some located ->
  map fst located = cells
  /\ (forall cell loc r, (cell, loc) ∈ located ->
        get cell "r" = Some r -> loc = r).
Proof.
  induction cells as [|cell cells IH]; intros before located H.
  - injection H as <-. split; [reflexivity|]. intros ? ? ? Hin.
    apply elem_of_nil in Hin as [].
  - cbn [row_coordinates] in H.
    destruct (cell_coordinate row_number before cell) as [loc0|] eqn:E0;
      [|discriminate H].
    cbn [mbind option_bind] in H.
    destruct (row_coordinates row_number (before ++ [cell]) cells)
      as [tl|] eqn:E1; [|discriminate H].
    injection H as <-. destruct (IH _ _ E1) as [Hfst Href].
    split; [cbn; now rewrite Hfst|].
    intros c loc r Hin Hr. apply elem_of_cons in Hin as [Heq|Hin].
    + injection Heq as -> ->. unfold cell_coordinate in E0.
      rewrite Hr in E0. now injection E0 as <-.
    + now apply (Href c loc r).
Qed.

Lemma rows_coordinates_spec rows : forall previous located,
  rows_coordinates previous rows = Some located ->
  map fst located = flat_map (findall (XMLNS +:+ "c")) rows
  /\ (forall cell loc r, (cell, loc) ∈ located ->
        get cell "r" = Some r -> loc = r).
Proof.
  induction rows as [|row rows IH]; intros previous located H.
  - injection H as <-. split; [reflexivity|]. intros ? ? ? Hin.
    apply elem_of_nil in Hin as [].
  - cbn [rows_coordinates] in H.
    destruct (match get row "r" with
              | Some r => returned (int r)
              | None => Some (previous + 1)
              end) as [n|]; [|discriminate H].
    cbn [mbind option_bind] in H.
    destruct (row_coordinates n [] (findall (XMLNS +:+ "c") row))
      as [here|] eqn:E0; [|discriminate H].
    cbn [mbind option_bind] in H.
    destruct (rows_coordinates n rows) as [below|] eqn:E1; [|discriminate H].
    injection H as <-.
    destruct (row_coordinates_spec _ _ _ _ E0) as [Hfst0 Href0].
    destruct (IH _ _ E1) as [Hfst1 Href1].
    split; [cbn [flat_map]; now rewrite map_app, Hfst0, Hfst1|].
    intros c loc r Hin Hr. apply elem_of_app in Hin as [Hin|Hin]; eauto.
Qed.

Lemma summary_entries_length located :
  length (summary_entries located)
  = length (List.filter (fun cell => bool_decide (is_Some (cell_value_text cell)))
                        (map fst located)).
Proof.
  induction located as [|[cell loc] located IH]; [reflexivity|].
  rewrite summary_entries_cons. cbn [map fst List.filter].
  destruct (cell_value_text cell) as [t|]; cbn; now rewrite IH.
Qed.

Lemma summary_entries_no_text located :
  Forall (fun cell => cell_value_text cell = None) (map fst located) ->
  summary_entries located = [].
Proof.
  induction located as [|[cell loc] located IH]; intros H; [reflexivity|].
  cbn in H. apply Forall_cons in H as [H0 H].
  rewrite summary_entries_cons, H0. now apply IH.
Qed.

(** Claim C10, as the program has it.  The summarizer returns a summary
    exactly for the sheets in which every row number can be read and every
    cell has a coordinate ([sheet_coordinates]); on every other sheet it
    raises.  When it returns, the summary is made of the entries
    [(line, coordinate)] of the cells that carry text, in document order:
    the lines are the first components and the coordinates the second
    components of one and the same list, so the two sequences have the
    same length and the i-th coordinate is that of the cell of the i-th
    line; there is one entry for each cell with text; a cell with a
    reference has it as its coordinate; and a sheet without text cells has
    the summary of two empty sequences. *)
Theorem summarize_sheet_parallel (xml_root : element) :
  (forall cells,
     sheet_coordinates xml_root = Some cells ->
     summarize_sheet xml_root
     = Ok (map fst (summary_entries cells), map snd (summary_entries cells))
     /\ length (map fst (summary_entries cells))
        = length (map snd (summary_entries cells))
     /\ (forall i line loc,
           summary_entries cells !! i = Some (line, loc) ->
           map fst (summary_entries cells) !! i = Some line
           /\ map snd (summary_entries cells) !! i = Some loc)
     /\ map fst cells = sheet_cells xml_root
     /\ length (summary_entries cells)
        = length (List.filter
                    (fun cell => bool_decide (is_Some (cell_value_text cell)))
                    (sheet_cells xml_root))
     /\ (forall cell loc r, (cell, loc) ∈ cells ->
           get cell "r" = Some r -> loc = r)
     /\ (Forall (fun cell => cell_value_text cell = None)
                (sheet_cells xml_root) ->
         summarize_sheet xml_root = Ok ([], [])))
  /\ (sheet_coordinates xml_root = None ->
      exists e, summarize_sheet xml_root = Raise e).
Proof.
  pose proof (summarize_sheet_coordinates xml_root) as Hret.
  split.
  - intros cells Hcells. rewrite Hcells in Hret. apply returned_Some in Hret.
    destruct (rows_coordinates_spec _ _ _ Hcells) as [Hfst Href].
    fold (sheet_cells xml_root) in Hfst.
    split; [exact Hret|]. split; [now rewrite !length_map|].
    split.
    { intros i line loc Hi. rewrite !list_lookup_fmap, Hi. now split. }
    split; [exact Hfst|].
    split; [now rewrite summary_entries_length, Hfst|].
    split; [exact Href|].
    intros Hnone. rewrite Hret, summary_entries_no_text; [reflexivity|].
    now rewrite Hfst.
  - intros Hnone. rewrite Hnone in Hret. now apply returned_None.
Qed.

Lemma summarize_sheet_parallel_witness :
  summarize_sheet sheet_two_rows
  = Ok (["x" +:+ LF; "z" +:+ LF; "q" +:+ LF], ["A7"; "D7"; "AZ8"])
  /\ sheet_coordinates sheet_two_rows
     = Some [(make_cell None (Some "x"), "A7");
             (make_cell (Some "C7") None, "C7");
             (make_cell None (Some "z"), "D7");
             (make_cell (Some "AZ8") (Some "q"), "AZ8")].
Proof.
  assert (H : sheet_coordinates sheet_two_rows
     = Some [(make_cell None (Some "x"), "A7");
             (make_cell (Some "C7") None, "C7");
             (make_cell None (Some "z"), "D7");
             (make_cell (Some "AZ8") (Some "q"), "AZ8")])
    by (vm_compute; reflexivity).
  split; [|exact H].
  destruct (summarize_sheet_parallel sheet_two_rows) as [Hsome _].
  destruct (Hsome _ H) as [Hs _].
  rewrite Hs. vm_compute. reflexivity.
Defined.

(** Claim C10 as stated fails: a sheet without any cell, and so without
    text cells, whose row has a number that is no integer makes the
    summarizer raise [ValueError]; it does not yield two empty
    sequences. *)
Lemma summarize_sheet_raises_without_text_cells :
  sheet_cells sheet_unreadable_row = []
  /\ summarize_sheet sheet_unreadable_row = Raise ValueError
  /\ summarize_sheet sheet_unreadable_row <> Ok ([], []).
Proof.
  split; [reflexivity|]. split; [vm_compute; reflexivity|].
  intros H. vm_compute in H. discriminate H.
Qed.

(** Claim C1, at the input where the program departs from it.  In a row
    whose first cell has the reference A1 and whose next two cells have
    none, both cells without a reference get the coordinate B1: the second
    of them is not given the successor C of the column of the cell before
    it. *)
Theorem summarize_sheet_repeats_coordinate :
  summarize_sheet sheet_A1_then_two_bare_cells
  = Ok (["x" +:+ LF; "y" +:+ LF; "z" +:+ LF], ["A1"; "B1"; "B1"]).
Proof. vm_compute. reflexivity. Qed.

(** ** The shared-string resolver *)

(** Induction on elements, with the property known for all children. *)
Lemma element_tree_ind (P : element -> Prop) :
  (forall t a x cs, Forall P cs -> P (Element t a x cs)) ->
  forall e, P e.
Proof.
  intros step. fix IH 1. intros [t a x cs]. apply step.
  induction cs as [|c cs IHcs]; constructor; [apply IH | exact IHcs].
Qed.

Lemma mapM_result_Forall2 {A B} (f : A -> result B) (R : A -> B -> Prop) l :
  Forall (fun x => exists y, f x = Ok y /\ R x y) l ->
  exists l', mapM f l = Ok l' /\ Forall2 R l l'.
Proof.
  induction 1 as [|x l (y & Hy & HR) _ (l' & Hl' & HF)].
  - exists []. split; [reflexivity | constructor].
  - exists (y :: l'). split; [|now constructor].
    cbn. rewrite Hy, result_bind_ok. cbn in Hl'. now rewrite Hl'.
Qed.

Lemma find_Forall2_text t (R : element -> element -> Prop) cs cs' v :
  Forall2 (fun x y => tag y = tag x /\ R x y) cs cs' ->
  List.find (has_tag t) cs = Some v ->
  exists v', List.find (has_tag t) cs' = Some v' /\ R v v'.
Proof.
  induction 1 as [|x y cs cs' [Ht HR] _ IH]; intros Hf; [discriminate|].
  cbn [List.find] in *. unfold has_tag in *. rewrite Ht.
  destruct (String.eqb (tag x) t).
  - injection Hf as <-. now exists y.
  - now apply IH.
Qed.

Lemma find_Forall2_none t (R : element -> element -> Prop) cs cs' :
  Forall2 (fun x y => tag y = tag x /\ R x y) cs cs' ->
  List.find (has_tag t) cs = None ->
  List.find (has_tag t) cs' = None.
Proof.
  induction 1 as [|x y cs cs' [Ht HR] _ IH]; intros Hf; [reflexivity|].
  cbn [List.find] in *. unfold has_tag in *. rewrite Ht.
  destruct (String.eqb (tag x) t); [discriminate | now apply IH].
Qed.

(** The loop body on the children of a cell: it succeeds when the text of
    the first [v] reads as an integer, changes nothing but the text of that
    [v], and leaves the resolved text there. *)
Lemma resolve_first_v_spec shared cs :
  match List.find (has_tag (XMLNS +:+ "v")) cs with
  | Some v => match text v with
              | Some raw => is_ok (int raw)
              | None => true
              end
  | None => true
  end = true ->
  exists cs',
    resolve_first_v shared cs = Ok cs'
    /\ Forall2 (fun x y => same_node x y
                  /\ (has_tag (XMLNS +:+ "v") x = false -> y = x)) cs cs'
    /\ (forall v raw i,
          List.find (has_tag (XMLNS +:+ "v")) cs = Some v ->
          text v = Some raw -> int raw = Ok i ->
          exists v', List.find (has_tag (XMLNS +:+ "v")) cs' = Some v'
                     /\ text v' = resolved_text shared raw i).
Proof.
  assert (Hrefl : forall l : list element,
            Forall2 (fun x y => same_node x y
                  /\ (has_tag (XMLNS +:+ "v") x = false -> y = x)) l l).
  { intros l. apply Forall2_same_length_lookup_2; [reflexivity|].
    intros k x y Hx Hy. rewrite Hx in Hy. injection Hy as <-.
    now repeat split. }
  induction cs as [|x cs IH]; intros Hok.
  - exists []. split; [reflexivity|]. split; [constructor|]. discriminate.
  - cbn [resolve_first_v List.find] in *.
    destruct (has_tag (XMLNS +:+ "v") x) eqn:Hx.
    + destruct (text x) as [raw|] eqn:Hraw.
      * destruct (int raw) as [i|e] eqn:Hint; [|discriminate Hok].
        rewrite result_bind_ok.
        destruct (shared !! i) as [s|] eqn:Hs.
        -- exists (set_text s x :: cs). split; [reflexivity|]. split.
           ++ constructor; [|apply Hrefl]. split; [|congruence].
              destruct x; now repeat split.
           ++ intros v raw' i' Hv Hr Hi. injection Hv as <-.
              rewrite Hraw in Hr. injection Hr as <-.
              rewrite Hint in Hi. injection Hi as <-.
              exists (set_text s x). cbn [List.find].
              assert (Ht : has_tag (XMLNS +:+ "v") (set_text s x) = true)
                by (destruct x; exact Hx).
              rewrite Ht. split; [reflexivity|].
              unfold resolved_text. rewrite Hs. now destruct x.
        -- exists (x :: cs). split; [reflexivity|]. split; [apply Hrefl|].
           intros v raw' i' Hv Hr Hi. injection Hv as <-.
           rewrite Hraw in Hr. injection Hr as <-.
           rewrite Hint in Hi. injection Hi as <-.
           exists x. cbn [List.find]. rewrite Hx. split; [reflexivity|].
           unfold resolved_text. now rewrite Hs.
      * exists (x :: cs). split; [reflexivity|]. split; [apply Hrefl|].
        intros v raw i Hv Hr. injection Hv as <-. congruence.
    + destruct (IH Hok) as (cs' & Hres & HF & Hfind).
      exists (x :: cs'). split; [now rewrite Hres|]. split.
      * constructor; [|exact HF]. now repeat split.
      * intros v raw i Hv Hr Hi. cbn [List.find]. rewrite Hx. eauto.
Qed.

Lemma at_path_same_children x y p :
  p <> [] -> children y = children x -> at_path y p = at_path x p.
Proof. destruct p as [|k p]; [congruence|]. intros _ H. cbn. now rewrite H. Qed.

Lemma shared_cell_same_node x y :
  same_node x y -> is_shared_string_cell y = is_shared_string_cell x.
Proof.
  intros (Ht & Ha & _). unfold is_shared_string_cell, has_tag, get.
  now rewrite Ht, Ha.
Qed.

Lemma shared_cell_is_not_v x :
  is_shared_string_cell x = true -> has_tag (XMLNS +:+ "v") x = false.
Proof.
  unfold is_shared_string_cell, has_tag. intros H.
  apply andb_true_iff in H as [H _]. apply String.eqb_eq in H. now rewrite H.
Qed.

Lemma forallb_flat_map_subtree (f : element -> bool) cs :
  forallb f (flat_map subtree cs) = true ->
  Forall (fun c => forallb f (subtree c) = true) cs.
Proof.
  induction cs as [|c cs IH]; intros H; constructor.
  - cbn [flat_map] in H. rewrite forallb_app in H.
    now apply andb_true_iff in H as [H _].
  - apply IH. cbn [flat_map] in H. rewrite forallb_app in H.
    now apply andb_true_iff in H as [_ H].
Qed.

Lemma resolve_subtree_spec shared e :
  forallb index_text_ok (subtree e) = true ->
  exists e',
    resolve_subtree shared e = Ok e'
    /\ tag e' = tag e /\ attrib e' = attrib e /\ text e' = text e
    /\ cells_resolved shared e e'.
Proof.
  induction e as [t a x cs IH] using element_tree_ind. intros Hok.
  cbn [subtree forallb] in Hok. apply andb_true_iff in Hok as [Hhere Hbelow].
  apply forallb_flat_map_subtree in Hbelow.
  assert (HF : Forall (fun c => exists c',
                resolve_subtree shared c = Ok c'
                /\ (tag c' = tag c
                    /\ (attrib c' = attrib c /\ text c' = text c
                        /\ cells_resolved shared c c'))) cs).
  { rewrite Forall_forall in *. intros c Hc.
    destruct (IH c Hc (Hbelow c Hc)) as (c' & ? & ? & ? & ? & ?).
    exists c'. auto. }
  apply mapM_result_Forall2 in HF as (cs1 & Hmap & HF1).
  set (e := Element t a x cs) in *.
  assert (Hstep : exists cs2,
    (if is_shared_string_cell e then resolve_first_v shared cs1 else Ok cs1)
      = Ok cs2
    /\ Forall2 (fun x y => same_node x y
                  /\ (has_tag (XMLNS +:+ "v") x = false -> y = x)) cs1 cs2
    /\ (is_shared_string_cell e = true ->
        forall v raw i,
          List.find (has_tag (XMLNS +:+ "v")) cs1 = Some v ->
          text v = Some raw -> int raw = Ok i ->
          exists v', List.find (has_tag (XMLNS +:+ "v")) cs2 = Some v'
                     /\ text v' = resolved_text shared raw i)).
  { destruct (is_shared_string_cell e) eqn:Hsh.
    - unfold index_text_ok in Hhere. rewrite Hsh in Hhere. cbn in Hhere.
      destruct (resolve_first_v_spec shared cs1) as (cs2 & H1 & H2 & H3).
      + unfold find in Hhere. cbn [children] in Hhere.
        destruct (List.find (has_tag (XMLNS +:+ "v")) cs) as [v|] eqn:Hv.
        * destruct (find_Forall2_text _ _ _ _ _ HF1 Hv)
            as (v1 & Hv1 & _ & Htx & _).
          rewrite Hv1, Htx. exact Hhere.
        * now rewrite (find_Forall2_none _ _ _ _ HF1 Hv).
      + exists cs2. auto.
    - exists cs1. split; [reflexivity|]. split; [|discriminate].
      apply Forall2_same_length_lookup_2; [reflexivity|].
      intros k y z Hy Hz. rewrite Hy in Hz. injection Hz as <-.
      now repeat split. }
  destruct Hstep as (cs2 & Hres & HF2 & Hv2). subst e.
  exists (Element t a x cs2). split.
  { cbn [resolve_subtree]. rewrite Hmap, result_bind_ok.
    now rewrite Hres. }
  split; [reflexivity|]. split; [reflexivity|]. split; [reflexivity|].
  intros p c v raw i Hp Hc Hv Hr Hi.
  destruct p as [|k p].
  - injection Hp as <-. exists (Element t a x cs2).
    unfold find in Hv. cbn [children] in Hv.
    destruct (find_Forall2_text _ _ _ _ _ HF1 Hv) as (v1 & Hv1 & _ & Htx & _).
    destruct (Hv2 Hc v1 raw i Hv1 ltac:(congruence) Hi) as (v' & Hv' & Ht').
    exists v'. repeat split; [exact Hc | exact Hv' | exact Ht'].
  - cbn [at_path children] in Hp |- *.
    destruct (cs !! k) as [y|] eqn:Hk; [|discriminate Hp].
    destruct (Forall2_lookup_l _ _ _ _ _ HF1 Hk)
      as (y1 & Hk1 & _ & _ & _ & Hcells).
    destruct (Forall2_lookup_l _ _ _ _ _ HF2 Hk1) as (y2 & Hk2 & Hsame & Hid).
    destruct (Hcells p c v raw i Hp Hc Hv Hr Hi)
      as (c1 & v1 & Hp1 & Hc1 & Hv1 & Ht1).
    rewrite Hk2. destruct p as [|k' p].
    + injection Hp1 as <-. rewrite (Hid (shared_cell_is_not_v _ Hc1)).
      exists y1, v1. auto.
    + exists c1, v1. split; [|auto].
      rewrite <- Hp1. apply at_path_same_children; [discriminate|].
      apply Hsame.
Qed.

(** Claim C8.  When the index text of every shared-string cell of the
    sheet reads as an integer ([int] raises otherwise, also on a literal
    of more digits than it reads), the resolver
    returns the sheet in which every shared-string cell whose
    index text reads as the integer [i] holds, as the text of its value
    element, the table's entry for [i] when the table has one, and its
    original text when the table has none.  This holds for any integer, so
    for the non-negative ones. *)
Theorem replace_shared_strings_in_sheet_resolves (tree : element)
    (shared_strings : gmap Z (option string))
    (Hok : indices_ok tree = true) :
  exists tree',
    replace_shared_strings_in_sheet tree shared_strings = Ok tree'
    /\ forall p c v raw i,
         p <> [] -> at_path tree p = Some c ->
         is_shared_string_cell c = true ->
         find (XMLNS +:+ "v") c = Some v -> text v = Some raw ->
         int raw = Ok i ->
         exists c' v',
           at_path tree' p = Some c' /\ is_shared_string_cell c' = true
           /\ find (XMLNS +:+ "v") c' = Some v'
           /\ text v' = match shared_strings !! i with
                        | Some s => s
                        | None => Some raw
                        end.
Proof.
  destruct tree as [t a x cs]. unfold indices_ok in Hok. cbn [children] in Hok.
  apply forallb_flat_map_subtree in Hok.
  assert (HF : Forall (fun c => exists c',
                resolve_subtree shared_strings c = Ok c'
                /\ cells_resolved shared_strings c c') cs).
  { rewrite Forall_forall in *. intros c Hc.
    destruct (resolve_subtree_spec shared_strings c (Hok c Hc))
      as (c' & ? & _ & _ & _ & ?).
    exists c'. auto. }
  apply mapM_result_Forall2 in HF as (cs1 & Hmap & HF1).
  exists (Element t a x cs1). split.
  { cbn [replace_shared_strings_in_sheet]. now rewrite Hmap. }
  intros p c v raw i Hne Hp Hc Hv Hr Hi.
  destruct p as [|k p]; [congruence|].
  cbn [at_path children] in Hp |- *.
  destruct (cs !! k) as [y|] eqn:Hk; [|discriminate Hp].
  destruct (Forall2_lookup_l _ _ _ _ _ HF1 Hk) as (y1 & Hk1 & Hcells).
  rewrite Hk1. exact (Hcells p c v raw i Hp Hc Hv Hr Hi).
Qed.

Lemma replace_shared_strings_in_sheet_resolves_witness :
  exists tree',
    replace_shared_strings_in_sheet sheet_with_indices table_with_entry_0
    = Ok tree'
    /\ forall p c v raw i,
         p <> [] -> at_path sheet_with_indices p = Some c ->
         is_shared_string_cell c = true ->
         find (XMLNS +:+ "v") c = Some v -> text v = Some raw ->
         int raw = Ok i ->
         exists c' v',
           at_path tree' p = Some c' /\ is_shared_string_cell c' = true
           /\ find (XMLNS +:+ "v") c' = Some v'
           /\ text v' = match table_with_entry_0 !! i with
                        | Some s => s
                        | None => Some raw
                        end.
Proof.
  apply (replace_shared_strings_in_sheet_resolves
           sheet_with_indices table_with_entry_0).
  vm_compute. reflexivity.
Defined.

(** The example evaluated: the entry 0 is put in, the index 5 stays, the
    cell that is not a shared-string cell is not touched. *)
Lemma replace_shared_strings_in_sheet_example :
  replace_shared_strings_in_sheet sheet_with_indices table_with_entry_0
  = Ok (make_sheet
          [make_row (Some "1")
             [make_shared_cell "A1" "hello"; make_shared_cell "B1" "5";
              make_cell (Some "C1") (Some "0")]]).
Proof. vm_compute. reflexivity. Qed.

(** ** Sheet identity: [compare_sheet_names] *)

Lemma contains_true x l : contains x l = true <-> x ∈ l.
Proof. unfold contains. apply bool_decide_eq_true. Qed.

Lemma contains_false x l : contains x l = false <-> (x ∉ l).
Proof. unfold contains. apply bool_decide_eq_false. Qed.

(** The inner loop finds the first candidate among the names it is given,
    when the old name is none of them and all of them have a summary. *)
Lemma find_rename_spec summaries_to name_from content_from names :
  (name_from ∉ names) -> all_summarized summaries_to names ->
  find_rename summaries_to name_from content_from names
  = Ok (List.find (rename_candidate summaries_to content_from) names).
Proof.
  induction names as [|name_to rest IH]; intros Hnot Hall; [reflexivity|].
  apply not_elem_of_cons in Hnot as [Hne Hnot].
  apply Forall_cons in Hall as [[s Hs] Hall].
  cbn [find_rename List.find].
  assert (E : String.eqb name_to name_from = false)
    by (apply String.eqb_neq; congruence).
  rewrite E. cbn [negb]. unfold get_lines, rename_candidate. rewrite Hs.
  rewrite result_bind_ok.
  destruct (similar content_from (fst s)); [reflexivity|].
  now apply IH.
Qed.

Lemma classify_old_sheet_unfold sheet_names_to summaries_from summaries_to
    removed renamed name_from :
  classify_old_sheet sheet_names_to summaries_from summaries_to
    (removed, renamed) name_from
  = (content_from ← get_lines summaries_from name_from;
     if negb (contains name_from sheet_names_to) then
       target ← find_rename summaries_to name_from content_from
                  sheet_names_to;
       match target with
       | Some name_to => Ok (removed, renamed ++ [(name_from, name_to)])
       | None => Ok (removed ++ [name_from], renamed)
       end
     else Ok (removed, renamed)).
Proof. reflexivity. Qed.

(** The outer loop in closed form. *)
Lemma classify_loop sheet_names_to summaries_from summaries_to names :
  forall removed renamed,
  all_summarized summaries_from names ->
  all_summarized summaries_to sheet_names_to ->
  foldM (classify_old_sheet sheet_names_to summaries_from summaries_to)
        (removed, renamed) names
  = Ok (removed
          ++ List.filter
               (removed_of sheet_names_to summaries_from summaries_to) names,
        renamed
          ++ omap (renamed_of sheet_names_to summaries_from summaries_to)
               names).
Proof.
  induction names as [|name_from names IH]; intros removed renamed Hfrom Hto.
  - cbn. now rewrite !app_nil_r.
  - apply Forall_cons in Hfrom as [[s Hs] Hfrom].
    rewrite foldM_cons, classify_old_sheet_unfold.
    unfold get_lines at 1. rewrite Hs, result_bind_ok.
    cbn [List.filter omap list_omap].
    assert (Hrt : rename_target sheet_names_to summaries_from summaries_to
                    name_from
                  = List.find (rename_candidate summaries_to s.1)
                              sheet_names_to)
      by (unfold rename_target; now rewrite Hs).
    assert (Hrm : removed_of sheet_names_to summaries_from summaries_to
                    name_from
                  = negb (contains name_from sheet_names_to)
                    && bool_decide
                         (List.find (rename_candidate summaries_to s.1)
                                    sheet_names_to = None))
      by (unfold removed_of; now rewrite Hrt).
    assert (Hrn : renamed_of sheet_names_to summaries_from summaries_to
                    name_from
                  = if contains name_from sheet_names_to then None
                    else pair name_from
                           <$> List.find (rename_candidate summaries_to s.1)
                                         sheet_names_to)
      by (unfold renamed_of; now rewrite Hrt).
    rewrite Hrm, Hrn. clear Hrm Hrn Hrt.
    destruct (contains name_from sheet_names_to) eqn:Hin; cbn [negb andb].
    + rewrite result_bind_ok. now apply IH.
    + apply contains_false in Hin.
      rewrite (find_rename_spec _ _ _ _ Hin Hto), !result_bind_ok.
      destruct (List.find (rename_candidate summaries_to s.1) sheet_names_to)
        as [name_to|]; cbn; rewrite IH by assumption;
        now rewrite <- !app_assoc.
Qed.

Lemma elem_of_List_filter {A} (f : A -> bool) x l :
  x ∈ List.filter f l <-> x ∈ l /\ f x = true.
Proof. rewrite !list_elem_of_In. apply filter_In. Qed.

Lemma renamed_of_Some sheet_names_to summaries_from summaries_to x n t :
  renamed_of sheet_names_to summaries_from summaries_to x = Some (n, t)
  <-> x = n /\ (n ∉ sheet_names_to)
      /\ rename_target sheet_names_to summaries_from summaries_to n = Some t.
Proof.
  unfold renamed_of. destruct (contains x sheet_names_to) eqn:Hin.
  - apply contains_true in Hin. split; [discriminate|].
    intros (-> & Hn & _). contradiction.
  - apply contains_false in Hin.
    destruct (rename_target sheet_names_to summaries_from summaries_to x)
      as [t'|] eqn:Ht; cbn.
    + split.
      * intros H. injection H as <- <-. auto.
      * intros (<- & _ & H). rewrite Ht in H. now injection H as <-.
    + split; [discriminate|]. intros (<- & _ & H). congruence.
Qed.

Lemma removed_of_true sheet_names_to summaries_from summaries_to n :
  removed_of sheet_names_to summaries_from summaries_to n = true
  <-> (n ∉ sheet_names_to)
      /\ rename_target sheet_names_to summaries_from summaries_to n = None.
Proof.
  unfold removed_of.
  rewrite andb_true_iff, negb_true_iff, contains_false, bool_decide_eq_true.
  reflexivity.
Qed.

(** The result of [compare_sheet_names] in closed form. *)
Lemma compare_sheet_names_closed_form sheet_names_from sheet_names_to
    summaries_from summaries_to :
  all_summarized summaries_from sheet_names_from ->
  all_summarized summaries_to sheet_names_to ->
  compare_sheet_names sheet_names_from sheet_names_to
    summaries_from summaries_to
  = let removed :=
      List.filter (removed_of sheet_names_to summaries_from summaries_to)
                  sheet_names_from in
    let renamed :=
      omap (renamed_of sheet_names_to summaries_from summaries_to)
           sheet_names_from in
    Ok (List.filter
          (fun name_to =>
             negb (contains name_to sheet_names_from)
             && negb (contains name_to (map snd renamed)))
          sheet_names_to,
        removed, renamed).
Proof.
  intros Hfrom Hto. unfold compare_sheet_names.
  now rewrite (classify_loop _ _ _ _ [] [] Hfrom Hto).
Qed.

(** Claim C2, as the program has it.  When every sheet name has a summary
    (the names are the keys of the summaries in the program), the
    classification is returned and: an old sheet absent from the new names
    is renamed to the first of all new names, in their order, whose lines
    have a similarity above 0.5 with its own — whether or not that name is
    also an old name — and is removed when there is none; nothing else is
    renamed or removed; the added sheets are the new names that are neither
    old names nor rename targets; and with the same names on both sides
    nothing is added, removed or renamed. *)
Theorem compare_sheet_names_classification
    (sheet_names_from sheet_names_to : list string)
    (summaries_from summaries_to : Dict.dict summary)
    (Hfrom : all_summarized summaries_from sheet_names_from)
    (Hto : all_summarized summaries_to sheet_names_to) :
  exists added removed renamed,
    compare_sheet_names sheet_names_from sheet_names_to
      summaries_from summaries_to = Ok (added, removed, renamed)
    /\ (forall n, n ∈ sheet_names_from -> (n ∉ sheet_names_to) ->
          match rename_target sheet_names_to summaries_from summaries_to n
          with
          | Some t => (n, t) ∈ renamed /\ (n ∉ removed)
          | None => n ∈ removed /\ forall t, ((n, t) ∉ renamed)
          end)
    /\ (forall n t, (n, t) ∈ renamed ->
          n ∈ sheet_names_from /\ (n ∉ sheet_names_to)
          /\ rename_target sheet_names_to summaries_from summaries_to n
             = Some t)
    /\ (forall n, n ∈ removed ->
          n ∈ sheet_names_from /\ (n ∉ sheet_names_to)
          /\ rename_target sheet_names_to summaries_from summaries_to n
             = None)
    /\ (forall t, t ∈ added <->
          t ∈ sheet_names_to /\ (t ∉ sheet_names_from)
          /\ (t ∉ map snd renamed))
    /\ ((forall x, x ∈ sheet_names_from <-> x ∈ sheet_names_to) ->
        added = [] /\ removed = [] /\ renamed = []).
Proof.
  rewrite (compare_sheet_names_closed_form _ _ _ _ Hfrom Hto). cbv zeta.
  set (removed := List.filter _ sheet_names_from).
  set (renamed := omap _ sheet_names_from).
  set (added := List.filter _ sheet_names_to).
  assert (Hren : forall n t, (n, t) ∈ renamed <->
            n ∈ sheet_names_from /\ (n ∉ sheet_names_to)
            /\ rename_target sheet_names_to summaries_from summaries_to n
               = Some t).
  { intros n t. unfold renamed. rewrite list_elem_of_omap. split.
    - intros (x & Hx & Hsome). apply renamed_of_Some in Hsome as (-> & ? & ?).
      auto.
    - intros (Hn & Hnot & Ht). exists n. split; [exact Hn|].
      apply renamed_of_Some. auto. }
  assert (Hrem : forall n, n ∈ removed <->
            n ∈ sheet_names_from /\ (n ∉ sheet_names_to)
            /\ rename_target sheet_names_to summaries_from summaries_to n
               = None).
  { intros n. unfold removed. rewrite elem_of_List_filter, removed_of_true.
    tauto. }
  assert (Hadd : forall t, t ∈ added <->
            t ∈ sheet_names_to /\ (t ∉ sheet_names_from)
            /\ (t ∉ map snd renamed)).
  { intros t. unfold added.
    rewrite elem_of_List_filter, andb_true_iff, !negb_true_iff,
      !contains_false. tauto. }
  exists added, removed, renamed. split; [reflexivity|].
  split; [|split; [|split; [|split]]].
  - intros n Hn Hnot.
    destruct (rename_target sheet_names_to summaries_from summaries_to n)
      as [t|] eqn:Ht.
    + split; [apply Hren; auto|]. intros Hr. apply Hrem in Hr. 
      destruct Hr as (_ & _ & Hr). congruence.
    + split; [apply Hrem; auto|]. intros t Hr. apply Hren in Hr.
      destruct Hr as (_ & _ & Hr). congruence.
  - intros n t. apply Hren.
  - intros n. apply Hrem.
  - exact Hadd.
  - intros Hsame.
    assert (Hn : forall l : list string, (forall x, (x ∉ l)) -> l = []).
    { intros [|y l] H; [reflexivity|]. exfalso. apply (H y). left. }
    assert (Hp : forall l : list (string * string),
               (forall x, (x ∉ l)) -> l = []).
    { intros [|y l] H; [reflexivity|]. exfalso. apply (H y). left. }
    split; [|split].
    + apply Hn. intros t Ht. apply Hadd in Ht as (Ht & Hnot & _).
      apply Hnot, Hsame, Ht.
    + apply Hn. intros n Hr. apply Hrem in Hr as (Hr & Hnot & _).
      apply Hnot, Hsame, Hr.
    + apply Hp. intros [n t] Hr. apply Hren in Hr as (Hr & Hnot & _).
      apply Hnot, Hsame, Hr.
Qed.

Lemma compare_sheet_names_classification_witness :
  exists added removed renamed,
    compare_sheet_names ["A"; "B"] ["B"] summaries_A_B summaries_B
    = Ok (added, removed, renamed)
    /\ (forall n, n ∈ ["A"; "B"] -> (n ∉ ["B"]) ->
          match rename_target ["B"] summaries_A_B summaries_B n with
          | Some t => (n, t) ∈ renamed /\ (n ∉ removed)
          | None => n ∈ removed /\ forall t, ((n, t) ∉ renamed)
          end)
    /\ (forall n t, (n, t) ∈ renamed ->
          n ∈ ["A"; "B"] /\ (n ∉ ["B"])
          /\ rename_target ["B"] summaries_A_B summaries_B n = Some t)
    /\ (forall n, n ∈ removed ->
          n ∈ ["A"; "B"] /\ (n ∉ ["B"])
          /\ rename_target ["B"] summaries_A_B summaries_B n = None)
    /\ (forall t, t ∈ added <->
          t ∈ ["B"] /\ (t ∉ ["A"; "B"]) /\ (t ∉ map snd renamed))
    /\ ((forall x, x ∈ ["A"; "B"] <-> x ∈ ["B"]) ->
        added = [] /\ removed = [] /\ renamed = []).
Proof.
  apply (compare_sheet_names_classification
           ["A"; "B"] ["B"] summaries_A_B summaries_B).
  - repeat constructor; eexists; reflexivity.
  - repeat constructor; eexists; reflexivity.
Defined.

(** Claim C2 as stated fails.  With the old sheets A and B, the new sheet
    B and the same line in all of them, A is absent from the new names and
    no new name is new-only, so the rule as stated classifies A as removed;
    the program renames A to B, a sheet that is also an old sheet. *)
Lemma compare_sheet_names_not_new_only :
  compare_sheet_names ["A"; "B"] ["B"] summaries_A_B summaries_B
  = Ok ([], [], [("A", "B")])
  /\ ~ classified_new_only ["A"; "B"] ["B"] summaries_A_B summaries_B
         [] [("A", "B")].
Proof.
  split; [vm_compute; reflexivity|].
  intros H. specialize (H "A"). 
  assert (Hin : "A" ∈ ["A"; "B"]) by (left).
  assert (Hnot : "A" ∉ ["B"]).
  { intros Hb. apply list_elem_of_singleton in Hb. discriminate Hb. }
  specialize (H Hin Hnot).
  assert (E : rename_target_new_only ["A"; "B"] ["B"] summaries_A_B
                summaries_B "A" = None) by (vm_compute; reflexivity).
  rewrite E in H. apply elem_of_nil in H. exact H.
Qed.

(** ** One rename per old sheet *)

(** Whatever the loop over the old names adds to [renamed_sheets] is a pair
    of an old name and the name its inner loop returned. *)
Lemma classify_loop_renamed sheet_names_to summaries_from summaries_to names :
  forall removed0 renamed0 removed renamed,
  foldM (classify_old_sheet sheet_names_to summaries_from summaries_to)
        (removed0, renamed0) names = Ok (removed, renamed) ->
  exists extra,
    renamed = renamed0 ++ extra
    /\ map fst extra `sublist_of` names
    /\ forall n t, (n, t) ∈ extra ->
         n ∈ names /\ t ∈ sheet_names_to
         /\ exists content,
              get_lines summaries_from n = Ok content
              /\ find_rename summaries_to n content sheet_names_to
                 = Ok (Some t).
Proof.
  induction names as [|name_from names IH];
    intros removed0 renamed0 removed renamed H.
  - injection H as <- <-. exists []. rewrite app_nil_r.
    split; [reflexivity|]. split; [constructor|].
    intros n t Hin. apply elem_of_nil in Hin as [].
  - rewrite foldM_cons, classify_old_sheet_unfold in H.
    destruct (get_lines summaries_from name_from) as [content|e] eqn:Hc;
      [|discriminate H].
    rewrite result_bind_ok in H.
    destruct (negb (contains name_from sheet_names_to)).
    + destruct (find_rename summaries_to name_from content sheet_names_to)
        as [[name_to|]|e] eqn:Hf; [| |discriminate H];
        rewrite !result_bind_ok in H;
        destruct (IH _ _ _ _ H) as (extra & -> & Hsub & Hextra).
      * exists ((name_from, name_to) :: extra).
        split; [now rewrite <- app_assoc|].
        split; [cbn; now constructor|].
        intros n t Hin. apply elem_of_cons in Hin as [Heq|Hin].
        -- injection Heq as -> ->. split; [left|].
           split; [|now exists content].
           clear -Hf. induction sheet_names_to as [|x l IHl];
             [discriminate Hf|].
           cbn [find_rename] in Hf.
           destruct (negb (String.eqb x name_from)).
           ++ destruct (get_lines summaries_to x) as [cto|e];
                [|discriminate Hf].
              rewrite result_bind_ok in Hf.
              destruct (similar content cto).
              ** injection Hf as <-. left.
              ** right. now apply IHl.
           ++ right. now apply IHl.
        -- destruct (Hextra n t Hin) as (? & ? & ?).
           split; [now right|]. auto.
      * exists extra. split; [reflexivity|].
        split; [now constructor|].
        intros n t Hin. destruct (Hextra n t Hin) as (? & ? & ?).
        split; [now right|]. auto.
    + rewrite result_bind_ok in H.
      destruct (IH _ _ _ _ H) as (extra & -> & Hsub & Hextra).
      exists extra. split; [reflexivity|]. split; [now constructor|].
      intros n t Hin. destruct (Hextra n t Hin) as (? & ? & ?).
      split; [now right|]. auto.
Qed.

(** Claim C6, as the program has it.  In every classification the program
    returns, an old sheet name is renamed to at most one new sheet name,
    and distinct old names give distinct first components; every rename
    target is a new sheet name.  Nothing keeps a new sheet name from being
    the target of several old names. *)
Theorem compare_sheet_names_one_target_per_old_sheet
    (sheet_names_from sheet_names_to : list string)
    (summaries_from summaries_to : Dict.dict summary)
    (added removed : list string) (renamed : list (string * string))
    (Hres : compare_sheet_names sheet_names_from sheet_names_to
              summaries_from summaries_to = Ok (added, removed, renamed)) :
  (forall n t1 t2, (n, t1) ∈ renamed -> (n, t2) ∈ renamed -> t1 = t2)
  /\ (NoDup sheet_names_from -> NoDup (map fst renamed))
  /\ (forall n t, (n, t) ∈ renamed ->
        n ∈ sheet_names_from /\ t ∈ sheet_names_to).
Proof.
  unfold compare_sheet_names in Hres.
  destruct (foldM (classify_old_sheet sheet_names_to summaries_from
                     summaries_to) ([], []) sheet_names_from)
    as [[removed' renamed']|e] eqn:Hloop; [|discriminate Hres].
  injection Hres as _ <- <-.
  destruct (classify_loop_renamed _ _ _ _ _ _ _ _ Hloop)
    as (extra & -> & Hsub & Hextra).
  cbn [app]. split; [|split].
  - intros n t1 t2 H1 H2.
    destruct (Hextra _ _ H1) as (_ & _ & c1 & Hc1 & Hf1).
    destruct (Hextra _ _ H2) as (_ & _ & c2 & Hc2 & Hf2).
    congruence.
  - intros Hnd. eapply sublist_NoDup; eassumption.
  - intros n t Hin. destruct (Hextra _ _ Hin) as (? & ? & _). auto.
Qed.

Lemma compare_sheet_names_one_target_per_old_sheet_witness :
  (forall n t1 t2, (n, t1) ∈ [("A", "C"); ("B", "C")] ->
     (n, t2) ∈ [("A", "C"); ("B", "C")] -> t1 = t2)
  /\ (NoDup ["A"; "B"] -> NoDup (map fst [("A", "C"); ("B", "C")]))
  /\ (forall n t, (n, t) ∈ [("A", "C"); ("B", "C")] ->
        n ∈ ["A"; "B"] /\ t ∈ ["C"]).
Proof.
  apply (compare_sheet_names_one_target_per_old_sheet
           ["A"; "B"] ["C"] summaries_A_B summaries_C [] []).
  vm_compute. reflexivity.
Defined.

(** Claim C6 as stated fails.  With the old sheets A and B, the single new
    sheet C and the same line in all three, the program renames both A and
    B to C. *)
Lemma compare_sheet_names_target_claimed_twice :
  compare_sheet_names ["A"; "B"] ["C"] summaries_A_B summaries_C
  = Ok ([], [], [("A", "C"); ("B", "C")])
  /\ ~ targets_claimed_once [("A", "C"); ("B", "C")].
Proof.
  split; [vm_compute; reflexivity|].
  intros H.
  assert (E : "A" = "B"); [|discriminate E].
  apply (H "C"); [left | right; left].
Qed.

(** ** Coordinate annotation of the hunks *)

Lemma getitem_lookup {A} (l : list A) i x : l !! i = Some x -> getitem l i = Ok x.
Proof. unfold getitem. now intros ->. Qed.

Lemma insert_middle {A} (pre : list A) x l :
  insert (length pre) x (pre ++ l) = pre ++ x :: l.
Proof.
  unfold insert. now rewrite take_app_length, drop_app_length.
Qed.

Lemma walk_condition from_count to_count i j :
  (Z.of_nat i <? from_count) || (Z.of_nat j <? to_count) = true
  <-> Z.of_nat i < from_count \/ Z.of_nat j < to_count.
Proof. rewrite orb_true_iff, !Z.ltb_lt. reflexivity. Qed.

Lemma hunk_walk_length from_count to_count old_coords new_coords i j body out :
  hunk_walk from_count to_count old_coords new_coords i j body out ->
  length out = (2 * length body)%nat.
Proof. induction 1; cbn [length]; lia. Qed.

(** The three lines the program inserts are the annotation lines of the
    specification. *)
Lemma removal_note_line old_coord :
  removal_note old_coord = annotation_line ("(-" +:+ old_coord +:+ ")").
Proof.
  unfold removal_note, annotation_line, gray, reset_format, ESC, LF.
  repeat (rewrite append_cons || rewrite append_nil_l
          || rewrite append_assoc3).
  reflexivity.
Qed.

Lemma addition_note_line new_coord :
  addition_note new_coord = annotation_line ("(+" +:+ new_coord +:+ ")").
Proof.
  unfold addition_note, annotation_line, gray, reset_format, ESC, LF.
  repeat (rewrite append_cons || rewrite append_nil_l
          || rewrite append_assoc3).
  reflexivity.
Qed.

Lemma paired_note_line old_coord new_coord :
  paired_note old_coord new_coord
  = annotation_line ("(-" +:+ old_coord +:+ " +" +:+ new_coord +:+ ")").
Proof.
  unfold paired_note, annotation_line, gray, reset_format, ESC, LF.
  repeat (rewrite append_cons || rewrite append_nil_l
          || rewrite append_assoc3).
  reflexivity.
Qed.

(** The loop follows the walk: started right after the lines [pre], on a
    list that goes on with [body], it returns the list with the annotated
    body in its place and the offset raised by the number of body lines. *)
Lemma annotate_walk_spec from_count to_count old_coords new_coords
    i j body out :
  hunk_walk from_count to_count old_coords new_coords i j body out ->
  forall pre rest offset fuel,
    (length (body ++ rest) <= fuel)%nat ->
    annotate_walk fuel from_count to_count old_coords new_coords
      i j (length pre) offset (pre ++ body ++ rest)
    = Ok (pre ++ out ++ rest, (offset + length body)%nat).
Proof.
  induction 1 as [i j Hstop
                 |i j line oc body out Hgo Hm Hoc Hw IH
                 |i j line nc body out Hgo Hm Hp Hnc Hw IH
                 |i j line oc nc body out Hgo Hm Hp Hoc Hnc Hw IH];
    intros pre rest offset fuel Hfuel.
  - destruct fuel; cbn [annotate_walk];
      (destruct ((Z.of_nat i <? from_count) || (Z.of_nat j <? to_count))
         eqn:E; [apply walk_condition in E; contradiction|]);
      cbn; now rewrite Nat.add_0_r.
  - apply walk_condition in Hgo.
    destruct fuel as [|fuel]; [cbn in Hfuel; lia|].
    cbn [annotate_walk]. rewrite Hgo.
    assert (Hline : getitem (pre ++ (line :: body) ++ rest) (length pre)
                    = Ok line).
    { apply getitem_lookup. now rewrite lookup_app_r, Nat.sub_diag by lia. }
    rewrite Hline, result_bind_ok, Hm, (getitem_lookup _ _ _ Hoc),
      result_bind_ok.
    cbn [app]. rewrite insert_middle, removal_note_line.
    set (note := annotation_line ("(-" +:+ oc +:+ ")")).
    replace (length pre + 2)%nat
      with (length (pre ++ [note; line]))
      by (rewrite length_app; reflexivity).
    replace (pre ++ note :: line :: body ++ rest)
      with ((pre ++ [note; line]) ++ body ++ rest)
      by (now rewrite <- app_assoc).
    rewrite IH by (cbn in Hfuel; lia).
    rewrite <- app_assoc. cbn [app length]. do 2 f_equal. lia.
  - apply walk_condition in Hgo.
    destruct fuel as [|fuel]; [cbn in Hfuel; lia|].
    cbn [annotate_walk]. rewrite Hgo.
    assert (Hline : getitem (pre ++ (line :: body) ++ rest) (length pre)
                    = Ok line).
    { apply getitem_lookup. now rewrite lookup_app_r, Nat.sub_diag by lia. }
    rewrite Hline, result_bind_ok, Hm, Hp, (getitem_lookup _ _ _ Hnc),
      result_bind_ok.
    cbn [app]. rewrite insert_middle, addition_note_line.
    set (note := annotation_line ("(+" +:+ nc +:+ ")")).
    replace (length pre + 2)%nat
      with (length (pre ++ [note; line]))
      by (rewrite length_app; reflexivity).
    replace (pre ++ note :: line :: body ++ rest)
      with ((pre ++ [note; line]) ++ body ++ rest)
      by (now rewrite <- app_assoc).
    rewrite IH by (cbn in Hfuel; lia).
    rewrite <- app_assoc. cbn [app length]. do 2 f_equal. lia.
  - apply walk_condition in Hgo.
    destruct fuel as [|fuel]; [cbn in Hfuel; lia|].
    cbn [annotate_walk]. rewrite Hgo.
    assert (Hline : getitem (pre ++ (line :: body) ++ rest) (length pre)
                    = Ok line).
    { apply getitem_lookup. now rewrite lookup_app_r, Nat.sub_diag by lia. }
    rewrite Hline, result_bind_ok, Hm, Hp, (getitem_lookup _ _ _ Hoc),
      result_bind_ok, (getitem_lookup _ _ _ Hnc), result_bind_ok.
    cbn [app]. rewrite insert_middle, paired_note_line.
    set (note := annotation_line ("(-" +:+ oc +:+ " +" +:+ nc +:+ ")")).
    replace (length pre + 2)%nat
      with (length (pre ++ [note; line]))
      by (rewrite length_app; reflexivity).
    replace (pre ++ note :: line :: body ++ rest)
      with ((pre ++ [note; line]) ++ body ++ rest)
      by (now rewrite <- app_assoc).
    rewrite IH by (cbn in Hfuel; lia).
    rewrite <- app_assoc. cbn [app length]. do 2 f_equal. lia.
Qed.

Lemma getitem_ge {A} (l : list A) i :
  (length l <= i)%nat -> getitem l i = Raise IndexError.
Proof. intros H. unfold getitem. now rewrite lookup_ge_None_2. Qed.

Lemma getitem_Ok_lt {A} (l : list A) i x :
  getitem l i = Ok x -> (i < length l)%nat.
Proof.
  unfold getitem. destruct (l !! i) eqn:E; [|discriminate].
  intros _. now apply lookup_lt_Some in E.
Qed.

(** [fuel] never runs out before the list does: any two amounts of at
    least [length diff_list_final - idx] give the same result. *)
Lemma annotate_walk_fuel from_count to_count old_coords new_coords fuel1 :
  forall fuel2 i j idx offset diff_list_final,
    (length diff_list_final - idx <= fuel1)%nat ->
    (length diff_list_final - idx <= fuel2)%nat ->
    annotate_walk fuel1 from_count to_count old_coords new_coords
      i j idx offset diff_list_final
    = annotate_walk fuel2 from_count to_count old_coords new_coords
        i j idx offset diff_list_final.
Proof.
  induction fuel1 as [|fuel1 IH]; intros fuel2 i j idx offset dl H1 H2.
  - destruct fuel2 as [|fuel2]; [reflexivity|]. cbn [annotate_walk].
    destruct ((Z.of_nat i <? from_count) || (Z.of_nat j <? to_count));
      [|reflexivity].
    now rewrite (getitem_ge dl idx) by lia.
  - destruct fuel2 as [|fuel2]; cbn [annotate_walk];
      (destruct ((Z.of_nat i <? from_count) || (Z.of_nat j <? to_count));
         [|reflexivity]).
    + now rewrite (getitem_ge dl idx) by lia.
    + destruct (getitem dl idx) as [line|e] eqn:Hl; [|reflexivity].
      apply getitem_Ok_lt in Hl. rewrite !result_bind_ok.
      assert (Hins : forall x, (length (insert idx x dl) - (idx + 2)
                                <= fuel1 /\
                                length (insert idx x dl) - (idx + 2)
                                <= fuel2)%nat).
      { intros x. unfold insert.
        rewrite length_app, length_take. cbn [length].
        rewrite length_drop. lia. }
      destruct (startswith "-" line).
      * destruct (getitem old_coords i); [|reflexivity].
        rewrite !result_bind_ok. apply IH; apply Hins.
      * destruct (startswith "+" line).
        -- destruct (getitem new_coords j); [|reflexivity].
           rewrite !result_bind_ok. apply IH; apply Hins.
        -- destruct (getitem old_coords i); [|reflexivity].
           rewrite !result_bind_ok.
           destruct (getitem new_coords j); [|reflexivity].
           rewrite !result_bind_ok. apply IH; apply Hins.
Qed.

Lemma line_changes_from_nil base acc : line_changes_from base acc [] = Ok acc.
Proof. reflexivity. Qed.

Lemma line_changes_from_cons base acc line l :
  line_changes_from base acc (line :: l)
  = (h ← hunk_header line;
     match h with
     | Some (from_start, from_count, to_start, to_count) =>
         line_changes_from (S base)
           (acc ++ [(from_start, from_count, to_start, to_count, base)]) l
     | None => line_changes_from (S base) acc l
     end).
Proof.
  unfold line_changes_from. cbn [length seq zip zip_with].
  rewrite foldM_cons.
  destruct (hunk_header line) as [[[[[a b] c] d]|]|e]; reflexivity.
Qed.

Lemma line_changes_from_skip body : forall base acc rest,
  Forall (fun l => hunk_header l = Ok None) body ->
  line_changes_from base acc (body ++ rest)
  = line_changes_from (base + length body) acc rest.
Proof.
  induction body as [|line body IH]; intros base acc rest H.
  - cbn. now rewrite Nat.add_0_r.
  - apply Forall_cons in H as [Hl H]. cbn [app length].
    rewrite line_changes_from_cons, Hl, result_bind_ok, IH by exact H.
    f_equal. lia.
Qed.

Lemma annotate_change_unfold locations_from locations_to dl offset
    from_start from_count to_start to_count index_start :
  annotate_change locations_from locations_to (dl, offset)
    (from_start, from_count, to_start, to_count, index_start)
  = annotate_walk (length dl - (index_start + offset + 1)) from_count to_count
      (slice locations_from (from_start - 1) (from_start - 1 + from_count))
      (slice locations_to (to_start - 1) (to_start - 1 + to_count))
      0 0 (index_start + offset + 1) offset dl.
Proof. reflexivity. Qed.

(** The two loops of the annotation on a diff that splits into plain lines
    and hunks with their bodies: the changes found from index [base] on
    are those of the hunks, and working them off on the list in which the
    [base] lines before are already annotated ([done], [offset] lines
    longer) gives the annotated diff. *)
Lemma annotate_loops locations_from locations_to diff_list out :
  annotated locations_from locations_to diff_list out ->
  forall base acc,
  exists changes,
    line_changes_from base acc diff_list = Ok (acc ++ changes)
    /\ forall done offset,
         length done = (base + offset)%nat ->
         exists offset',
           foldM (annotate_change locations_from locations_to)
                 (done ++ diff_list, offset) changes
           = Ok (done ++ out, offset').
Proof.
  induction 1 as [|line rest out Hline _ IH
                  |line fs fc ts tc body body_out rest out
                     Hline Hwalk Hbody _ IH];
    intros base acc.
  - exists []. rewrite app_nil_r. split; [reflexivity|].
    intros done offset _. exists offset. reflexivity.
  - destruct (IH (S base) acc) as (changes & Hchanges & Hfold).
    exists changes. split.
    + now rewrite line_changes_from_cons, Hline, result_bind_ok.
    + intros done offset Hlen.
      destruct (Hfold (done ++ [line]) offset) as (offset' & Hrun).
      { rewrite length_app. cbn. lia. }
      exists offset'. rewrite <- !app_assoc in Hrun. exact Hrun.
  - destruct (IH (S base + length body)%nat (acc ++ [(fs, fc, ts, tc, base)]))
      as (changes & Hchanges & Hfold).
    exists ((fs, fc, ts, tc, base) :: changes). split.
    + rewrite line_changes_from_cons, Hline, result_bind_ok.
      rewrite line_changes_from_skip by exact Hbody.
      rewrite Hchanges. now rewrite <- app_assoc.
    + intros done offset Hlen.
      rewrite foldM_cons, annotate_change_unfold.
      replace (base + offset + 1)%nat with (length (done ++ [line]))
        by (rewrite length_app; cbn; lia).
      replace (done ++ line :: body ++ rest)
        with ((done ++ [line]) ++ body ++ rest)
        by (now rewrite <- app_assoc).
      rewrite (annotate_walk_spec _ _ _ _ _ _ _ _ Hwalk)
        by (rewrite !length_app; cbn; lia).
      rewrite result_bind_ok.
      destruct (Hfold ((done ++ [line]) ++ body_out)
                      (offset + length body)%nat) as (offset' & Hrun).
      { rewrite !length_app, (hunk_walk_length _ _ _ _ _ _ _ _ Hwalk).
        cbn. lia. }
      exists offset'. rewrite <- !app_assoc in Hrun.
      rewrite <- !app_assoc. exact Hrun.
Qed.

(** X22.  For a diff that splits into lines that are no hunk headers and
    hunks — a header followed by a body on which the walk of the
    specification succeeds, the coordinate lists being sliced at
    [from_start-1 : from_start-1+from_count] and
    [to_start-1 : to_start-1+to_count] — the annotation of [compare_dirs]
    returns the diff in which every body line of every hunk is preceded by
    exactly one annotation line: [(-old)] for a line starting with [-],
    [(+new)] for a line starting with [+], [(-old +new)] for any other
    line, each consuming its cursors, up to the point where neither cursor
    is below its count.  All other lines are left as they are. *)
Theorem annotate_diff_annotates (locations_from locations_to : list string)
    (diff_list out : list string)
    (Hsplit : annotated locations_from locations_to diff_list out) :
  annotate_diff locations_from locations_to diff_list = Ok out.
Proof.
  unfold annotate_diff.
  destruct (annotate_loops _ _ _ _ Hsplit 0%nat [])
    as (changes & Hchanges & Hfold).
  change (line_changes diff_list) with (line_changes_from 0 [] diff_list).
  rewrite Hchanges, result_bind_ok. cbn [app].
  destruct (Hfold [] 0%nat eq_refl) as (offset' & Hrun).
  cbn [app] in Hrun. now rewrite Hrun.
Qed.

Ltac walk_step :=
  first
    [ eapply walk_removal;
      [lia | reflexivity | vm_compute; reflexivity | ]
    | eapply walk_addition;
      [lia | reflexivity | reflexivity | vm_compute; reflexivity | ]
    | eapply walk_paired;
      [lia | reflexivity | reflexivity
       | vm_compute; reflexivity | vm_compute; reflexivity | ]
    | eapply walk_done; lia ].

Lemma annotate_diff_annotates_witness :
  annotate_diff (coords_A 10) (coords_A 11) diff_of_two_hunks
  = Ok ["--- a"; "+++ b";
        "@@ -1,3 +1,3 @@";
        annotation_line "(-A1 +A1)"; " x";
        annotation_line "(-A2)"; "-y";
        annotation_line "(+A2)"; "+z";
        annotation_line "(-A3 +A3)"; " w";
        "@@ -10 +10,2 @@";
        annotation_line "(-A10 +A10)"; " k";
        annotation_line "(+A11)"; "+m"].
Proof.
  apply annotate_diff_annotates. unfold diff_of_two_hunks.
  apply annotated_line; [reflexivity|].
  apply annotated_line; [reflexivity|].
  apply (annotated_hunk _ _ "@@ -1,3 +1,3 @@" 1 3 1 3
           [" x"; "-y"; "+z"; " w"]
           [annotation_line "(-A1 +A1)"; " x"; annotation_line "(-A2)"; "-y";
            annotation_line "(+A2)"; "+z"; annotation_line "(-A3 +A3)"; " w"]
           ["@@ -10 +10,2 @@"; " k"; "+m"]
           ["@@ -10 +10,2 @@"; annotation_line "(-A10 +A10)"; " k";
            annotation_line "(+A11)"; "+m"]).
  - reflexivity.
  - apply (walk_paired _ _ _ _ 0 0 " x" "A1" "A1");
      [lia | reflexivity | reflexivity | reflexivity | reflexivity |].
    apply (walk_removal _ _ _ _ 1 1 "-y" "A2");
      [lia | reflexivity | reflexivity |].
    apply (walk_addition _ _ _ _ 2 1 "+z" "A2");
      [lia | reflexivity | reflexivity | reflexivity |].
    apply (walk_paired _ _ _ _ 2 2 " w" "A3" "A3");
      [lia | reflexivity | reflexivity | reflexivity | reflexivity |].
    apply walk_done. cbn. lia.
  - repeat constructor.
  - apply (annotated_hunk _ _ "@@ -10 +10,2 @@" 10 1 10 2
             [" k"; "+m"]
             [annotation_line "(-A10 +A10)"; " k";
              annotation_line "(+A11)"; "+m"]
             [] []).
    + reflexivity.
    + apply (walk_paired _ _ _ _ 0 0 " k" "A10" "A10");
        [lia | reflexivity | reflexivity | reflexivity | reflexivity |].
      apply (walk_addition _ _ _ _ 1 1 "+m" "A11");
        [lia | reflexivity | reflexivity | reflexivity |].
      apply walk_done. cbn. lia.
    + repeat constructor.
    + apply annotated_nil.
Defined.

(** Claim C3, at an input where the program departs from it.  The old
    sheet has the cell A1 with a text that holds a next-line character
    (U+0085), the new sheet has the text [c] there.  The summarizer keeps
    the character — it escapes line feeds and carriage returns only — and
    the engine reports one hunk of one removed and one added line.
    [diff_files] cuts the engine's output with [splitlines], which also
    cuts at the next-line character, so that the removed line arrives in
    two pieces.  The walk takes the second piece for a line of both files,
    asks for a second old coordinate, and raises [IndexError]: no line of
    the hunk gets its annotation, and [custom_diff] prints no report. *)
Theorem annotation_fails_on_cut_line :
  summarize_sheet sheet_with_next_line
  = Ok (["a" +:+ NEL +:+ "b" +:+ LF], ["A1"])
  /\ summarize_sheet sheet_with_c = Ok (["c" +:+ LF], ["A1"])
  /\ fst (diff_files engine_next_line
            ["a" +:+ NEL +:+ "b" +:+ LF] ["c" +:+ LF]
            "old.xlsx Sheet1" "new.xlsx Sheet1" initial_world)
     = Ok ["--- old.xlsx Sheet1" +:+ LF; "+++ new.xlsx Sheet1" +:+ LF;
           "@@ -1 +1 @@" +:+ LF; "-a" +:+ NEL; "b" +:+ LF; "+c" +:+ LF]
  /\ annotate_diff ["A1"] ["A1"]
       ["--- old.xlsx Sheet1" +:+ LF; "+++ new.xlsx Sheet1" +:+ LF;
        "@@ -1 +1 @@" +:+ LF; "-a" +:+ NEL; "b" +:+ LF; "+c" +:+ LF]
     = Raise IndexError
  /\ custom_diff engine_next_line summaries_next_line summaries_c
       "old.xlsx" "new.xlsx" initial_world
     = (Raise IndexError, World ∅ 2 []).
Proof. repeat split; vm_compute; reflexivity. Qed.

(** ** Reading numbers and hunk headers *)

Lemma rev_app_list s : forall acc,
  String.rev_app s acc
  = string_of_list_ascii (List.rev (list_ascii_of_string s)) +:+ acc.
Proof.
  induction s as [|c s IH]; intros acc; [reflexivity|].
  cbn [String.rev_app list_ascii_of_string List.rev]. rewrite IH.
  now rewrite string_of_list_ascii_snoc.
Qed.

Lemma string_rev_list s :
  String.rev s = string_of_list_ascii (List.rev (list_ascii_of_string s)).
Proof. unfold String.rev. now rewrite rev_app_list, append_nil_r. Qed.

Lemma string_rev_involutive s : String.rev (String.rev s) = s.
Proof.
  rewrite !string_rev_list, list_ascii_of_string_of_list_ascii.
  now rewrite List.rev_involutive, string_of_list_ascii_of_string.
Qed.

Lemma lstrip_no_space s : no_space s -> lstrip s = s.
Proof.
  destruct s as [|c s]; [reflexivity|]. intros H.
  apply Forall_cons in H as [Hc _]. cbn [lstrip]. now rewrite Hc.
Qed.

Lemma strip_no_space s : no_space s -> strip s = s.
Proof.
  intros H. unfold strip. rewrite (lstrip_no_space s H).
  rewrite lstrip_no_space; [apply string_rev_involutive|].
  unfold no_space. rewrite string_rev_list, list_ascii_of_string_of_list_ascii.
  now apply Forall_rev.
Qed.

Lemma isdigit_spec c : isdigit c = true <-> 48 <= ord c <= 57.
Proof. unfold isdigit. cbv zeta. rewrite andb_true_iff, !Z.leb_le. tauto. Qed.

Lemma isdigit_not_space c : isdigit c = true -> isspace c = false.
Proof.
  intros H. apply isdigit_spec in H. unfold isspace. cbv zeta.
  repeat match goal with
         | |- context [?a <=? ?b] => destruct (Z.leb_spec a b); try lia
         | |- context [?a =? ?b] => destruct (Z.eqb_spec a b); try lia
         end; reflexivity.
Qed.

(** [span_digits] splits off a run of digits. *)
Lemma span_digits_digits s digits rest :
  span_digits s = (digits, rest) ->
  Forall (fun c => isdigit c = true) (list_ascii_of_string digits).
Proof.
  revert digits rest. induction s as [|c s IH]; intros digits rest H.
  - injection H as <- <-. constructor.
  - cbn [span_digits] in H. destruct (isdigit c) eqn:Hc.
    + destruct (span_digits s) as [d r]. injection H as <- <-.
      constructor; [exact Hc | eapply IH; reflexivity].
    + injection H as <- <-. constructor.
Qed.

Lemma int_digits_value s : forall acc after,
  Forall (fun c => isdigit c = true) (list_ascii_of_string s) ->
  s <> "" \/ after = true ->
  int_digits acc after s = Some (digits_value acc (list_ascii_of_string s)).
Proof.
  induction s as [|c s IH]; intros acc after H Hne.
  - destruct Hne as [Hne | ->]; [congruence | reflexivity].
  - cbn [list_ascii_of_string] in H. apply Forall_cons in H as [Hc H].
    cbn [int_digits]. rewrite Hc. rewrite IH; [reflexivity | exact H | now right].
Qed.

Lemma count_digits_run s :
  Forall (fun c => isdigit c = true) (list_ascii_of_string s) ->
  count_digits s = Z.of_nat (String.length s).
Proof.
  intros H. unfold count_digits. f_equal.
  induction s as [|c s IH]; [reflexivity|].
  cbn [list_ascii_of_string] in H. apply Forall_cons in H as [Hc H].
  cbn [list_ascii_of_string List.filter String.length]. rewrite Hc.
  cbn [length]. now rewrite IH.
Qed.

(** [int] on a non-empty run of digits: the number the digits stand for,
    unless the run is longer than the limit. *)
Lemma int_run c s :
  Forall (fun c => isdigit c = true) (list_ascii_of_string (String c s)) ->
  int (String c s)
  = if too_long (String c s) then Raise ValueError
    else Ok (digits_value 0 (list_ascii_of_string (String c s))).
Proof.
  intros H. unfold int. rewrite strip_no_space.
  2:{ unfold no_space. eapply Forall_impl; [exact H|].
      intros x Hx. now apply isdigit_not_space. }
  assert (Hc : isdigit c = true) by (now apply Forall_cons in H as [Hc _]).
  pose proof (int_digits_value (String c s) 0 false H) as Hn.
  pose proof (count_digits_run (String c s) H) as Hk.
  apply isdigit_spec in Hc.
  assert (Hm : c <> "-"%char)
    by (intros ->; change (ord "-") with 45 in Hc; lia).
  assert (Hp : c <> "+"%char)
    by (intros ->; change (ord "+") with 43 in Hc; lia).
  unfold too_long.
  destruct c as [[] [] [] [] [] [] [] []]; try congruence;
    (rewrite Hn by (left; discriminate)); rewrite Hk;
    (destruct (int_max_str_digits <? _); [reflexivity | f_equal; lia]).
Qed.

Lemma match_digits_run s digits rest :
  match_digits s = Some (digits, rest) ->
  int digits = if too_long digits then Raise ValueError
               else Ok (digits_value 0 (list_ascii_of_string digits)).
Proof.
  unfold match_digits. destruct (span_digits s) as [d r] eqn:Hs.
  destruct d as [|c d]; [discriminate|]. intros H. injection H as <- <-.
  apply int_run. eapply span_digits_digits. exact Hs.
Qed.

Lemma match_count_run s count rest :
  match_count s = (Some count, rest) ->
  int count = if too_long count then Raise ValueError
              else Ok (digits_value 0 (list_ascii_of_string count)).
Proof.
  unfold match_count. destruct s as [|c s]; [discriminate|].
  destruct (Ascii.eqb c ",") eqn:Hc.
  - apply Ascii.eqb_eq in Hc. subst c.
    destruct (match_digits s) as [[ds r]|] eqn:Hd; [|discriminate].
    intros H. injection H as <- <-. eapply match_digits_run. exact Hd.
  - apply Ascii.eqb_neq in Hc.
    destruct c as [[] [] [] [] [] [] [] []]; try discriminate; congruence.
Qed.

(** The groups of a hunk header are runs of digits, so that [int] reads
    each of them unless it is too long. *)
Lemma match_hunk_header_groups line g_from_start g_from_count g_to_start
    g_to_count :
  match_hunk_header line
  = Some (g_from_start, g_from_count, g_to_start, g_to_count) ->
  let read g := if too_long g then Raise ValueError
                else Ok (digits_value 0 (list_ascii_of_string g)) in
  int g_from_start = read g_from_start
  /\ int g_to_start = read g_to_start
  /\ (forall g, g_from_count = Some g -> int g = read g)
  /\ (forall g, g_to_count = Some g -> int g = read g).
Proof.
  intros Hm. unfold match_hunk_header in Hm.
  destruct (strip_prefix "@@ -" line) as [s1|]; [|discriminate Hm].
  cbn [mbind option_bind] in Hm.
  destruct (match_digits s1) as [[fs s2]|] eqn:H1; [|discriminate Hm].
  cbn [mbind option_bind] in Hm.
  destruct (match_count s2) as [fc s3] eqn:H2.
  destruct (strip_prefix " +" s3) as [s4|]; [|discriminate Hm].
  cbn [mbind option_bind] in Hm.
  destruct (match_digits s4) as [[ts s5]|] eqn:H3; [|discriminate Hm].
  cbn [mbind option_bind] in Hm.
  destruct (match_count s5) as [tc s6] eqn:H4.
  destruct (strip_prefix " @@" s6) as [s7|]; [|discriminate Hm].
  cbn [mbind option_bind] in Hm. injection Hm as <- <- <- <-.
  cbv zeta. split; [exact (match_digits_run _ _ _ H1)|].
  split; [exact (match_digits_run _ _ _ H3)|].
  split; intros g ->; eapply match_count_run; eassumption.
Qed.

(** [hunk_header] raises [ValueError] on a header with a number that is
    too long for [int()], and on no other line: any other line is a hunk
    header with its four integers, or it is none. *)
Lemma hunk_header_cases line :
  (header_too_long line = true /\ hunk_header line = Raise ValueError)
  \/ (header_too_long line = false /\ exists h, hunk_header line = Ok h).
Proof.
  unfold hunk_header, header_too_long.
  destruct (match_hunk_header line) as [[[[gfs gfc] gts] gtc]|] eqn:Hm;
    [|right; split; [reflexivity | now exists None]].
  destruct (match_hunk_header_groups _ _ _ _ _ Hm) as (E1 & E3 & E2 & E4).
  rewrite E1. destruct (too_long gfs); [now left|].
  rewrite result_bind_ok. cbn [orb].
  destruct gfc as [g2|]; cbn [from_option].
  - rewrite (E2 g2 eq_refl). destruct (too_long g2); [now left|].
    rewrite result_bind_ok, E3. cbn [orb].
    destruct (too_long gts); [now left|]. rewrite result_bind_ok. cbn [orb].
    destruct gtc as [g4|]; cbn [from_option].
    + rewrite (E4 g4 eq_refl). destruct (too_long g4); [now left|].
      right. split; [reflexivity|]. rewrite result_bind_ok. eauto.
    + right. split; [reflexivity|]. rewrite result_bind_ok. eauto.
  - rewrite result_bind_ok, E3. cbn [orb].
    destruct (too_long gts); [now left|]. rewrite result_bind_ok. cbn [orb].
    destruct gtc as [g4|]; cbn [from_option].
    + rewrite (E4 g4 eq_refl). destruct (too_long g4); [now left|].
      right. split; [reflexivity|]. rewrite result_bind_ok. eauto.
    + right. split; [reflexivity|]. rewrite result_bind_ok. eauto.
Qed.

Lemma hunk_header_raises line e :
  hunk_header line = Raise e -> e = ValueError /\ header_too_long line = true.
Proof.
  intros H. destruct (hunk_header_cases line) as [[Hl Hr]|[_ [h Hh]]];
    [|congruence].
  split; [congruence | exact Hl].
Qed.

(** A line that does not start with [@] is no hunk header: the lines of a
    hunk's body, which start with a space, [+], [-] or a backslash, are
    none. *)
Lemma hunk_header_body_line line :
  startswith "@" line = false -> hunk_header line = Ok None.
Proof.
  intros H. unfold hunk_header, match_hunk_header.
  destruct line as [|c line]; [reflexivity|].
  unfold startswith in H. rewrite prefix_cons, prefix_nil in H.
  cbn [strip_prefix].
  destruct (Ascii.eqb "@" c); [discriminate H | reflexivity].
Qed.

(** ** The external engine: failure, recovery and temporary files *)

Section EngineProperties.

Variable git_diff : gmap string string -> string -> string -> CompletedProcess.

(** When the engine's exit status is neither 0 nor 1, [diff_files] prints
    the engine's error output, returns the empty list, and leaves the
    world with both temporary files on disk. *)
Lemma diff_files_failure lines_from lines_to file_from_name file_to_name w :
  let result := git_diff (files_written lines_from lines_to w)
                         (tmp_name (created w)) (tmp_name (S (created w))) in
  returncode result <> 0 -> returncode result <> 1 ->
  diff_files git_diff lines_from lines_to file_from_name file_to_name w
  = (Ok [], world_after_failure lines_from lines_to (stderr result) w).
Proof.
  intros result H0 H1.
  unfold diff_files, mbind, M_bind, NamedTemporaryFile, print, mret, M_ret.
  cbn [tempfiles created printed].
  fold (files_written lines_from lines_to w). fold result.
  apply Z.eqb_neq in H0, H1. rewrite H0, H1. reflexivity.
Qed.

(** When the exit status is 0 or 1, [diff_files] returns the lines of the
    engine's output after the first two, prints nothing and removes both
    temporary files. *)
Lemma diff_files_success lines_from lines_to file_from_name file_to_name w :
  let result := git_diff (files_written lines_from lines_to w)
                         (tmp_name (created w)) (tmp_name (S (created w))) in
  returncode result = 0 \/ returncode result = 1 ->
  exists diff_output,
    diff_files git_diff lines_from lines_to file_from_name file_to_name w
    = (Ok diff_output,
       World (delete (tmp_name (S (created w)))
                (delete (tmp_name (created w))
                   (files_written lines_from lines_to w)))
             (S (S (created w))) (printed w))
    /\ length diff_output = length (drop 2 (splitlines (stdout result)))
    /\ drop 2 diff_output = drop 4 (splitlines (stdout result)).
Proof.
  intros result Hrc.
  unfold diff_files, mbind, M_bind, NamedTemporaryFile, os_remove, mret, M_ret.
  cbn [tempfiles created printed].
  fold (files_written lines_from lines_to w). fold result.
  assert (E : negb ((returncode result =? 0) || (returncode result =? 1))
              = false).
  { destruct Hrc as [-> | ->]; reflexivity. }
  rewrite E. eexists. split; [reflexivity|].
  destruct (1 <? length (drop 2 (splitlines (stdout result))))%nat.
  - rewrite !length_insert. split; [reflexivity|].
    destruct (drop 2 (splitlines (stdout result))) as [|a [|b l]] eqn:Ed;
      cbn; rewrite <- (drop_drop _ 2 2), Ed; reflexivity.
  - split; [reflexivity|]. now rewrite drop_drop.
Qed.

Lemma foldW_cons {A S} (f : S -> A -> M S) s x l w :
  foldW f s (x :: l) w
  = match f s x w with
    | (Ok s', w') => foldW f s' l w'
    | (Raise e, w') => (Raise e, w')
    end.
Proof. reflexivity. Qed.

(** Claim C9.  For a sheet pair that [compare_dirs] compares — the old
    sheet is not removed and both sheets have a summary — when the
    engine's exit status is neither 0 nor 1: [diff_files] prints the
    engine's error output and returns the empty list; the iteration for
    this pair adds nothing to the differences and does not raise; and the
    loop goes on with the remaining sheets.  With the exit status 0 or 1,
    [diff_files] returns the engine's lines and prints nothing. *)
Theorem engine_failure_recovery
    (summaries_from summaries_to : Dict.dict summary)
    (file_from file_to : string) (removed_sheets : list string)
    (renamed_sheets : list (string * string))
    (differences : list string) (file_name : string) (names : list string)
    (w : world) (s_from s_to : summary)
    (Hkept : contains file_name removed_sheets = false)
    (Hfrom : Dict.get summaries_from file_name = Some s_from)
    (Hto : Dict.get summaries_to (counterpart renamed_sheets file_name)
           = Some s_to)
    (Hrc0 : returncode (git_diff (files_written (fst s_from) (fst s_to) w)
                          (tmp_name (created w)) (tmp_name (S (created w))))
            <> 0)
    (Hrc1 : returncode (git_diff (files_written (fst s_from) (fst s_to) w)
                          (tmp_name (created w)) (tmp_name (S (created w))))
            <> 1) :
  let result := git_diff (files_written (fst s_from) (fst s_to) w)
                         (tmp_name (created w)) (tmp_name (S (created w))) in
  let w' := world_after_failure (fst s_from) (fst s_to) (stderr result) w in
  let body := compare_sheet git_diff summaries_from summaries_to
                file_from file_to removed_sheets renamed_sheets in
  diff_files git_diff (fst s_from) (fst s_to)
    (file_from +:+ " " +:+ file_name)
    (file_to +:+ " " +:+ counterpart renamed_sheets file_name) w
  = (Ok [], w')
  /\ printed w'
     = printed w
       ++ [("An error occurred while running git diff: " +:+ stderr result)
           +:+ LF]
  /\ body differences file_name w = (Ok differences, w')
  /\ foldW body differences (file_name :: names) w
     = foldW body differences names w'
  /\ (forall lines_from lines_to file_from_name file_to_name w0,
        returncode (git_diff (files_written lines_from lines_to w0)
                      (tmp_name (created w0)) (tmp_name (S (created w0))))
        = 0
        \/ returncode (git_diff (files_written lines_from lines_to w0)
                         (tmp_name (created w0)) (tmp_name (S (created w0))))
           = 1 ->
        exists diff_output w1,
          diff_files git_diff lines_from lines_to
            file_from_name file_to_name w0 = (Ok diff_output, w1)
          /\ printed w1 = printed w0
          /\ drop 2 diff_output
             = drop 4 (splitlines
                         (stdout (git_diff
                                    (files_written lines_from lines_to w0)
                                    (tmp_name (created w0))
                                    (tmp_name (S (created w0))))))).
Proof.
  intros result w' body.
  pose proof (diff_files_failure (fst s_from) (fst s_to)
                (file_from +:+ " " +:+ file_name)
                (file_to +:+ " " +:+ counterpart renamed_sheets file_name)
                w Hrc0 Hrc1) as Hdiff.
  fold result in Hdiff. fold w' in Hdiff.
  assert (Hbody : body differences file_name w = (Ok differences, w')).
  { unfold body, compare_sheet. rewrite Hkept.
    fold (counterpart renamed_sheets file_name).
    unfold get_lines, get_locations. rewrite Hfrom, Hto.
    unfold mbind, M_bind, lift. rewrite Hdiff.
    unfold mret, M_ret. cbn. now rewrite app_nil_r. }
  split; [exact Hdiff|]. split; [reflexivity|]. split; [exact Hbody|].
  split; [now rewrite foldW_cons, Hbody|].
  intros lines_from lines_to file_from_name file_to_name w0 Hrc.
  destruct (diff_files_success lines_from lines_to file_from_name
              file_to_name w0 Hrc) as (diff_output & Hd & _ & Hdrop).
  eexists _, _. split; [exact Hd|]. split; [reflexivity | exact Hdrop].
Qed.

End EngineProperties.

Lemma engine_failure_recovery_witness :
  fst (compare_dirs failing_engine summaries_Sales_Notes summaries_Sales_Notes
         "a.xlsx" "b.xlsx" [] [] initial_world)
  = Ok []
  /\ printed (snd (compare_dirs failing_engine summaries_Sales_Notes
                     summaries_Sales_Notes "a.xlsx" "b.xlsx" [] []
                     initial_world))
     = ["An error occurred while running git diff: "
        +:+ "usage: git diff --no-index <path> <path>" +:+ LF;
        "An error occurred while running git diff: "
        +:+ "usage: git diff --no-index <path> <path>" +:+ LF].
Proof.
  destruct (engine_failure_recovery failing_engine
              summaries_Sales_Notes summaries_Sales_Notes
              "a.xlsx" "b.xlsx" [] [] [] "Sales" ["Notes"] initial_world
              (["y" +:+ LF], ["B1"]) (["y" +:+ LF], ["B1"]))
    as (_ & _ & _ & Hloop & _).
  - reflexivity.
  - reflexivity.
  - reflexivity.
  - discriminate.
  - discriminate.
  - unfold compare_dirs.
    change (Dict.keys summaries_Sales_Notes) with ["Sales"; "Notes"].
    rewrite Hloop. split; vm_compute; reflexivity.
Defined.

(** The temporary files that [diff_files] has written are on disk in the
    world it returns in after a failure of the engine. *)
Lemma temporary_files_after_failure lines_from lines_to err w :
  is_Some (tempfiles (world_after_failure lines_from lines_to err w)
             !! tmp_name (created w))
  /\ tempfiles (world_after_failure lines_from lines_to err w)
       !! tmp_name (S (created w)) = Some (join lines_to).
Proof.
  cbn [world_after_failure tempfiles]. unfold files_written. split.
  - destruct (decide (tmp_name (S (created w)) = tmp_name (created w)))
      as [E|E].
    + rewrite E, lookup_insert_eq. eauto.
    + rewrite lookup_insert_ne, lookup_insert_eq by exact E. eauto.
  - apply lookup_insert_eq.
Qed.

(** Claim C4, at the input where the program departs from it.  When the
    engine exits with status 129, [diff_files] returns the empty list
    while its two temporary files are still on disk: the return in the
    error branch comes before the two calls of [os.remove].  With an exit
    status of 1 both files are removed. *)
Theorem diff_files_leaves_temporary_files :
  diff_files failing_engine ["x" +:+ LF] ["y" +:+ LF]
    "a.xlsx Sales" "b.xlsx Sales" initial_world
  = (Ok [],
     World {[ "/tmp/tmp0" := "x" +:+ LF; "/tmp/tmp1" := "y" +:+ LF ]} 2
           ["An error occurred while running git diff: "
            +:+ "usage: git diff --no-index <path> <path>" +:+ LF])
  /\ tempfiles (snd (diff_files engine_y_to_z ["y" +:+ LF] ["z" +:+ LF]
                       "a.xlsx Sales" "b.xlsx Sales" initial_world))
     = ∅.
Proof. split; vm_compute; reflexivity. Qed.

(* ===================================================================== *)
(** * Further properties *)
(* ===================================================================== *)

(** ** The shared-string table and the sheet names *)

(** The loop of [build_shared_strings_map] over the entries numbered from
    [base] on. *)
Lemma shared_strings_loop sis : forall base (m : gmap Z (option string)) i,
  fold_left
    (fun shared_strings '(index, si) =>
       match find (XMLNS +:+ "t") si with
       | Some t => <[Z.of_nat index := text t]> shared_strings
       | None => shared_strings
       end)
    (zip (seq base (length sis)) sis) m !! i
  = if (Z.of_nat base <=? i) && (i <? Z.of_nat (base + length sis))
    then match sis !! (Z.to_nat i - base)%nat with
         | Some si =>
             match find (XMLNS +:+ "t") si with
             | Some t => Some (text t)
             | None => m !! i
             end
         | None => m !! i
         end
    else m !! i.
Proof.
  induction sis as [|si sis IH]; intros base m i.
  - cbn. now destruct ((Z.of_nat base <=? i) && (i <? Z.of_nat (base + 0))).
  - cbn [length seq zip zip_with fold_left]. rewrite (IH (S base)).
    destruct (Z.leb_spec (Z.of_nat (S base)) i) as [Hge|Hlt]; cbn [andb].
    + destruct (Z.ltb_spec i (Z.of_nat (S base + length sis))) as [Hi|Hi].
      * assert (E1 : (Z.of_nat base <=? i) = true) by (apply Z.leb_le; lia).
        assert (E2 : (i <? Z.of_nat (base + S (length sis))) = true)
          by (apply Z.ltb_lt; lia).
        rewrite E1, E2. cbn [andb].
        replace (Z.to_nat i - base)%nat with (S (Z.to_nat i - S base))
          by lia.
        cbn [lookup list_lookup].
        destruct (sis !! (Z.to_nat i - S base)%nat) as [si'|] eqn:Hsi.
        -- destruct (find (XMLNS +:+ "t") si'); [reflexivity|].
           destruct (find (XMLNS +:+ "t") si); [|reflexivity].
           apply lookup_insert_ne. lia.
        -- apply lookup_ge_None in Hsi. lia.
      * assert (E2 : (i <? Z.of_nat (base + S (length sis))) = false)
          by (apply Z.ltb_ge; lia).
        rewrite E2, andb_false_r.
        destruct (find (XMLNS +:+ "t") si); [|reflexivity].
        apply lookup_insert_ne. lia.
    + destruct (Z.leb_spec (Z.of_nat base) i) as [Hb|Hb]; cbn [andb].
      * assert (i = Z.of_nat base) by lia. subst i.
        assert (E2 : (Z.of_nat base <? Z.of_nat (base + S (length sis)))
                     = true) by (apply Z.ltb_lt; lia).
        rewrite E2. rewrite Nat2Z.id, Nat.sub_diag. cbn [lookup list_lookup].
        destruct (find (XMLNS +:+ "t") si); [|reflexivity].
        apply lookup_insert_eq.
      * destruct (find (XMLNS +:+ "t") si); [|reflexivity].
        apply lookup_insert_ne. lia.
Qed.

(** X1.  The shared-string table maps the index [i] to the text of the
    first [t] child of the [i]-th [si] element of the root, counted from 0
    over all [si] elements.  An [si] without a [t] child (rich text) has no
    entry but still takes its number; negative indices and indices past
    the last [si] have no entry. *)
Theorem build_shared_strings_map_lookup (tree : element) (i : Z) :
  build_shared_strings_map tree !! i
  = if (0 <=? i)
    then si ← findall (XMLNS +:+ "si") tree !! Z.to_nat i;
         text <$> find (XMLNS +:+ "t") si
    else None.
Proof.
  unfold build_shared_strings_map, enumerate.
  rewrite (shared_strings_loop _ 0%nat ∅ i), lookup_empty.
  change (Z.of_nat 0) with 0. rewrite Nat.sub_0_r.
  destruct (Z.leb_spec 0 i) as [Hi|Hi]; cbn [andb]; [|reflexivity].
  destruct (Z.ltb_spec i (Z.of_nat (0 + length (findall (XMLNS +:+ "si") tree))))
    as [Hlt|Hge].
  - destruct (findall (XMLNS +:+ "si") tree !! Z.to_nat i) as [si|];
      [|reflexivity].
    cbn. now destruct (find (XMLNS +:+ "t") si).
  - rewrite lookup_ge_None_2 by lia. reflexivity.
Qed.

(** X2.  [get_sheet_names] maps a sheet id to the name of the last [sheet]
    element of the workbook that carries this id: a later element with
    the same id replaces the earlier one.  An id that no element carries
    has no entry. *)
Theorem get_sheet_names_last_wins (root : element) (id : option string) :
  get_sheet_names root !! id
  = (fun sheet => get sheet "name")
      <$> last (List.filter (fun sheet => bool_decide (get sheet "sheetId" = id))
                            (findall_below (XMLNS +:+ "sheet") root)).
Proof.
  unfold get_sheet_names.
  induction (findall_below (XMLNS +:+ "sheet") root) as [|sheet sheets IH]
    using rev_ind.
  - apply lookup_empty.
  - rewrite fold_left_app, List.filter_app. cbn [fold_left List.filter].
    destruct (bool_decide (get sheet "sheetId" = id)) eqn:E.
    + apply bool_decide_eq_true in E. rewrite E, lookup_insert_eq.
      now rewrite last_snoc.
    + apply bool_decide_eq_false in E.
      rewrite lookup_insert_ne by exact E. now rewrite app_nil_r.
Qed.

(** ** Coordinates and lines of the summarizer *)

Lemma list_ascii_of_string_app s1 s2 :
  list_ascii_of_string (s1 +:+ s2)
  = list_ascii_of_string s1 ++ list_ascii_of_string s2.
Proof.
  induction s1 as [|c s1 IH]; [reflexivity|].
  rewrite append_cons. cbn [list_ascii_of_string app]. now rewrite IH.
Qed.

Lemma join_singletons l :
  join (map (fun c => String c "") l) = string_of_list_ascii l.
Proof.
  induction l as [|c l IH]; [reflexivity|].
  cbn [map join fold_right string_of_list_ascii]. fold (join (map (fun c => String c "") l)).
  now rewrite append_cons, append_nil_l, IH.
Qed.

Lemma isupper_AZ_isalpha c : isupper_AZ c = true -> isalpha c = true.
Proof.
  intros H. apply isupper_AZ_spec in H. unfold isalpha. cbv zeta.
  assert (E1 : (65 <=? ord c) = true) by (apply Z.leb_le; lia).
  assert (E2 : (ord c <=? 90) = true) by (apply Z.leb_le; lia).
  now rewrite E1, E2.
Qed.

Lemma isdigit_not_alpha c : isdigit c = true -> isalpha c = false.
Proof.
  intros H. apply isdigit_spec in H. unfold isalpha. cbv zeta.
  repeat match goal with
         | |- context [?a <=? ?b] => destruct (Z.leb_spec a b); try lia
         | |- context [?a =? ?b] => destruct (Z.eqb_spec a b); try lia
         end; reflexivity.
Qed.

Lemma isdigit_not_upper c : isdigit c = true -> isupper_AZ c = false.
Proof.
  intros H. apply isdigit_spec in H. unfold isupper_AZ. cbv zeta.
  destruct (Z.leb_spec 65 (ord c)); [lia | reflexivity].
Qed.

(** The letters of a column name followed by something that does not
    start with a letter A-Z are split off whole. *)
Lemma span_AZ_column col rest :
  is_column_name col = true ->
  match rest with
  | String c _ => isupper_AZ c = false
  | EmptyString => True
  end ->
  span_AZ (col +:+ rest) = (col, rest).
Proof.
  unfold is_column_name. induction col as [|c col IH]; intros Hcol Hrest.
  - rewrite append_nil_l. destruct rest as [|c rest]; [reflexivity|].
    cbn [span_AZ]. now rewrite Hrest.
  - cbn [list_ascii_of_string forallb] in Hcol.
    apply andb_true_iff in Hcol as [Hc Hcol].
    rewrite append_cons. cbn [span_AZ]. rewrite Hc.
    now rewrite (IH Hcol Hrest).
Qed.

Lemma pattern_match_coordinate col digits :
  is_column_name col = true -> col <> "" ->
  forallb isdigit (list_ascii_of_string digits) = true -> digits <> "" ->
  pattern_match_group1 (col +:+ digits) = Some col.
Proof.
  intros Hcol Hne Hd Hdne. unfold pattern_match_group1.
  destruct digits as [|d digits]; [congruence|].
  cbn [list_ascii_of_string forallb] in Hd.
  apply andb_true_iff in Hd as [Hd _].
  rewrite span_AZ_column; [|exact Hcol | now apply isdigit_not_upper].
  destruct col as [|c col]; [congruence|]. now rewrite Hd.
Qed.

(** X3.  On a coordinate made of a column name and digits, [get_letters]
    returns the column name; when neither part is empty this is also what
    the pattern [([A-Z]+)\d+] of the summarizer extracts. *)
Theorem get_letters_of_coordinate (col digits : string)
    (Hcol : is_column_name col = true)
    (Hdigits : forallb isdigit (list_ascii_of_string digits) = true) :
  get_letters (col +:+ digits) = col
  /\ (col <> "" -> digits <> "" ->
      pattern_match_group1 (col +:+ digits) = Some col).
Proof.
  split; [|intros; now apply pattern_match_coordinate].
  unfold get_letters. rewrite join_singletons, list_ascii_of_string_app.
  rewrite List.filter_app.
  assert (H1 : List.filter isalpha (list_ascii_of_string col)
               = list_ascii_of_string col).
  { unfold is_column_name in Hcol.
    induction (list_ascii_of_string col) as [|c l IH]; [reflexivity|].
    cbn [forallb] in Hcol. apply andb_true_iff in Hcol as [Hc Hl].
    cbn [List.filter]. rewrite (isupper_AZ_isalpha c Hc). now rewrite IH. }
  assert (H2 : List.filter isalpha (list_ascii_of_string digits) = []).
  { induction (list_ascii_of_string digits) as [|c l IH]; [reflexivity|].
    cbn [forallb] in Hdigits. apply andb_true_iff in Hdigits as [Hc Hl].
    cbn [List.filter]. rewrite (isdigit_not_alpha c Hc). now apply IH. }
  rewrite H1, H2, app_nil_r. apply string_of_list_ascii_of_string.
Qed.

Lemma get_letters_of_coordinate_witness :
  get_letters "AZ12" = "AZ"
  /\ ("AZ" <> "" -> "12" <> "" -> pattern_match_group1 "AZ12" = Some "AZ").
Proof.
  apply (get_letters_of_coordinate "AZ" "12"); reflexivity.
Defined.

(** The loop over cells without a reference, once a reference from which
    the pattern extracts [col] is remembered and the row number is
    written as [number]. *)
Lemma bare_cells_loop (row_number : Z) (last col number : string)
    (cells : list element)
    (Hlast : pattern_match_group1 last = Some col)
    (Hnumber : str row_number = Ok number)
    (Hbare : Forall (fun cell => get cell "r" = None) cells) :
  forall lines locs,
  foldM (cell_step row_number) (CellLoop (Some last) lines locs) cells
  = Ok (CellLoop (Some last)
          (lines ++ omap (fun cell => (fun value_text =>
                                         escape_text value_text +:+ LF)
                                        <$> cell_value_text cell) cells)
          (locs ++ omap (fun cell => (fun _ =>
                                        get_next_excel_column_name col
                                        +:+ number)
                                       <$> cell_value_text cell) cells)).
Proof.
  induction Hbare as [|cell cells Hcell _ IH]; intros lines locs.
  - cbn. now rewrite !app_nil_r.
  - rewrite foldM_cons, cell_step_unfold. unfold locate_cell.
    rewrite Hcell, Hlast, Hnumber, result_bind_ok. cbn [omap list_omap].
    destruct (cell_value_text cell) as [value_text|]; rewrite result_bind_ok.
    + rewrite IH. cbn [fmap option_fmap option_map].
      now rewrite <- !app_assoc.
    + now rewrite IH.
Qed.

(** X4.  In a row, the cells without a reference that follow a cell with
    the reference [col ++ digits] all get the same coordinate — the
    successor of [col] with the row number — and leave the remembered
    reference as it is: the loop over such cells appends that coordinate
    once for each of them that carries text.  The row number is written
    out for the first of these cells, which raises when it has more digits
    than [str()] writes. *)
Theorem cells_without_reference_share_coordinate
    (row_number : Z) (col digits : string) (cells : list element)
    (lines locs : list string)
    (Hcol : is_column_name col = true) (Hne : col <> "")
    (Hdigits : forallb isdigit (list_ascii_of_string digits) = true)
    (Hdne : digits <> "")
    (Hbare : Forall (fun cell => get cell "r" = None) cells) :
  foldM (cell_step row_number)
        (CellLoop (Some (col +:+ digits)) lines locs) cells
  = match cells with
    | [] => Ok (CellLoop (Some (col +:+ digits)) lines locs)
    | _ :: _ =>
        number ← str row_number;
        Ok (CellLoop (Some (col +:+ digits))
              (lines ++ omap (fun cell => (fun value_text =>
                                             escape_text value_text +:+ LF)
                                            <$> cell_value_text cell) cells)
              (locs ++ omap (fun cell => (fun _ =>
                                            get_next_excel_column_name col
                                            +:+ number)
                                           <$> cell_value_text cell) cells))
    end.
Proof.
  pose proof (pattern_match_coordinate _ _ Hcol Hne Hdigits Hdne) as Hlast.
  destruct cells as [|cell cells]; [reflexivity|].
  destruct (str row_number) as [number|e] eqn:Hnumber.
  - rewrite result_bind_ok. now apply bare_cells_loop.
  - apply Forall_cons in Hbare as [Hcell _].
    rewrite foldM_cons, cell_step_unfold. unfold locate_cell.
    now rewrite Hcell, Hlast, Hnumber.
Qed.

Lemma cells_without_reference_share_coordinate_witness :
  foldM (cell_step 1) (CellLoop (Some "A1") [] [])
        [make_cell None (Some "y"); make_cell None None;
         make_cell None (Some "z")]
  = Ok (CellLoop (Some "A1") ["y" +:+ LF; "z" +:+ LF] ["B1"; "B1"]).
Proof.
  refine (cells_without_reference_share_coordinate 1 "A" "1"
            [make_cell None (Some "y"); make_cell None None;
             make_cell None (Some "z")] [] [] _ _ _ _ _).
  - reflexivity.
  - discriminate.
  - reflexivity.
  - discriminate.
  - repeat constructor.
Defined.

Lemma has_char_app c s1 s2 :
  has_char c (s1 +:+ s2) = has_char c s1 || has_char c s2.
Proof.
  induction s1 as [|x s1 IH]; [reflexivity|].
  rewrite append_cons. cbn [has_char]. now rewrite IH, orb_assoc.
Qed.

Lemma escape_char_plain x :
  Ascii.eqb x (ascii_of_nat 10) = false ->
  Ascii.eqb x (ascii_of_nat 13) = false ->
  escape_char x = String x "".
Proof. intros E10 E13. unfold escape_char. now rewrite E10, E13. Qed.

Lemma escape_text_no_line_break s :
  has_char (ascii_of_nat 10) (escape_text s) = false
  /\ has_char (ascii_of_nat 13) (escape_text s) = false.
Proof.
  rewrite escape_text_expand.
  induction s as [|x s [IH1 IH2]]; [now split|].
  cbn [expand]. rewrite !has_char_app, IH1, IH2, !orb_false_r.
  destruct (Ascii.eqb x (ascii_of_nat 10)) eqn:E10.
  { apply Ascii.eqb_eq in E10. subst x. now split. }
  destruct (Ascii.eqb x (ascii_of_nat 13)) eqn:E13.
  { apply Ascii.eqb_eq in E13. subst x. now split. }
  rewrite (escape_char_plain x E10 E13). cbn [has_char].
  now rewrite E10, E13.
Qed.

Lemma escape_text_plain s :
  has_char (ascii_of_nat 10) s = false ->
  has_char (ascii_of_nat 13) s = false ->
  escape_text s = s.
Proof.
  rewrite escape_text_expand.
  induction s as [|x s IH]; intros H10 H13; [reflexivity|].
  cbn [has_char] in H10, H13.
  apply orb_false_iff in H10 as [E10 H10].
  apply orb_false_iff in H13 as [E13 H13].
  cbn [expand]. rewrite (escape_char_plain x E10 E13).
  now rewrite append_cons, append_nil_l, IH.
Qed.

Lemma summary_entries_lines located :
  map fst (summary_entries located)
  = map (fun value_text => escape_text value_text +:+ LF)
        (omap cell_value_text (map fst located)).
Proof.
  induction located as [|[cell loc] located IH]; [reflexivity|].
  rewrite summary_entries_cons. cbn [map fst omap list_omap].
  destruct (cell_value_text cell) as [value_text|]; cbn [map fst];
    now rewrite IH.
Qed.

(** X5.  The lines of a summary are the texts of the sheet's cells that
    carry text, in document order, each escaped and followed by a line
    feed.  Every such line is one line for the diff engine: the escaped
    text holds neither a line feed nor a carriage return, whatever the
    cell's text was; and a text without line breaks is taken as it is. *)
Theorem summary_lines_are_single_lines (xml_root : element)
    (lines locs : list string)
    (Hsum : summarize_sheet xml_root = Ok (lines, locs)) :
  lines = map (fun value_text => escape_text value_text +:+ LF)
              (cell_texts xml_root)
  /\ Forall (fun value_text =>
               has_char (ascii_of_nat 10) (escape_text value_text) = false
               /\ has_char (ascii_of_nat 13) (escape_text value_text) = false
               /\ (has_char (ascii_of_nat 10) value_text = false ->
                   has_char (ascii_of_nat 13) value_text = false ->
                   escape_text value_text = value_text))
            (cell_texts xml_root).
Proof.
  split.
  - pose proof (summarize_sheet_coordinates xml_root) as Hret.
    rewrite Hsum in Hret. cbn [returned] in Hret.
    destruct (sheet_coordinates xml_root) as [located|] eqn:Hloc;
      [|discriminate Hret].
    injection Hret as -> _.
    destruct (rows_coordinates_spec _ _ _ Hloc) as [Hfst _].
    fold (sheet_cells xml_root) in Hfst.
    unfold cell_texts. now rewrite summary_entries_lines, Hfst.
  - apply Forall_forall. intros value_text _.
    destruct (escape_text_no_line_break value_text) as [H10 H13].
    split; [exact H10|]. split; [exact H13|].
    intros Hn Hr. now apply escape_text_plain.
Qed.

Lemma summary_lines_are_single_lines_witness :
  ["x" +:+ LF; "z" +:+ LF; "q" +:+ LF]
  = map (fun value_text => escape_text value_text +:+ LF)
        (cell_texts sheet_two_rows)
  /\ Forall (fun value_text =>
               has_char (ascii_of_nat 10) (escape_text value_text) = false
               /\ has_char (ascii_of_nat 13) (escape_text value_text) = false
               /\ (has_char (ascii_of_nat 10) value_text = false ->
                   has_char (ascii_of_nat 13) value_text = false ->
                   escape_text value_text = value_text))
            (cell_texts sheet_two_rows).
Proof.
  apply (summary_lines_are_single_lines sheet_two_rows
           ["x" +:+ LF; "z" +:+ LF; "q" +:+ LF] ["A7"; "D7"; "AZ8"]).
  vm_compute. reflexivity.
Defined.

(** ** The summaries of a package *)

Lemma dict_get_set {V} (d : Dict.dict V) k v k' :
  Dict.get (Dict.set k v d) k'
  = if String.eqb k k' then Some v else Dict.get d k'.
Proof.
  induction d as [|[k0 v0] d IH].
  - cbn. now destruct (String.eqb k k').
  - cbn [Dict.set]. destruct (String.eqb k0 k) eqn:E0.
    + apply String.eqb_eq in E0. subst k0. cbn [Dict.get].
      now destruct (String.eqb k k').
    + cbn [Dict.get]. rewrite IH.
      destruct (String.eqb k0 k') eqn:E1; [|reflexivity].
      apply String.eqb_eq in E1. subst k0. now rewrite String.eqb_sym, E0.
Qed.

Lemma dict_keys_set {V} (d : Dict.dict V) k v :
  Dict.keys (Dict.set k v d)
  = if bool_decide (k ∈ Dict.keys d) then Dict.keys d
    else Dict.keys d ++ [k].
Proof.
  unfold Dict.keys. induction d as [|[k0 v0] d IH]; [reflexivity|].
  cbn [Dict.set map fst]. destruct (String.eqb k0 k) eqn:E0.
  - apply String.eqb_eq in E0. subst k0. cbn [map fst].
    rewrite bool_decide_eq_true_2; [reflexivity | left].
  - cbn [map fst]. rewrite IH. apply String.eqb_neq in E0.
    destruct (bool_decide (k ∈ map fst d)) eqn:Ed.
    + apply bool_decide_eq_true in Ed.
      rewrite bool_decide_eq_true_2; [reflexivity | now right].
    + apply bool_decide_eq_false in Ed.
      rewrite bool_decide_eq_false_2; [reflexivity|].
      intros Hin. apply elem_of_cons in Hin as [->|Hin]; congruence.
Qed.

Lemma dict_keys_set_NoDup {V} (d : Dict.dict V) k v :
  NoDup (Dict.keys d) -> NoDup (Dict.keys (Dict.set k v d)).
Proof.
  intros H. rewrite dict_keys_set.
  destruct (bool_decide (k ∈ Dict.keys d)) eqn:E; [exact H|].
  apply bool_decide_eq_false in E. apply NoDup_app.
  split; [exact H|]. split; [|apply NoDup_singleton].
  intros x Hx Hk. apply list_elem_of_singleton in Hk. now subst x.
Qed.

Lemma dict_get_is_Some {V} (d : Dict.dict V) k :
  is_Some (Dict.get d k) <-> k ∈ Dict.keys d.
Proof.
  unfold Dict.keys. induction d as [|[k0 v0] d IH].
  - cbn. split; [intros [? H]; discriminate H|].
    intros H. apply elem_of_nil in H as [].
  - cbn [Dict.get map fst]. destruct (String.eqb k0 k) eqn:E.
    + apply String.eqb_eq in E. subst k0. split; [left | eauto].
    + apply String.eqb_neq in E. rewrite IH. split; [now right|].
      intros H. apply elem_of_cons in H as [->|H]; congruence.
Qed.

(** One iteration of the loop of [summarize_sheet_files]. *)
Lemma summarize_sheet_files_step sheet_names summaries sheet_path xml_root
    summaries' :
  (sheet_id ← match search_sheet_id sheet_path with
              | Some id => Ok id
              | None => Raise AttributeError
              end;
   let sheet_name := default "" (sheet_names !! sheet_id) in
   s ← summarize_sheet xml_root;
   Ok (Dict.set sheet_name s summaries)) = Ok summaries' ->
  exists sheet_name s,
    sheet_name_of sheet_names sheet_path = Some sheet_name
    /\ summarize_sheet xml_root = Ok s
    /\ summaries' = Dict.set sheet_name s summaries.
Proof.
  unfold sheet_name_of.
  destruct (search_sheet_id sheet_path) as [id|]; [|discriminate].
  rewrite result_bind_ok. cbv zeta.
  destruct (summarize_sheet xml_root) as [s|e]; [|discriminate].
  rewrite result_bind_ok. intros H. injection H as <-. eauto.
Qed.

Lemma summarize_sheet_files_loop sheet_names modified_sheets :
  forall summaries0 summaries,
  foldM
    (fun summaries '(sheet_path, xml_root) =>
       sheet_id ← match search_sheet_id sheet_path with
                  | Some id => Ok id
                  | None => Raise AttributeError
                  end;
       let sheet_name := default "" (sheet_names !! sheet_id) in
       s ← summarize_sheet xml_root;
       Ok (Dict.set sheet_name s summaries))
    summaries0 modified_sheets = Ok summaries ->
  NoDup (Dict.keys summaries0) ->
  NoDup (Dict.keys summaries)
  /\ forall name,
       Dict.get summaries name
       = match last (List.filter
                       (fun sheet =>
                          bool_decide (sheet_name_of sheet_names (fst sheet)
                                       = Some name))
                       modified_sheets) with
         | Some sheet => returned (summarize_sheet (snd sheet))
         | None => Dict.get summaries0 name
         end.
Proof.
  induction modified_sheets as [|[sheet_path xml_root] rest IH];
    intros summaries0 summaries Hloop Hnd.
  - injection Hloop as <-. now split.
  - rewrite foldM_cons in Hloop.
    match type of Hloop with
    | (?step ≫= _) = _ => destruct step as [summaries1|e] eqn:Hstep
    end; [|discriminate Hloop].
    rewrite result_bind_ok in Hloop.
    apply summarize_sheet_files_step in Hstep
      as (sheet_name & s & Hname & Hs & ->).
    destruct (IH _ _ Hloop (dict_keys_set_NoDup _ _ _ Hnd)) as [Hnd' Hget].
    split; [exact Hnd'|]. intros name. rewrite Hget.
    cbn [List.filter fst]. rewrite Hname.
    destruct (last (List.filter _ rest)) as [sheet|] eqn:Hlast.
    + destruct (bool_decide (Some sheet_name = Some name));
        [|now rewrite Hlast].
      rewrite last_cons, Hlast. reflexivity.
    + rewrite dict_get_set.
      destruct (bool_decide (Some sheet_name = Some name)) eqn:E.
      * apply bool_decide_eq_true in E. injection E as ->.
        rewrite String.eqb_refl, last_cons, Hlast. cbn [snd].
        now rewrite Hs.
      * apply bool_decide_eq_false in E. rewrite Hlast.
        assert (En : String.eqb sheet_name name = false)
          by (apply String.eqb_neq; congruence).
        now rewrite En.
Qed.

(** X6.  When [summarize_sheet_files] returns, no sheet name occurs twice
    among the keys of the summaries, and the summary stored under a name
    is that of the last sheet file filed under this name — the name the
    sheet id of its path has in [sheet_names], or the empty name: of two
    sheets with one name only the later one is kept.  A name no sheet
    file has is not a key. *)
Theorem summarize_sheet_files_last_wins
    (modified_sheets : Dict.dict element) (sheet_names : gmap string string)
    (summaries : Dict.dict (list string * list string))
    (Hres : summarize_sheet_files modified_sheets sheet_names = Ok summaries) :
  NoDup (Dict.keys summaries)
  /\ forall name,
       Dict.get summaries name
       = sheet ← last (List.filter
                         (fun sheet =>
                            bool_decide
                              (sheet_name_of sheet_names (fst sheet)
                               = Some name))
                         modified_sheets);
         returned (summarize_sheet (snd sheet)).
Proof.
  unfold summarize_sheet_files in Hres.
  destruct (summarize_sheet_files_loop _ _ _ _ Hres (NoDup_nil_2))
    as [Hnd Hget].
  split; [exact Hnd|]. intros name. rewrite Hget.
  now destruct (last (List.filter _ modified_sheets)).
Qed.

Lemma summarize_sheet_files_last_wins_witness :
  NoDup (Dict.keys [("", (["q" +:+ LF], ["A1"]))])
  /\ forall name,
       Dict.get [("", (["q" +:+ LF], ["A1"]))] name
       = sheet ← last (List.filter
                         (fun sheet =>
                            bool_decide
                              (sheet_name_of ∅ (fst sheet) = Some name))
                         [("xl/worksheets/sheet1.xml",
                           make_sheet [make_row None
                                         [make_cell None (Some "x")]]);
                          ("xl/worksheets/sheet2.xml",
                           make_sheet [make_row None
                                         [make_cell None (Some "q")]])]);
         returned (summarize_sheet (snd sheet)).
Proof.
  apply (summarize_sheet_files_last_wins
           [("xl/worksheets/sheet1.xml",
             make_sheet [make_row None [make_cell None (Some "x")]]);
            ("xl/worksheets/sheet2.xml",
             make_sheet [make_row None [make_cell None (Some "q")]])]
           ∅ [("", (["q" +:+ LF], ["A1"]))]).
  vm_compute. reflexivity.
Defined.

(** ** The sheet files of a package *)

Lemma strip_prefix_app p s t :
  strip_prefix p s = Some t -> s = p +:+ t.
Proof.
  revert s. induction p as [|a p IH]; intros s H.
  - now injection H as ->.
  - destruct s as [|b s]; [discriminate H|]. cbn [strip_prefix] in H.
    destruct (Ascii.eqb a b) eqn:E; [|discriminate H].
    apply Ascii.eqb_eq in E. subst b. rewrite append_cons.
    now rewrite (IH _ H).
Qed.

Lemma string_eqb_prefix p s : String.eqb s p = true -> String.prefix p s = true.
Proof.
  intros H. apply String.eqb_eq in H. subst s.
  induction p as [|a p IH]; [reflexivity|].
  now rewrite prefix_cons, Ascii.eqb_refl.
Qed.

Lemma substring_all s : String.substring 0 (String.length s) s = s.
Proof.
  induction s as [|c s IH]; [reflexivity|].
  cbn [String.length String.substring]. now rewrite IH.
Qed.

(** A file name that [replace_shared_strings] takes for a sheet is one in
    which the summarizer finds a sheet id. *)
Lemma sheet_file_has_id file :
  is_sheet_file file = true -> is_Some (sheet_id_here file).
Proof.
  unfold is_sheet_file, sheet_id_here.
  destruct (strip_prefix "sheet" file) as [s|] eqn:Hs; [|discriminate].
  apply strip_prefix_app in Hs. subst file.
  assert (Hp : String.prefix "sheet" ("sheet" +:+ s) = true).
  { rewrite !append_cons, append_nil_l, !prefix_cons, prefix_nil.
    reflexivity. }
  assert (Hsub : String.substring 5 (String.length ("sheet" +:+ s) - 5)
                                  ("sheet" +:+ s) = s).
  { rewrite !append_cons, append_nil_l. cbn [String.length Nat.sub].
    cbn [String.substring]. rewrite Nat.sub_0_r. apply substring_all. }
  rewrite Hp, Hsub.
  destruct (span_digits s) as [[|d ds] rest]; [discriminate|].
  intros H. apply orb_true_iff in H as [H|H].
  - rewrite (string_eqb_prefix _ _ H). eauto.
  - apply String.eqb_eq in H. subst rest. unfold LF.
    rewrite !append_cons, append_nil_l, !prefix_cons, prefix_nil. cbn.
    eauto.
Qed.

Lemma search_sheet_id_suffix dir file :
  is_Some (sheet_id_here file) -> is_Some (search_sheet_id (dir +:+ file)).
Proof.
  intros H. induction dir as [|c dir IH].
  - rewrite append_nil_l. destruct file as [|c file];
      cbn [search_sheet_id]; destruct H as [id ->]; eauto.
  - rewrite append_cons. cbn [search_sheet_id].
    destruct (sheet_id_here (String c (dir +:+ file))); [eauto | exact IH].
Qed.

Lemma os_path_join_suffix a b : exists dir, os_path_join a b = dir +:+ b.
Proof.
  unfold os_path_join. destruct (String.prefix "/" b).
  - now exists "".
  - destruct (String.eqb a "" || ends_with_slash a).
    + now exists a.
    + exists (a +:+ "/"). now rewrite append_assoc3.
Qed.

Lemma foldM_invariant {A S} (f : S -> A -> result S) (P : S -> Prop) l :
  (forall s x s', x ∈ l -> P s -> f s x = Ok s' -> P s') ->
  forall s s', P s -> foldM f s l = Ok s' -> P s'.
Proof.
  induction l as [|x l IH]; intros Hstep s s' Hs Hrun.
  - now injection Hrun as <-.
  - rewrite foldM_cons in Hrun.
    destruct (f s x) as [s1|e] eqn:Hf; [|discriminate Hrun].
    rewrite result_bind_ok in Hrun.
    apply (IH (fun s0 y s0' Hy => Hstep s0 y s0' (list_elem_of_further _ _ _ Hy))
              s1 s'); [|exact Hrun].
    apply (Hstep s x s1); [left | exact Hs | exact Hf].
Qed.

(** X7.  Every path under which [replace_shared_strings] returns a sheet
    is the join of a walked directory and one of its files whose name has
    the form sheet, digits, .xml; the paths are distinct; and in each of
    them the summarizer's search for [sheet(\d+)\.xml] finds a sheet id,
    so that [summarize_sheet_files] does not fail there for want of a
    match. *)
Theorem replace_shared_strings_paths (read_sheet : string -> element)
    (shared_strings_tree : element) (walk : list (string * list string))
    (modified_sheets : Dict.dict element)
    (Hres : replace_shared_strings read_sheet shared_strings_tree walk
            = Ok modified_sheets) :
  NoDup (Dict.keys modified_sheets)
  /\ Forall (fun sheet_path =>
               (exists root files file,
                  (root, files) ∈ walk /\ file ∈ files
                  /\ is_sheet_file file = true
                  /\ sheet_path = os_path_join root file)
               /\ is_Some (search_sheet_id sheet_path))
            (Dict.keys modified_sheets).
Proof.
  unfold replace_shared_strings in Hres. cbv zeta in Hres.
  set (P := fun ms : Dict.dict element =>
              NoDup (Dict.keys ms)
              /\ Forall (fun sheet_path =>
                   (exists root files file,
                      (root, files) ∈ walk /\ file ∈ files
                      /\ is_sheet_file file = true
                      /\ sheet_path = os_path_join root file)
                   /\ is_Some (search_sheet_id sheet_path))
                 (Dict.keys ms)).
  refine (foldM_invariant _ P walk _ [] modified_sheets _ Hres);
    [|split; constructor].
  intros ms [root files] ms' Hin HP Hinner.
  refine (foldM_invariant _ P files _ ms ms' HP Hinner).
  clear ms ms' HP Hinner. intros ms file ms' Hfile [Hnd Hall] Hstep.
  destruct (is_sheet_file file) eqn:Hsheet; [|now injection Hstep as <-].
  destruct (replace_shared_strings_in_sheet
              (read_sheet (os_path_join root file))
              (build_shared_strings_map shared_strings_tree))
    as [content|e]; [|discriminate Hstep].
  rewrite result_bind_ok in Hstep. injection Hstep as <-.
  split; [now apply dict_keys_set_NoDup|].
  rewrite dict_keys_set.
  destruct (bool_decide (os_path_join root file ∈ Dict.keys ms));
    [exact Hall|].
  apply Forall_app. split; [exact Hall|]. constructor; [|constructor].
  split; [now exists root, files, file|].
  destruct (os_path_join_suffix root file) as [dir ->].
  apply search_sheet_id_suffix. now apply sheet_file_has_id.
Qed.

Lemma replace_shared_strings_paths_witness :
  NoDup (Dict.keys [("/tmp/u/xl/worksheets/sheet1.xml", make_sheet [])])
  /\ Forall (fun sheet_path =>
               (exists root files file,
                  (root, files)
                    ∈ [("/tmp/u/xl", ["workbook.xml"; "sharedStrings.xml"]);
                       ("/tmp/u/xl/worksheets", ["sheet1.xml"])]
                  /\ file ∈ files
                  /\ is_sheet_file file = true
                  /\ sheet_path = os_path_join root file)
               /\ is_Some (search_sheet_id sheet_path))
            (Dict.keys [("/tmp/u/xl/worksheets/sheet1.xml", make_sheet [])]).
Proof.
  apply (replace_shared_strings_paths (fun _ => make_sheet [])
           sst_with_rich_text).
  vm_compute. reflexivity.
Defined.

(** ** What the annotation keeps and when it fails *)

Lemma lines_inserted_refl P l : lines_inserted P l l.
Proof. induction l; constructor; assumption. Qed.

Lemma lines_inserted_trans P l1 l2 l3 :
  lines_inserted P l1 l2 -> lines_inserted P l2 l3 -> lines_inserted P l1 l3.
Proof.
  intros H12 H23. revert l1 H12.
  induction H23 as [|x l2 l3 _ IH|x l2 l3 Hx _ IH]; intros l1 H12.
  - exact H12.
  - inversion H12 as [|y l1' l2' H|y l1' l2' Hy H]; subst.
    + apply inserted_keep. now apply IH.
    + apply inserted_new; [exact Hy|]. now apply IH.
  - apply inserted_new; [exact Hx|]. now apply IH.
Qed.

Lemma lines_inserted_weaken (P Q : string -> Prop) l l' :
  (forall x, P x -> Q x) -> lines_inserted P l l' -> lines_inserted Q l l'.
Proof. intros HPQ. induction 1; constructor; auto. Qed.

Lemma lines_inserted_insert P idx x l :
  P x -> lines_inserted P l (insert idx x l).
Proof.
  intros Hx. unfold insert. rewrite <- (take_drop idx l) at 1.
  induction (take idx l) as [|y t IH]; cbn [app].
  - apply inserted_new; [exact Hx | apply lines_inserted_refl].
  - now apply inserted_keep.
Qed.

Lemma lines_inserted_length P l l' :
  lines_inserted P l l' -> (length l <= length l')%nat.
Proof. induction 1; cbn [length]; lia. Qed.

Lemma lines_inserted_sublist P l l' : lines_inserted P l l' -> l `sublist_of` l'.
Proof. induction 1; constructor; assumption. Qed.

Lemma getitem_elem_of {A} (l : list A) i x : getitem l i = Ok x -> x ∈ l.
Proof.
  unfold getitem. destruct (l !! i) eqn:E; [|discriminate].
  intros H. injection H as <-. eapply list_elem_of_lookup_2. exact E.
Qed.

Lemma slice_subseteq {A} (l : list A) start stop x :
  x ∈ slice l start stop -> x ∈ l.
Proof.
  unfold slice. intros H.
  eapply subseteq_drop, subseteq_take. exact H.
Qed.

(** The loop only puts annotation lines in, one for each step it counts
    in [offset], and it raises nothing but [IndexError]. *)
Lemma annotate_walk_inserts from_count to_count old_coords new_coords fuel :
  forall i j idx offset dl,
    match annotate_walk fuel from_count to_count old_coords new_coords
            i j idx offset dl with
    | Ok (dl', offset') =>
        lines_inserted (is_note old_coords new_coords) dl dl'
        /\ (length dl' + offset = length dl + offset')%nat
        /\ (offset <= offset')%nat
    | Raise e => e = IndexError
    end.
Proof.
  induction fuel as [|fuel IH]; intros i j idx offset dl;
    cbn [annotate_walk];
    (destruct ((Z.of_nat i <? from_count) || (Z.of_nat j <? to_count));
       [|split; [apply lines_inserted_refl | lia]]);
    [reflexivity|].
  assert (Hexn : forall {A} (l : list A) k e,
            getitem l k = Raise e -> e = IndexError).
  { intros A l k e. unfold getitem. destruct (l !! k); congruence. }
  assert (Hstep : forall x i' j',
            is_note old_coords new_coords x ->
            match annotate_walk fuel from_count to_count old_coords
                    new_coords i' j' (idx + 2) (offset + 1)
                    (insert idx x dl) with
            | Ok (dl', offset') =>
                lines_inserted (is_note old_coords new_coords) dl dl'
                /\ (length dl' + offset = length dl + offset')%nat
                /\ (offset <= offset')%nat
            | Raise e => e = IndexError
            end).
  { intros x i' j' Hx.
    specialize (IH i' j' (idx + 2)%nat (offset + 1)%nat (insert idx x dl)).
    destruct (annotate_walk fuel from_count to_count old_coords new_coords
                i' j' (idx + 2) (offset + 1) (insert idx x dl))
      as [[dl' offset']|e]; [|exact IH].
    destruct IH as (Hins & Hlen & Hoff).
    split; [|split; [|lia]].
    - eapply lines_inserted_trans; [|exact Hins].
      now apply lines_inserted_insert.
    - assert (length (insert idx x dl) = S (length dl)).
      { unfold insert. rewrite length_app. cbn [length].
        rewrite length_take, length_drop. lia. }
      lia. }
  destruct (getitem dl idx) as [line|e] eqn:Hline;
    [|now apply Hexn in Hline].
  rewrite result_bind_ok. destruct (startswith "-" line).
  - destruct (getitem old_coords i) as [oc|e] eqn:Hoc;
      [|now apply Hexn in Hoc].
    rewrite result_bind_ok. apply Hstep. left. exists oc.
    split; [now apply getitem_elem_of in Hoc | reflexivity].
  - destruct (startswith "+" line).
    + destruct (getitem new_coords j) as [nc|e] eqn:Hnc;
        [|now apply Hexn in Hnc].
      rewrite result_bind_ok. apply Hstep. right. left. exists nc.
      split; [now apply getitem_elem_of in Hnc | reflexivity].
    + destruct (getitem old_coords i) as [oc|e] eqn:Hoc;
        [|now apply Hexn in Hoc].
      rewrite result_bind_ok.
      destruct (getitem new_coords j) as [nc|e] eqn:Hnc;
        [|now apply Hexn in Hnc].
      rewrite result_bind_ok. apply Hstep. right. right. exists oc, nc.
      split; [now apply getitem_elem_of in Hoc|].
      split; [now apply getitem_elem_of in Hnc | reflexivity].
Qed.

Lemma is_note_slices locations_from locations_to a b c d x :
  is_note (slice locations_from a b) (slice locations_to c d) x ->
  is_note locations_from locations_to x.
Proof.
  intros [(oc & Hoc & ->)|[(nc & Hnc & ->)|(oc & nc & Hoc & Hnc & ->)]].
  - left. exists oc. split; [eapply slice_subseteq; exact Hoc | reflexivity].
  - right. left. exists nc.
    split; [eapply slice_subseteq; exact Hnc | reflexivity].
  - right. right. exists oc, nc.
    split; [eapply slice_subseteq; exact Hoc|].
    split; [eapply slice_subseteq; exact Hnc | reflexivity].
Qed.

Lemma annotate_change_inserts locations_from locations_to dl offset c :
  match annotate_change locations_from locations_to (dl, offset) c with
  | Ok (dl', offset') =>
      lines_inserted (is_note locations_from locations_to) dl dl'
      /\ (length dl' + offset = length dl + offset')%nat
  | Raise e => e = IndexError
  end.
Proof.
  destruct c as [[[[fs fc] ts] tc] index_start].
  rewrite annotate_change_unfold.
  match goal with
  | |- match annotate_walk ?f ?a ?b ?lf ?lt ?i ?j ?idx ?off ?l with _ => _ end =>
      pose proof (annotate_walk_inserts a b lf lt f i j idx off l) as H;
      destruct (annotate_walk f a b lf lt i j idx off l) as [[dl' offset']|e]
  end; [|exact H].
  destruct H as (Hins & Hlen & _). split; [|exact Hlen].
  eapply lines_inserted_weaken; [|exact Hins].
  intros x. apply is_note_slices.
Qed.

Lemma annotate_changes_insert locations_from locations_to changes :
  forall dl offset,
    match foldM (annotate_change locations_from locations_to)
                (dl, offset) changes with
    | Ok (dl', offset') =>
        lines_inserted (is_note locations_from locations_to) dl dl'
        /\ (length dl' + offset = length dl + offset')%nat
    | Raise e => e = IndexError
    end.
Proof.
  induction changes as [|c changes IH]; intros dl offset.
  - cbn. split; [apply lines_inserted_refl | reflexivity].
  - rewrite foldM_cons.
    pose proof (annotate_change_inserts locations_from locations_to
                  dl offset c) as Hc.
    destruct (annotate_change locations_from locations_to (dl, offset) c)
      as [[dl1 offset1]|e]; [|exact Hc].
    rewrite result_bind_ok. specialize (IH dl1 offset1).
    destruct (foldM (annotate_change locations_from locations_to)
                (dl1, offset1) changes) as [[dl' offset']|e]; [|exact IH].
    destruct Hc as [Hins1 Hlen1]. destruct IH as [Hins Hlen].
    split; [eapply lines_inserted_trans; eassumption | lia].
Qed.

(** The changes found in a diff.  When a hunk header of the diff has a
    number too long for [int()], the loop raises [ValueError]; otherwise
    it returns, and every hunk header of the diff is among the changes
    with its index. *)
Lemma line_changes_from_spec diff_list : forall base acc,
  if existsb header_too_long diff_list
  then line_changes_from base acc diff_list = Raise ValueError
  else exists more,
         line_changes_from base acc diff_list = Ok (acc ++ more)
         /\ forall k line fs fc ts tc,
              diff_list !! k = Some line ->
              hunk_header line = Ok (Some (fs, fc, ts, tc)) ->
              (fs, fc, ts, tc, (base + k)%nat) ∈ more.
Proof.
  induction diff_list as [|line0 rest IH]; intros base acc.
  - cbn [existsb]. exists []. rewrite app_nil_r. split; [reflexivity|].
    intros k line fs fc ts tc Hk. discriminate Hk.
  - rewrite line_changes_from_cons. cbn [existsb].
    destruct (hunk_header_cases line0) as [[Hlong Hh]|[Hlong [h Hh]]];
      rewrite Hlong, Hh; [reflexivity|].
    rewrite result_bind_ok. cbn [orb].
    destruct h as [[[[fs0 fc0] ts0] tc0]|].
    + specialize (IH (S base) (acc ++ [(fs0, fc0, ts0, tc0, base)])).
      destruct (existsb header_too_long rest); [exact IH|].
      destruct IH as (more & Hrun & Hall).
      exists ((fs0, fc0, ts0, tc0, base) :: more).
      split; [rewrite Hrun; now rewrite <- app_assoc|].
      intros [|k] line fs fc ts tc Hk Hline.
      * injection Hk as <-. rewrite Hh in Hline. injection Hline as <- <- <- <-.
        rewrite Nat.add_0_r. left.
      * right. replace (base + S k)%nat with (S base + k)%nat by lia.
        now apply (Hall k line).
    + specialize (IH (S base) acc).
      destruct (existsb header_too_long rest); [exact IH|].
      destruct IH as (more & Hrun & Hall).
      exists more. split; [exact Hrun|].
      intros [|k] line fs fc ts tc Hk Hline.
      * injection Hk as <-. rewrite Hh in Hline. discriminate Hline.
      * replace (base + S k)%nat with (S base + k)%nat by lia.
        now apply (Hall k line).
Qed.

(** X8.  Whatever the diff, the annotation drops, changes or reorders none
    of its lines: when it returns, the result is the diff with lines put
    in, each of them an annotation line made of coordinates of the two
    sheets. *)
Theorem annotate_diff_only_inserts_notes
    (locations_from locations_to diff_list out : list string)
    (Hres : annotate_diff locations_from locations_to diff_list = Ok out) :
  lines_inserted (is_note locations_from locations_to) diff_list out
  /\ diff_list `sublist_of` out.
Proof.
  unfold annotate_diff in Hres.
  destruct (line_changes diff_list) as [changes|e]; [|discriminate Hres].
  rewrite result_bind_ok in Hres.
  pose proof (annotate_changes_insert locations_from locations_to changes
                diff_list 0%nat) as H.
  destruct (foldM (annotate_change locations_from locations_to)
              (diff_list, 0%nat) changes) as [[dl' offset']|e];
    [|discriminate Hres].
  injection Hres as <-. destruct H as [Hins _].
  split; [exact Hins | eapply lines_inserted_sublist; exact Hins].
Qed.

Lemma annotate_diff_only_inserts_notes_witness :
  lines_inserted (is_note (coords_A 10) (coords_A 11)) diff_of_two_hunks
    ["--- a"; "+++ b";
     "@@ -1,3 +1,3 @@";
     paired_note "A1" "A1"; " x";
     removal_note "A2"; "-y";
     addition_note "A2"; "+z";
     paired_note "A3" "A3"; " w";
     "@@ -10 +10,2 @@";
     paired_note "A10" "A10"; " k";
     addition_note "A11"; "+m"]
  /\ diff_of_two_hunks
     `sublist_of`
     ["--- a"; "+++ b";
      "@@ -1,3 +1,3 @@";
      paired_note "A1" "A1"; " x";
      removal_note "A2"; "-y";
      addition_note "A2"; "+z";
      paired_note "A3" "A3"; " w";
      "@@ -10 +10,2 @@";
      paired_note "A10" "A10"; " k";
      addition_note "A11"; "+m"].
Proof.
  apply (annotate_diff_only_inserts_notes (coords_A 10) (coords_A 11)).
  vm_compute. reflexivity.
Defined.

(** The loop raises [IndexError] when fewer lines are left from [idx] on
    than one of the cursors still has to go. *)
Lemma annotate_walk_short from_count to_count old_coords new_coords fuel :
  forall i j idx offset dl,
    Z.of_nat (length dl - idx) + Z.of_nat i < from_count
    \/ Z.of_nat (length dl - idx) + Z.of_nat j < to_count ->
    annotate_walk fuel from_count to_count old_coords new_coords
      i j idx offset dl = Raise IndexError.
Proof.
  induction fuel as [|fuel IH]; intros i j idx offset dl Hshort;
    cbn [annotate_walk];
    (assert (Hgo : (Z.of_nat i <? from_count) || (Z.of_nat j <? to_count)
                   = true) by (apply walk_condition; lia));
    rewrite Hgo; [reflexivity|].
  assert (Hexn : forall {A} (l : list A) k e,
            getitem l k = Raise e -> e = IndexError).
  { intros A l k e. unfold getitem. destruct (l !! k); congruence. }
  destruct (getitem dl idx) as [line|e] eqn:Hline;
    [|apply Hexn in Hline; now subst e].
  apply getitem_Ok_lt in Hline. rewrite result_bind_ok.
  assert (Hlen : forall x, (length (insert idx x dl) - (idx + 2)
                            = length dl - idx - 1)%nat).
  { intros x. unfold insert. rewrite length_app. cbn [length].
    rewrite length_take, length_drop. lia. }
  destruct (startswith "-" line).
  - destruct (getitem old_coords i) as [oc|e] eqn:Hoc;
      [|apply Hexn in Hoc; now subst e].
    rewrite result_bind_ok. apply IH. rewrite Hlen. lia.
  - destruct (startswith "+" line).
    + destruct (getitem new_coords j) as [nc|e] eqn:Hnc;
        [|apply Hexn in Hnc; now subst e].
      rewrite result_bind_ok. apply IH. rewrite Hlen. lia.
    + destruct (getitem old_coords i) as [oc|e] eqn:Hoc;
        [|apply Hexn in Hoc; now subst e].
      rewrite result_bind_ok.
      destruct (getitem new_coords j) as [nc|e] eqn:Hnc;
        [|apply Hexn in Hnc; now subst e].
      rewrite result_bind_ok. apply IH. rewrite Hlen. lia.
Qed.

Lemma annotate_changes_short locations_from locations_to n
    fs fc ts tc index changes :
  (fs, fc, ts, tc, index) ∈ changes ->
  Z.of_nat (n - S index) < Z.max fc tc ->
  forall dl offset,
    length dl = (n + offset)%nat ->
    foldM (annotate_change locations_from locations_to) (dl, offset) changes
    = Raise IndexError.
Proof.
  intros Hin Hshort.
  induction changes as [|c changes IH]; intros dl offset Hlen.
  - apply elem_of_nil in Hin as [].
  - rewrite foldM_cons.
    pose proof (annotate_change_inserts locations_from locations_to
                  dl offset c) as Hc.
    destruct (decide (c = (fs, fc, ts, tc, index))) as [->|Hne].
    + rewrite annotate_change_unfold, annotate_walk_short; [reflexivity|].
      replace (length dl - (index + offset + 1))%nat with (n - S index)%nat
        by lia.
      lia.
    + destruct (annotate_change locations_from locations_to (dl, offset) c)
        as [[dl1 offset1]|e]; [|now subst e].
      rewrite result_bind_ok. destruct Hc as [_ Hlen1].
      apply IH; [|lia].
      apply elem_of_cons in Hin as [Heq|Hin]; [congruence | exact Hin].
Qed.

(** X9.  What the annotation raises.  When a hunk header of the diff has
    a number with more digits than [int()] reads, the annotation raises
    [ValueError], whatever else the diff holds.  On every other diff it
    raises nothing but [IndexError]: the hunk headers are all read, and
    the walk fails only by running off the diff or off a coordinate
    list. *)
Theorem annotate_diff_raises
    (locations_from locations_to diff_list : list string) :
  (existsb header_too_long diff_list = true ->
   annotate_diff locations_from locations_to diff_list = Raise ValueError)
  /\ (existsb header_too_long diff_list = false ->
      forall e,
        annotate_diff locations_from locations_to diff_list = Raise e ->
        e = IndexError).
Proof.
  pose proof (line_changes_from_spec diff_list 0%nat []) as Hspec.
  unfold annotate_diff.
  change (line_changes diff_list) with (line_changes_from 0 [] diff_list).
  split; intros Hlong; rewrite Hlong in Hspec.
  - now rewrite Hspec.
  - intros e Hres. destruct Hspec as (changes & Hchanges & _).
    rewrite Hchanges, result_bind_ok in Hres. cbn [app] in Hres.
    pose proof (annotate_changes_insert locations_from locations_to changes
                  diff_list 0%nat) as H.
    destruct (foldM (annotate_change locations_from locations_to)
                (diff_list, 0%nat) changes) as [[dl' offset']|e'].
    + discriminate Hres.
    + injection Hres as <-. exact H.
Qed.

Lemma annotate_diff_raises_witness :
  annotate_diff ["A1"] ["A1"]
    ["--- a"; "+++ b"; header_with_long_number; "-x"; "+y"]
  = Raise ValueError
  /\ forall e,
       annotate_diff ["A1"] [] ["--- a"; "+++ b"; "@@ -1 +0,0 @@"] = Raise e ->
       e = IndexError.
Proof.
  split.
  - apply (annotate_diff_raises ["A1"] ["A1"]
             ["--- a"; "+++ b"; header_with_long_number; "-x"; "+y"]).
    vm_compute. reflexivity.
  - apply (annotate_diff_raises ["A1"] []
             ["--- a"; "+++ b"; "@@ -1 +0,0 @@"]).
    vm_compute. reflexivity.
Defined.

(** X10.  A diff that stops short does not get its annotation: when a
    hunk header is followed by fewer lines than the larger of its two
    counts, the annotation raises, wherever the header stands and whatever
    the other hunks are — [IndexError], unless a hunk header of the diff
    has a number too long for [int()], which raises [ValueError] before
    the walk begins. *)
Theorem annotate_diff_truncated_hunk
    (locations_from locations_to diff_list : list string)
    (k : nat) (line : string) (from_start from_count to_start to_count : Z)
    (Hline : diff_list !! k = Some line)
    (Hheader : hunk_header line
               = Ok (Some (from_start, from_count, to_start, to_count)))
    (Hshort : Z.of_nat (length diff_list - S k) < Z.max from_count to_count) :
  annotate_diff locations_from locations_to diff_list
  = Raise (if existsb header_too_long diff_list
           then ValueError else IndexError).
Proof.
  unfold annotate_diff.
  pose proof (line_changes_from_spec diff_list 0%nat []) as Hspec.
  change (line_changes diff_list) with (line_changes_from 0 [] diff_list).
  destruct (existsb header_too_long diff_list); [now rewrite Hspec|].
  destruct Hspec as (changes & Hchanges & Hall).
  rewrite Hchanges, result_bind_ok. cbn [app].
  specialize (Hall k line _ _ _ _ Hline Hheader). cbn [Nat.add] in Hall.
  now rewrite (annotate_changes_short _ _ (length diff_list)
                 _ _ _ _ _ _ Hall Hshort diff_list 0%nat)
    by lia.
Qed.

Lemma annotate_diff_truncated_hunk_witness :
  annotate_diff (coords_A 3) (coords_A 3)
    ["--- a"; "+++ b"; "@@ -1,3 +1,3 @@"; " x"; "-y"]
  = Raise IndexError
  /\ annotate_diff (coords_A 3) (coords_A 3)
       ["--- a"; "+++ b"; header_with_long_number; "-z";
        "@@ -1,3 +1,3 @@"; " x"; "-y"]
     = Raise ValueError.
Proof.
  split.
  - apply (annotate_diff_truncated_hunk (coords_A 3) (coords_A 3)
             ["--- a"; "+++ b"; "@@ -1,3 +1,3 @@"; " x"; "-y"]
             2 "@@ -1,3 +1,3 @@" 1 3 1 3).
    + reflexivity.
    + reflexivity.
    + cbn. lia.
  - refine (eq_trans
              (annotate_diff_truncated_hunk (coords_A 3) (coords_A 3)
                 ["--- a"; "+++ b"; header_with_long_number; "-z";
                  "@@ -1,3 +1,3 @@"; " x"; "-y"]
                 4 "@@ -1,3 +1,3 @@" 1 3 1 3 _ _ _) _).
    + reflexivity.
    + reflexivity.
    + cbn. lia.
    + vm_compute. reflexivity.
Defined.

(** ** [diff_files] when the engine succeeds *)

Section EngineSuccess.

Variable git_diff : gmap string string -> string -> string -> CompletedProcess.

Lemma diff_files_success_unfold lines_from lines_to file_from_name
    file_to_name w :
  let result := git_diff (files_written lines_from lines_to w)
                         (tmp_name (created w)) (tmp_name (S (created w))) in
  returncode result = 0 \/ returncode result = 1 ->
  diff_files git_diff lines_from lines_to file_from_name file_to_name w
  = (Ok (let diff_output := drop 2 (splitlines (stdout result)) in
         if (1 <? length diff_output)%nat
         then <[1%nat := "+++ " +:+ file_to_name +:+ LF]>
                (<[0%nat := "--- " +:+ file_from_name +:+ LF]> diff_output)
         else diff_output),
     World (delete (tmp_name (S (created w)))
              (delete (tmp_name (created w))
                 (files_written lines_from lines_to w)))
           (S (S (created w))) (printed w)).
Proof.
  intros result Hrc.
  unfold diff_files, mbind, M_bind, NamedTemporaryFile, os_remove, mret, M_ret.
  cbn [tempfiles created printed].
  fold (files_written lines_from lines_to w). fold result.
  assert (E : negb ((returncode result =? 0) || (returncode result =? 1))
              = false).
  { destruct Hrc as [-> | ->]; reflexivity. }
  now rewrite E.
Qed.

(** X11.  When the engine exits with status 0 or 1 and the two fresh
    names are not in use, [diff_files] leaves the disk as it found it —
    both temporary files are gone, no other file is touched — and prints
    nothing. *)
Theorem diff_files_success_restores_disk
    (lines_from lines_to : list string) (file_from_name file_to_name : string)
    (w : world)
    (Hrc : returncode (git_diff (files_written lines_from lines_to w)
                         (tmp_name (created w)) (tmp_name (S (created w))))
           = 0
           \/ returncode (git_diff (files_written lines_from lines_to w)
                            (tmp_name (created w))
                            (tmp_name (S (created w))))
              = 1)
    (Hfresh1 : tempfiles w !! tmp_name (created w) = None)
    (Hfresh2 : tempfiles w !! tmp_name (S (created w)) = None) :
  tempfiles (snd (diff_files git_diff lines_from lines_to
                    file_from_name file_to_name w))
  = tempfiles w
  /\ printed (snd (diff_files git_diff lines_from lines_to
                     file_from_name file_to_name w))
     = printed w
  /\ is_ok (fst (diff_files git_diff lines_from lines_to
                   file_from_name file_to_name w)) = true.
Proof.
  rewrite (diff_files_success_unfold _ _ _ _ _ Hrc). cbn [snd fst tempfiles printed is_ok].
  split; [|split; reflexivity].
  unfold files_written. apply map_eq. intros name.
  destruct (decide (name = tmp_name (S (created w)))) as [->|H2].
  - now rewrite lookup_delete_eq, Hfresh2.
  - rewrite lookup_delete_ne by congruence.
    destruct (decide (name = tmp_name (created w))) as [->|H1].
    + now rewrite lookup_delete_eq, Hfresh1.
    + rewrite lookup_delete_ne by congruence.
      now rewrite !lookup_insert_ne by congruence.
Qed.

(** X12.  When the engine exits with status 0 or 1: if its output has at
    least four lines, [diff_files] returns the two label lines
    [--- file_from_name] and [+++ file_to_name] followed by the output
    from its fifth line on; if it has fewer than four lines, the lines
    after the second are returned as they are — the empty list for an
    empty output. *)
Theorem diff_files_success_labels
    (lines_from lines_to : list string) (file_from_name file_to_name : string)
    (w : world)
    (Hrc : returncode (git_diff (files_written lines_from lines_to w)
                         (tmp_name (created w)) (tmp_name (S (created w))))
           = 0
           \/ returncode (git_diff (files_written lines_from lines_to w)
                            (tmp_name (created w))
                            (tmp_name (S (created w))))
              = 1) :
  let output := splitlines
                  (stdout (git_diff (files_written lines_from lines_to w)
                             (tmp_name (created w))
                             (tmp_name (S (created w))))) in
  ((4 <= length output)%nat ->
   fst (diff_files git_diff lines_from lines_to file_from_name file_to_name w)
   = Ok (("--- " +:+ file_from_name +:+ LF)
           :: ("+++ " +:+ file_to_name +:+ LF) :: drop 4 output))
  /\ ((length output < 4)%nat ->
      fst (diff_files git_diff lines_from lines_to
             file_from_name file_to_name w)
      = Ok (drop 2 output)).
Proof.
  intros output. rewrite (diff_files_success_unfold _ _ _ _ _ Hrc).
  cbn [fst]. fold output.
  assert (Hlen : length (drop 2 output) = (length output - 2)%nat)
    by apply length_drop.
  split; intros Hn.
  - assert (E : (1 <? length (drop 2 output))%nat = true)
      by (apply Nat.ltb_lt; lia).
    rewrite E.
    replace (drop 4 output) with (drop 2 (drop 2 output))
      by (now rewrite drop_drop).
    destruct (drop 2 output) as [|a [|b rest]]; cbn [length] in Hlen;
      [lia | lia | reflexivity].
  - assert (E : (1 <? length (drop 2 output))%nat = false)
      by (apply Nat.ltb_ge; lia).
    now rewrite E.
Qed.

End EngineSuccess.

Lemma diff_files_success_restores_disk_witness :
  tempfiles (snd (diff_files engine_y_to_z ["y" +:+ LF] ["z" +:+ LF]
                    "a.xlsx Sales" "b.xlsx Sales" initial_world))
  = tempfiles initial_world
  /\ printed (snd (diff_files engine_y_to_z ["y" +:+ LF] ["z" +:+ LF]
                     "a.xlsx Sales" "b.xlsx Sales" initial_world))
     = printed initial_world
  /\ is_ok (fst (diff_files engine_y_to_z ["y" +:+ LF] ["z" +:+ LF]
                   "a.xlsx Sales" "b.xlsx Sales" initial_world)) = true.
Proof.
  apply (diff_files_success_restores_disk engine_y_to_z).
  - right. reflexivity.
  - reflexivity.
  - reflexivity.
Defined.

Lemma diff_files_success_labels_witness :
  fst (diff_files engine_y_to_z ["y" +:+ LF] ["z" +:+ LF]
         "a.xlsx Sales" "b.xlsx Sales" initial_world)
  = Ok ["--- a.xlsx Sales" +:+ LF; "+++ b.xlsx Sales" +:+ LF;
        "@@ -1 +1 @@" +:+ LF; "-y" +:+ LF; "+z" +:+ LF].
Proof.
  destruct (diff_files_success_labels engine_y_to_z
              ["y" +:+ LF] ["z" +:+ LF] "a.xlsx Sales" "b.xlsx Sales"
              initial_world) as [Hlong _].
  - right. reflexivity.
  - rewrite Hlong; [vm_compute; reflexivity | vm_compute; lia].
Defined.

(** ** The classification of the sheets *)

Lemma find_rename_Some_in summaries_to name_from content names t :
  find_rename summaries_to name_from content names = Ok (Some t) ->
  t ∈ names.
Proof.
  induction names as [|x l IH]; [discriminate|].
  cbn [find_rename]. destruct (negb (String.eqb x name_from)).
  - destruct (get_lines summaries_to x) as [cto|e]; [|discriminate].
    rewrite result_bind_ok. destruct (similar content cto).
    + intros H. injection H as <-. left.
    + intros H. right. now apply IH.
  - intros H. right. now apply IH.
Qed.

Lemma find_rename_raises summaries_to name_from content names e :
  find_rename summaries_to name_from content names = Raise e ->
  e = IndexError.
Proof.
  induction names as [|x l IH]; [discriminate|].
  cbn [find_rename]. destruct (negb (String.eqb x name_from)); [|exact IH].
  unfold get_lines. destruct (Dict.get summaries_to x) as [s|].
  - rewrite result_bind_ok. destruct (similar content s.1);
      [discriminate | exact IH].
  - intros H. now injection H as <-.
Qed.

(** What the loop over the old names adds to the two lists. *)
Lemma classify_loop_partition sheet_names_to summaries_from summaries_to
    names :
  forall removed0 renamed0 removed renamed,
  foldM (classify_old_sheet sheet_names_to summaries_from summaries_to)
        (removed0, renamed0) names = Ok (removed, renamed) ->
  exists removed1 renamed1,
    removed = removed0 ++ removed1 /\ renamed = renamed0 ++ renamed1
    /\ (length removed1 + length renamed1
        = length (List.filter
                    (fun n => negb (contains n sheet_names_to)) names))%nat
    /\ removed1 `sublist_of` names
    /\ map fst renamed1 `sublist_of` names
    /\ (forall n, n ∈ removed1 ->
          (n ∉ sheet_names_to)
          /\ exists content,
               get_lines summaries_from n = Ok content
               /\ find_rename summaries_to n content sheet_names_to
                  = Ok None)
    /\ (forall n t, (n, t) ∈ renamed1 ->
          (n ∉ sheet_names_to) /\ t ∈ sheet_names_to
          /\ exists content,
               get_lines summaries_from n = Ok content
               /\ find_rename summaries_to n content sheet_names_to
                  = Ok (Some t))
    /\ (forall n, n ∈ names -> (n ∉ sheet_names_to) ->
          n ∈ removed1 \/ n ∈ map fst renamed1).
Proof.
  induction names as [|name_from names IH];
    intros removed0 renamed0 removed renamed H.
  - injection H as <- <-. exists [], []. rewrite !app_nil_r.
    repeat split; try constructor;
      try (intros; match goal with
                   | Hin : _ ∈ [] |- _ => apply elem_of_nil in Hin as []
                   end).
  - rewrite foldM_cons, classify_old_sheet_unfold in H.
    destruct (get_lines summaries_from name_from) as [content|e] eqn:Hc;
      [|discriminate H].
    rewrite result_bind_ok in H. cbn [List.filter].
    destruct (contains name_from sheet_names_to) eqn:Hin; cbn [negb] in H |- *.
    + rewrite result_bind_ok in H. apply contains_true in Hin.
      destruct (IH _ _ _ _ H)
        as (rm & rn & -> & -> & Hlen & Hs1 & Hs2 & Hrm & Hrn & Hcov).
      exists rm, rn. split; [reflexivity|]. split; [reflexivity|].
      split; [exact Hlen|]. split; [now constructor|].
      split; [now constructor|]. split; [exact Hrm|]. split; [exact Hrn|].
      intros n Hn Hnot. apply elem_of_cons in Hn as [->|Hn];
        [contradiction | now apply Hcov].
    + apply contains_false in Hin.
      destruct (find_rename summaries_to name_from content sheet_names_to)
        as [[name_to|]|e] eqn:Hf; [| |discriminate H];
        rewrite !result_bind_ok in H;
        destruct (IH _ _ _ _ H)
          as (rm & rn & -> & -> & Hlen & Hs1 & Hs2 & Hrm & Hrn & Hcov).
      * exists rm, ((name_from, name_to) :: rn).
        split; [reflexivity|]. split; [now rewrite <- app_assoc|].
        split; [cbn [length]; lia|]. split; [now constructor|].
        split; [cbn; now constructor|]. split; [exact Hrm|]. split.
        -- intros n t Hnt. apply elem_of_cons in Hnt as [Heq|Hnt];
             [|now apply Hrn].
           injection Heq as -> ->. split; [exact Hin|].
           split; [eapply find_rename_Some_in; exact Hf | eauto].
        -- intros n Hn Hnot. apply elem_of_cons in Hn as [->|Hn].
           ++ right. left.
           ++ destruct (Hcov n Hn Hnot) as [?|?]; [now left|].
              right. now right.
      * exists (name_from :: rm), rn.
        split; [now rewrite <- app_assoc|]. split; [reflexivity|].
        split; [cbn [length]; lia|]. split; [now constructor|].
        split; [now constructor|]. split.
        -- intros n Hn. apply elem_of_cons in Hn as [->|Hn];
             [|now apply Hrm].
           split; [exact Hin | eauto].
        -- split; [exact Hrn|].
           intros n Hn Hnot. apply elem_of_cons in Hn as [->|Hn].
           ++ left. left.
           ++ destruct (Hcov n Hn Hnot) as [?|?]; [|now right].
              left. now right.
Qed.

Lemma compare_sheet_names_loop sheet_names_from sheet_names_to
    summaries_from summaries_to added removed renamed :
  compare_sheet_names sheet_names_from sheet_names_to
    summaries_from summaries_to = Ok (added, removed, renamed) ->
  foldM (classify_old_sheet sheet_names_to summaries_from summaries_to)
        ([], []) sheet_names_from = Ok (removed, renamed)
  /\ added
     = List.filter
         (fun name_to =>
            negb (contains name_to sheet_names_from)
            && negb (contains name_to (map snd renamed)))
         sheet_names_to.
Proof.
  unfold compare_sheet_names.
  destruct (foldM _ ([], []) sheet_names_from) as [[rm rn]|e];
    [|discriminate].
  rewrite result_bind_ok. intros H. now injection H as <- <- <-.
Qed.

Lemma sublist_List_filter {A} (f : A -> bool) l : List.filter f l `sublist_of` l.
Proof.
  induction l as [|x l IH]; [constructor|]. cbn [List.filter].
  destruct (f x); now constructor.
Qed.

(** X13.  In every classification the program returns, each old sheet
    that is absent from the new names is classified exactly once: the
    removed sheets and the renamed pairs together are as many as these
    old sheets, and no sheet is both removed and the source of a rename.
    Only such sheets are removed or renamed, and an added sheet is a new
    name that is neither an old name nor a rename target. *)
Theorem compare_sheet_names_classifies_once
    (sheet_names_from sheet_names_to : list string)
    (summaries_from summaries_to : Dict.dict summary)
    (added removed : list string) (renamed : list (string * string))
    (Hres : compare_sheet_names sheet_names_from sheet_names_to
              summaries_from summaries_to = Ok (added, removed, renamed)) :
  (length removed + length renamed
   = length (List.filter (fun n => negb (contains n sheet_names_to))
                         sheet_names_from))%nat
  /\ (forall n, n ∈ removed -> (n ∉ map fst renamed))
  /\ (forall n, n ∈ removed \/ n ∈ map fst renamed ->
        n ∈ sheet_names_from /\ (n ∉ sheet_names_to))
  /\ (forall n, n ∈ sheet_names_from -> (n ∉ sheet_names_to) ->
        n ∈ removed \/ n ∈ map fst renamed)
  /\ (forall t, t ∈ added ->
        t ∈ sheet_names_to /\ (t ∉ sheet_names_from)
        /\ (t ∉ map snd renamed)).
Proof.
  apply compare_sheet_names_loop in Hres as [Hloop ->].
  destruct (classify_loop_partition _ _ _ _ _ _ _ _ Hloop)
    as (rm & rn & -> & -> & Hlen & Hs1 & Hs2 & Hrm & Hrn & Hcov).
  cbn [app]. split; [exact Hlen|]. split; [|split; [|split]].
  - intros n Hr Hs. apply list_elem_of_fmap in Hs as ([n' t] & -> & Hnt).
    cbn [fst] in Hr.
    destruct (Hrm _ Hr) as (_ & c1 & Hc1 & Hf1).
    destruct (Hrn _ _ Hnt) as (_ & _ & c2 & Hc2 & Hf2).
    congruence.
  - intros n [Hr|Hs].
    + split; [exact (sublist_subseteq _ _ Hs1 n Hr) | now apply Hrm].
    + split; [exact (sublist_subseteq _ _ Hs2 n Hs)|].
      apply list_elem_of_fmap in Hs as ([n' t] & -> & Hnt).
      now apply (Hrn _ _ Hnt).
  - exact Hcov.
  - intros t Ht. apply elem_of_List_filter in Ht as [Ht Hf].
    apply andb_true_iff in Hf as [H1 H2].
    apply negb_true_iff, contains_false in H1, H2. auto.
Qed.

Lemma compare_sheet_names_classifies_once_witness :
  (length (@nil string) + length [("A", "C"); ("B", "C")]
   = length (List.filter (fun n => negb (contains n ["C"])) ["A"; "B"]))%nat
  /\ (forall n, n ∈ @nil string ->
        (n ∉ map fst [("A", "C"); ("B", "C")]))
  /\ (forall n, n ∈ @nil string \/ n ∈ map fst [("A", "C"); ("B", "C")] ->
        n ∈ ["A"; "B"] /\ (n ∉ ["C"]))
  /\ (forall n, n ∈ ["A"; "B"] -> (n ∉ ["C"]) ->
        n ∈ @nil string \/ n ∈ map fst [("A", "C"); ("B", "C")])
  /\ (forall t, t ∈ @nil string ->
        t ∈ ["C"] /\ (t ∉ ["A"; "B"])
        /\ (t ∉ map snd [("A", "C"); ("B", "C")])).
Proof.
  apply (compare_sheet_names_classifies_once
           ["A"; "B"] ["C"] summaries_A_B summaries_C).
  vm_compute. reflexivity.
Defined.

(** X14.  [compare_sheet_names] raises nothing but [IndexError], and it
    raises it whenever an old sheet name has no summary — also for an old
    sheet that is still among the new names, since the lines of every old
    sheet are looked up before anything else. *)
Theorem compare_sheet_names_missing_summary
    (sheet_names_from sheet_names_to : list string)
    (summaries_from summaries_to : Dict.dict summary)
    (name : string)
    (Hname : name ∈ sheet_names_from)
    (Hmissing : Dict.get summaries_from name = None) :
  compare_sheet_names sheet_names_from sheet_names_to
    summaries_from summaries_to = Raise IndexError
  /\ forall names_from names_to sf st e,
       compare_sheet_names names_from names_to sf st = Raise e ->
       e = IndexError.
Proof.
  assert (Hstep : forall names_to sf st rm rn n e,
            classify_old_sheet names_to sf st (rm, rn) n = Raise e ->
            e = IndexError).
  { intros names_to sf st rm rn n e. rewrite classify_old_sheet_unfold.
    unfold get_lines at 1. destruct (Dict.get sf n) as [s|];
      [|intros H; now injection H as <-].
    rewrite result_bind_ok.
    destruct (negb (contains n names_to)); [|discriminate].
    destruct (find_rename st n s.1 names_to) as [[t|]|e'] eqn:Hf;
      [discriminate | discriminate |].
    intros H. injection H as <-. eapply find_rename_raises. exact Hf. }
  assert (Hloop : forall names_to sf st names rm rn e,
            foldM (classify_old_sheet names_to sf st) (rm, rn) names
            = Raise e -> e = IndexError).
  { intros names_to sf st names.
    induction names as [|n names IH]; intros rm rn e; [discriminate|].
    rewrite foldM_cons.
    destruct (classify_old_sheet names_to sf st (rm, rn) n)
      as [[rm1 rn1]|e1] eqn:Hs.
    - rewrite result_bind_ok. apply IH.
    - intros H. injection H as <-. eapply Hstep. exact Hs. }
  split.
  - unfold compare_sheet_names.
    assert (Hraise : forall rm rn,
              foldM (classify_old_sheet sheet_names_to summaries_from
                       summaries_to) (rm, rn) sheet_names_from
              = Raise IndexError).
    { induction sheet_names_from as [|n names IH]; intros rm rn.
      - apply elem_of_nil in Hname as [].
      - rewrite foldM_cons.
        destruct (decide (n = name)) as [->|Hne].
        + rewrite classify_old_sheet_unfold. unfold get_lines at 1.
          now rewrite Hmissing.
        + destruct (classify_old_sheet sheet_names_to summaries_from
                      summaries_to (rm, rn) n) as [[rm1 rn1]|e1] eqn:Hs.
          * rewrite result_bind_ok. apply IH.
            apply elem_of_cons in Hname as [Heq|Hin];
              [congruence | exact Hin].
          * apply Hstep in Hs. now subst e1. }
    now rewrite Hraise.
  - intros names_from names_to sf st e. unfold compare_sheet_names.
    destruct (foldM (classify_old_sheet names_to sf st) ([], []) names_from)
      as [[rm rn]|e1] eqn:Hl; [discriminate|].
    intros H. injection H as <-. eapply Hloop. exact Hl.
Qed.

Lemma compare_sheet_names_missing_summary_witness :
  compare_sheet_names ["A"; "B"] ["A"; "B"] summaries_B summaries_A_B
  = Raise IndexError
  /\ forall names_from names_to sf st e,
       compare_sheet_names names_from names_to sf st = Raise e ->
       e = IndexError.
Proof.
  apply (compare_sheet_names_missing_summary
           ["A"; "B"] ["A"; "B"] summaries_B summaries_A_B "A").
  - left.
  - reflexivity.
Defined.

(** X15.  The classification keeps the order of the sheets: the removed
    sheets and the sources of the renamed pairs come in the order of the
    old names, the added sheets in the order of the new names. *)
Theorem compare_sheet_names_keeps_order
    (sheet_names_from sheet_names_to : list string)
    (summaries_from summaries_to : Dict.dict summary)
    (added removed : list string) (renamed : list (string * string))
    (Hres : compare_sheet_names sheet_names_from sheet_names_to
              summaries_from summaries_to = Ok (added, removed, renamed)) :
  removed `sublist_of` sheet_names_from
  /\ map fst renamed `sublist_of` sheet_names_from
  /\ added `sublist_of` sheet_names_to.
Proof.
  apply compare_sheet_names_loop in Hres as [Hloop ->].
  destruct (classify_loop_partition _ _ _ _ _ _ _ _ Hloop)
    as (rm & rn & -> & -> & _ & Hs1 & Hs2 & _).
  cbn [app]. split; [exact Hs1|]. split; [exact Hs2|].
  apply sublist_List_filter.
Qed.

Lemma compare_sheet_names_keeps_order_witness :
  @nil string `sublist_of` ["A"; "B"]
  /\ map fst [("A", "C"); ("B", "C")] `sublist_of` ["A"; "B"]
  /\ @nil string `sublist_of` ["C"].
Proof.
  apply (compare_sheet_names_keeps_order
           ["A"; "B"] ["C"] summaries_A_B summaries_C).
  vm_compute. reflexivity.
Defined.

(** ** From the classification to the comparison *)

Lemma all_summarized_keys (summaries : Dict.dict summary) :
  all_summarized summaries (Dict.keys summaries).
Proof.
  unfold all_summarized. apply Forall_forall. intros name Hname.
  now apply dict_get_is_Some.
Qed.

(** A sheet that is kept has a summary under the name it is compared
    with, given what the loop over the old names guarantees. *)
Lemma kept_sheet_has_counterpart (summaries_from summaries_to : Dict.dict summary)
    (removed : list string) (renamed : list (string * string)) file_name :
  (forall n t, (n, t) ∈ renamed ->
     (n ∉ Dict.keys summaries_to) /\ t ∈ Dict.keys summaries_to
     /\ exists content,
          get_lines summaries_from n = Ok content
          /\ find_rename summaries_to n content (Dict.keys summaries_to)
             = Ok (Some t)) ->
  (forall n, n ∈ Dict.keys summaries_from ->
     (n ∉ Dict.keys summaries_to) ->
     n ∈ removed \/ n ∈ map fst renamed) ->
  file_name ∈ Dict.keys summaries_from ->
  contains file_name removed = false ->
  is_Some (Dict.get summaries_to (counterpart renamed file_name)).
Proof.
  intros Hrn Hcov Hkey Hkept.
  apply contains_false in Hkept. unfold counterpart.
  destruct (List.find (fun item => String.eqb (fst item) file_name) renamed)
    as [[n t]|] eqn:Hfind.
  - apply List.find_some in Hfind as [Hin Heq]. cbn [fst snd] in *.
    apply list_elem_of_In in Hin.
    destruct (Hrn _ _ Hin) as (_ & Ht & _). now apply dict_get_is_Some.
  - destruct (decide (file_name ∈ Dict.keys summaries_to)) as [Hto|Hnot].
    + now apply dict_get_is_Some.
    + destruct (Hcov file_name Hkey Hnot) as [Hr|Hs]; [contradiction|].
      apply list_elem_of_fmap in Hs as ([n t] & Hn & Hnt). cbn [fst] in Hn.
      subst n. apply list_elem_of_In in Hnt.
      pose proof (List.find_none _ _ Hfind _ Hnt) as Hcontra.
      cbn [fst] in Hcontra. now rewrite String.eqb_refl in Hcontra.
Qed.

(** X16.  In [custom_diff] no lookup of a summary fails.  For the names of
    the two summaries the classification is always returned, and every old
    sheet that [compare_dirs] does not skip as removed has a summary on
    both sides: under its own name on the old side, and on the new side
    under the name it was renamed to, or under its own name when it was
    not renamed. *)
Theorem custom_diff_lookups_succeed
    (summaries_from summaries_to : Dict.dict summary) :
  exists added removed renamed,
    compare_sheet_names (Dict.keys summaries_from) (Dict.keys summaries_to)
      summaries_from summaries_to = Ok (added, removed, renamed)
    /\ forall file_name,
         file_name ∈ Dict.keys summaries_from ->
         contains file_name removed = false ->
         is_Some (Dict.get summaries_from file_name)
         /\ is_Some (Dict.get summaries_to (counterpart renamed file_name)).
Proof.
  pose proof (compare_sheet_names_closed_form
                (Dict.keys summaries_from) (Dict.keys summaries_to)
                summaries_from summaries_to
                (all_summarized_keys summaries_from)
                (all_summarized_keys summaries_to)) as Hclosed.
  cbv zeta in Hclosed.
  eexists _, _, _. split; [exact Hclosed|].
  apply compare_sheet_names_loop in Hclosed as [Hloop _].
  destruct (classify_loop_partition _ _ _ _ _ _ _ _ Hloop)
    as (rm & rn & Erm & Ern & _ & _ & _ & _ & Hrn & Hcov).
  cbn [app] in Erm, Ern. rewrite Erm, Ern. clear Erm Ern Hloop.
  intros file_name Hkey Hkept.
  split; [now apply dict_get_is_Some|].
  now apply (kept_sheet_has_counterpart summaries_from summaries_to rm rn).
Qed.

(** ** A run of [custom_diff] on an engine that reports no hunk *)

Lemma line_changes_no_header diff_list :
  Forall (fun line => startswith "@" line = false) diff_list ->
  line_changes diff_list = Ok [].
Proof.
  intros H. change (line_changes diff_list)
    with (line_changes_from 0 [] diff_list).
  rewrite <- (app_nil_r diff_list), line_changes_from_skip; [reflexivity|].
  eapply Forall_impl; [exact H|]. intros line. apply hunk_header_body_line.
Qed.

Lemma annotate_diff_no_header locations_from locations_to diff_list :
  Forall (fun line => startswith "@" line = false) diff_list ->
  annotate_diff locations_from locations_to diff_list = Ok diff_list.
Proof.
  intros H. unfold annotate_diff. now rewrite (line_changes_no_header _ H).
Qed.

Lemma M_bind_ok {A B} (m : M A) (f : A -> M B) w a w' :
  m w = (Ok a, w') -> (m ≫= f) w = f a w'.
Proof. intros H. unfold mbind, M_bind. now rewrite H. Qed.

Lemma foldW_print_ok {A} (msg : A -> string) (e : string) l : forall w,
  exists w', foldW (fun _ x => print (msg x) e) tt l w = (Ok tt, w').
Proof.
  induction l as [|x l IH]; intros w; [now exists w|].
  rewrite foldW_cons. unfold print at 1. apply IH.
Qed.

Section QuietEngine.

Variable git_diff : gmap string string -> string -> string -> CompletedProcess.

Hypothesis Hquiet : forall files file_from file_to,
  Forall (fun line => startswith "@" line = false)
         (splitlines (stdout (git_diff files file_from file_to))).

Lemma diff_files_quiet lines_from lines_to file_from_name file_to_name w :
  exists diff_list w',
    diff_files git_diff lines_from lines_to file_from_name file_to_name w
    = (Ok diff_list, w')
    /\ Forall (fun line => startswith "@" line = false) diff_list.
Proof.
  set (result := git_diff (files_written lines_from lines_to w)
                   (tmp_name (created w)) (tmp_name (S (created w)))).
  destruct (decide (returncode result = 0 \/ returncode result = 1))
    as [Hrc|Hrc].
  - rewrite (diff_files_success_unfold git_diff _ _ _ _ _ Hrc).
    eexists _, _. split; [reflexivity|]. fold result. cbv zeta.
    assert (Hdrop : Forall (fun line => startswith "@" line = false)
                      (drop 2 (splitlines (stdout result))))
      by (apply Forall_drop, Hquiet).
    destruct (1 <? length (drop 2 (splitlines (stdout result))))%nat;
      [|exact Hdrop].
    apply Forall_insert; [apply Forall_insert; [exact Hdrop|] |]; reflexivity.
  - rewrite (diff_files_failure git_diff lines_from lines_to
               file_from_name file_to_name w) by (fold result; lia).
    eexists _, _. split; [reflexivity | constructor].
Qed.

Lemma compare_sheet_quiet summaries_from summaries_to file_from file_to
    removed_sheets renamed_sheets differences file_name w :
  (contains file_name removed_sheets = false ->
   is_Some (Dict.get summaries_from file_name)
   /\ is_Some (Dict.get summaries_to (counterpart renamed_sheets file_name))) ->
  exists differences' w',
    compare_sheet git_diff summaries_from summaries_to file_from file_to
      removed_sheets renamed_sheets differences file_name w
    = (Ok differences', w').
Proof.
  intros Hlook. unfold compare_sheet.
  destruct (contains file_name removed_sheets); [now eexists _, _|].
  destruct (Hlook eq_refl) as [[s_from Hfrom] [s_to Hto]].
  fold (counterpart renamed_sheets file_name).
  unfold get_lines, get_locations. rewrite Hfrom, Hto.
  destruct (diff_files_quiet s_from.1 s_to.1
              (file_from +:+ " " +:+ file_name)
              (file_to +:+ " " +:+ counterpart renamed_sheets file_name) w)
    as (diff_list & w' & Hdiff & Hq).
  unfold mbind, M_bind, lift. rewrite Hdiff.
  rewrite (annotate_diff_no_header _ _ _ Hq). now eexists _, _.
Qed.

Lemma compare_loop_quiet summaries_from summaries_to file_from file_to
    removed_sheets renamed_sheets names :
  (forall file_name, file_name ∈ names ->
     contains file_name removed_sheets = false ->
     is_Some (Dict.get summaries_from file_name)
     /\ is_Some (Dict.get summaries_to
                   (counterpart renamed_sheets file_name))) ->
  forall differences w,
  exists differences' w',
    foldW (compare_sheet git_diff summaries_from summaries_to
             file_from file_to removed_sheets renamed_sheets)
          differences names w
    = (Ok differences', w').
Proof.
  induction names as [|file_name names IH]; intros Hlook differences w.
  - now eexists _, _.
  - rewrite foldW_cons.
    destruct (compare_sheet_quiet summaries_from summaries_to
                file_from file_to removed_sheets renamed_sheets
                differences file_name w) as (d1 & w1 & Hstep).
    { apply Hlook. left. }
    rewrite Hstep. apply IH. intros n Hn. apply Hlook. now right.
Qed.

(** X17.  With an engine whose output never holds a line that starts with
    [@] — it reports no hunk, be it that it finds no difference or that
    it fails — [custom_diff] returns for every pair of summaries: no
    lookup and no annotation raises. *)
Theorem custom_diff_returns_without_hunks
    (summaries_from summaries_to : Dict.dict summary)
    (file_from file_to : string) (w : world) :
  fst (custom_diff git_diff summaries_from summaries_to file_from file_to w)
  = Ok tt.
Proof.
  pose proof (compare_sheet_names_closed_form
                (Dict.keys summaries_from) (Dict.keys summaries_to)
                summaries_from summaries_to
                (all_summarized_keys summaries_from)
                (all_summarized_keys summaries_to)) as Hclosed.
  cbv zeta in Hclosed.
  set (removed := List.filter _ (Dict.keys summaries_from)) in Hclosed.
  set (renamed := omap _ (Dict.keys summaries_from)) in Hclosed.
  set (added := List.filter _ (Dict.keys summaries_to)) in Hclosed.
  assert (Hlook : forall file_name,
            file_name ∈ Dict.keys summaries_from ->
            contains file_name removed = false ->
            is_Some (Dict.get summaries_from file_name)
            /\ is_Some (Dict.get summaries_to
                          (counterpart renamed file_name))).
  { pose proof Hclosed as Hc.
    apply compare_sheet_names_loop in Hc as [Hloop _].
    destruct (classify_loop_partition _ _ _ _ _ _ _ _ Hloop)
      as (rm & rn & Erm & Ern & _ & _ & _ & _ & Hrn & Hcov).
    cbn [app] in Erm, Ern. rewrite Erm, Ern.
    intros file_name Hkey Hkept.
    split; [now apply dict_get_is_Some|].
    now apply (kept_sheet_has_counterpart summaries_from summaries_to rm rn). }
  unfold custom_diff.
  rewrite (M_bind_ok _ _ w (added, removed, renamed) w)
    by (unfold lift; now rewrite Hclosed).
  destruct (foldW_print_ok
              (fun sheet => green +:+ "Sheet " +:+ sheet
                            +:+ " has been added." +:+ LF)
              reset_format added w) as [w1 H1].
  rewrite (M_bind_ok _ _ w tt w1 H1).
  destruct (foldW_print_ok
              (fun sheet => red +:+ "Sheet " +:+ sheet
                            +:+ " has been removed." +:+ LF)
              reset_format removed w1) as [w2 H2].
  rewrite (M_bind_ok _ _ w1 tt w2 H2).
  assert (H3 : exists w3,
            foldW (fun (_ : ()) '(old_name, new_name) =>
                     print (blue +:+ "Sheet " +:+ old_name
                            +:+ " has been renamed to " +:+ new_name
                            +:+ "." +:+ LF) reset_format)
                  tt renamed w2 = (Ok tt, w3)).
  { clear. generalize w2. induction renamed as [|[o n] l IH]; intros w;
      [now exists w|].
    rewrite foldW_cons. unfold print at 1. apply IH. }
  destruct H3 as [w3 H3]. rewrite (M_bind_ok _ _ w2 tt w3 H3).
  destruct (compare_loop_quiet summaries_from summaries_to file_from file_to
              removed renamed (Dict.keys summaries_from) Hlook [] w3)
    as (differences & w4 & H4).
  unfold compare_dirs. rewrite (M_bind_ok _ _ w3 differences w4 H4).
  reflexivity.
Qed.

End QuietEngine.

Lemma custom_diff_returns_without_hunks_witness :
  fst (custom_diff failing_engine summaries_A_B summaries_C
         "a.xlsx" "b.xlsx" initial_world)
  = Ok tt.
Proof.
  apply (custom_diff_returns_without_hunks failing_engine).
  intros files file_from file_to. constructor.
Defined.

(** ** What the resolver leaves alone *)

Lemma resolve_first_v_miss shared cs :
  match List.find (has_tag (XMLNS +:+ "v")) cs with
  | Some v =>
      match text v with
      | Some v_text =>
          match int v_text with
          | Ok index => bool_decide (shared !! index = None)
          | Raise _ => false
          end
      | None => true
      end
  | None => true
  end = true ->
  resolve_first_v shared cs = Ok cs.
Proof.
  induction cs as [|x cs IH]; intros H; [reflexivity|].
  cbn [resolve_first_v List.find] in *.
  destruct (has_tag (XMLNS +:+ "v") x).
  - destruct (text x) as [raw|]; [|reflexivity].
    destruct (int raw) as [i|e]; [|discriminate H].
    rewrite result_bind_ok. apply bool_decide_eq_true in H. now rewrite H.
  - now rewrite (IH H).
Qed.

Lemma mapM_result_id {A} (f : A -> result A) l :
  Forall (fun x => f x = Ok x) l -> mapM f l = Ok l.
Proof.
  induction 1 as [|x l Hx _ IH]; [reflexivity|].
  cbn. rewrite Hx, result_bind_ok. cbn in IH. now rewrite IH.
Qed.

Lemma resolve_subtree_nothing shared e :
  forallb (nothing_to_resolve shared) (subtree e) = true ->
  resolve_subtree shared e = Ok e.
Proof.
  induction e as [t a x cs IH] using element_tree_ind. intros Hok.
  cbn [subtree forallb] in Hok. apply andb_true_iff in Hok as [Hhere Hbelow].
  apply forallb_flat_map_subtree in Hbelow.
  assert (Hmap : mapM (resolve_subtree shared) cs = Ok cs).
  { apply mapM_result_id. rewrite Forall_forall in *. intros c Hc.
    now apply IH, Hbelow. }
  cbn [resolve_subtree]. rewrite Hmap, result_bind_ok.
  unfold nothing_to_resolve in Hhere.
  destruct (is_shared_string_cell (Element t a x cs)); [|reflexivity].
  cbn [negb orb] in Hhere. unfold find in Hhere. cbn [children] in Hhere.
  now rewrite (resolve_first_v_miss shared cs Hhere).
Qed.

(** X18.  The resolver returns the sheet as it is when it has nothing to
    put in: when each shared-string cell below the root has an index the
    table has no entry for (or no index text at all).  So a sheet without
    shared-string cells comes back unchanged whatever the table holds, and
    with an empty table every sheet with readable indices does. *)
Theorem replace_shared_strings_in_sheet_unchanged (tree : element)
    (shared_strings : gmap Z (option string))
    (Hnothing : forallb (nothing_to_resolve shared_strings)
                        (flat_map subtree (children tree)) = true) :
  replace_shared_strings_in_sheet tree shared_strings = Ok tree.
Proof.
  destruct tree as [t a x cs]. cbn [children] in Hnothing.
  apply forallb_flat_map_subtree in Hnothing.
  cbn [replace_shared_strings_in_sheet].
  rewrite mapM_result_id; [reflexivity|].
  rewrite Forall_forall in *. intros c Hc.
  now apply resolve_subtree_nothing, Hnothing.
Qed.

Lemma replace_shared_strings_in_sheet_unchanged_witness :
  replace_shared_strings_in_sheet sheet_with_indices ∅
  = Ok sheet_with_indices.
Proof.
  apply (replace_shared_strings_in_sheet_unchanged sheet_with_indices ∅).
  vm_compute. reflexivity.
Defined.

(** ** What [custom_diff] prints *)

Lemma prefix_append p s : String.prefix p (p +:+ s) = true.
Proof.
  induction p as [|a p IH]; [apply prefix_nil|].
  now rewrite append_cons, prefix_cons, Ascii.eqb_refl.
Qed.

(** The messages and the lines the program prints are those of the
    report. *)
Lemma added_message_printed sheet :
  (green +:+ "Sheet " +:+ sheet +:+ " has been added." +:+ LF)
  +:+ reset_format
  = added_message sheet.
Proof.
  unfold added_message, green, reset_format, ESC, LF.
  repeat (rewrite append_cons || rewrite append_nil_l
          || rewrite append_assoc3).
  reflexivity.
Qed.

Lemma removed_message_printed sheet :
  (red +:+ "Sheet " +:+ sheet +:+ " has been removed." +:+ LF)
  +:+ reset_format
  = removed_message sheet.
Proof.
  unfold removed_message, red, reset_format, ESC, LF.
  repeat (rewrite append_cons || rewrite append_nil_l
          || rewrite append_assoc3).
  reflexivity.
Qed.

Lemma renamed_message_printed old_name new_name :
  (blue +:+ "Sheet " +:+ old_name +:+ " has been renamed to " +:+ new_name
   +:+ "." +:+ LF) +:+ reset_format
  = renamed_message (old_name, new_name).
Proof.
  unfold renamed_message, blue, reset_format, ESC, LF. cbn [fst snd].
  repeat (rewrite append_cons || rewrite append_nil_l
          || rewrite append_assoc3).
  reflexivity.
Qed.

Lemma color_line_report line : color_line line = report_line line.
Proof.
  unfold color_line, report_line, startswith, unescape_line. cbv zeta.
  destruct (String.prefix "+" line); [reflexivity|].
  destruct (String.prefix "-" line); [reflexivity|].
  destruct (String.prefix "@@" line); reflexivity.
Qed.

Lemma foldW_print_world {A} (msg : A -> string) (e : string) l : forall w,
  foldW (fun _ x => print (msg x) e) tt l w
  = (Ok tt, World (tempfiles w) (created w)
                  (printed w ++ map (fun x => msg x +:+ e) l)).
Proof.
  induction l as [|x l IH]; intros w.
  - cbn. rewrite app_nil_r. now destruct w.
  - rewrite foldW_cons. unfold print at 1. rewrite IH.
    cbn [tempfiles created printed map]. now rewrite <- app_assoc.
Qed.

Lemma foldW_print_renamed (renamed : list (string * string)) : forall w,
  foldW (fun (_ : ()) '(old_name, new_name) =>
           print (blue +:+ "Sheet " +:+ old_name
                  +:+ " has been renamed to " +:+ new_name +:+ "."
                  +:+ LF) reset_format)
        tt renamed w
  = (Ok tt, World (tempfiles w) (created w)
                  (printed w ++ map renamed_message renamed)).
Proof.
  induction renamed as [|[o n] l IH]; intros w.
  - cbn. rewrite app_nil_r. now destruct w.
  - rewrite foldW_cons. unfold print at 1. rewrite IH.
    cbn [tempfiles created printed map].
    now rewrite renamed_message_printed, <- app_assoc.
Qed.

Lemma fold_left_append_join (f : string -> string) l : forall acc,
  fold_left (fun acc line => acc +:+ f line) l acc = acc +:+ join (map f l).
Proof.
  induction l as [|x l IH]; intros acc.
  - cbn. now rewrite append_nil_r.
  - cbn [fold_left map]. rewrite IH. now rewrite append_assoc3.
Qed.

Section Printing.

Variable git_diff : gmap string string -> string -> string -> CompletedProcess.

Lemma diff_files_printed lines_from lines_to file_from_name file_to_name w :
  exists errors,
    printed (snd (diff_files git_diff lines_from lines_to
                    file_from_name file_to_name w))
    = printed w ++ errors
    /\ Forall is_engine_error errors.
Proof.
  set (result := git_diff (files_written lines_from lines_to w)
                   (tmp_name (created w)) (tmp_name (S (created w)))).
  destruct (decide (returncode result = 0 \/ returncode result = 1))
    as [Hrc|Hrc].
  - rewrite (diff_files_success_unfold git_diff _ _ _ _ _ Hrc).
    exists []. cbn [snd printed]. rewrite app_nil_r. split; constructor.
  - rewrite (diff_files_failure git_diff lines_from lines_to
               file_from_name file_to_name w) by (fold result; lia).
    eexists [_]. cbn [snd printed world_after_failure].
    split; [reflexivity|]. constructor; [|constructor].
    unfold is_engine_error. rewrite append_assoc3. apply prefix_append.
Qed.

Lemma compare_sheet_printed summaries_from summaries_to file_from file_to
    removed_sheets renamed_sheets differences file_name w :
  exists errors,
    printed (snd (compare_sheet git_diff summaries_from summaries_to
                    file_from file_to removed_sheets renamed_sheets
                    differences file_name w))
    = printed w ++ errors
    /\ Forall is_engine_error errors.
Proof.
  assert (Hnone : exists errors,
            printed w = printed w ++ errors /\ Forall is_engine_error errors)
    by (exists []; rewrite app_nil_r; split; constructor).
  unfold compare_sheet.
  destruct (contains file_name removed_sheets); [exact Hnone|].
  unfold mbind, M_bind, lift.
  destruct (get_lines summaries_from file_name); [|exact Hnone].
  destruct (get_lines summaries_to _); [|exact Hnone].
  destruct (get_locations summaries_from file_name); [|exact Hnone].
  destruct (get_locations summaries_to _); [|exact Hnone].
  match goal with
  | |- context [diff_files git_diff ?a ?b ?c ?d w] =>
      destruct (diff_files_printed a b c d w) as (errors & Hp & Herr);
      destruct (diff_files git_diff a b c d w) as [[diff_list|e] w1]
  end; cbn [snd] in Hp; [|now exists errors].
  destruct (annotate_diff _ _ diff_list); now exists errors.
Qed.

Lemma compare_loop_printed summaries_from summaries_to file_from file_to
    removed_sheets renamed_sheets names : forall differences w,
  exists errors,
    printed (snd (foldW (compare_sheet git_diff summaries_from summaries_to
                           file_from file_to removed_sheets renamed_sheets)
                        differences names w))
    = printed w ++ errors
    /\ Forall is_engine_error errors.
Proof.
  induction names as [|file_name names IH]; intros differences w.
  - exists []. cbn. rewrite app_nil_r. split; constructor.
  - rewrite foldW_cons.
    destruct (compare_sheet_printed summaries_from summaries_to
                file_from file_to removed_sheets renamed_sheets
                differences file_name w) as (errors1 & Hp1 & Herr1).
    destruct (compare_sheet git_diff summaries_from summaries_to file_from
                file_to removed_sheets renamed_sheets differences
                file_name w) as [[d1|e] w1]; cbn [snd] in Hp1.
    + destruct (IH d1 w1) as (errors2 & Hp2 & Herr2).
      exists (errors1 ++ errors2). rewrite Hp2, Hp1, <- app_assoc.
      split; [reflexivity | now apply Forall_app].
    + now exists errors1.
Qed.

(** X19.  When [custom_diff] returns, what it has printed is, in this
    order: one message for each added sheet, one for each removed sheet,
    one for each renamed pair — the three lists being those of the
    classification of the sheet names —; then, while [compare_dirs] runs
    on these lists, the error messages of the engine, if any; and last
    the report: the lines [compare_dirs] returned, each as the report
    shows it, one after the other.  Nothing else is printed. *)
Theorem custom_diff_prints
    (summaries_from summaries_to : Dict.dict summary)
    (file_from file_to : string) (w w' : world)
    (Hrun : custom_diff git_diff summaries_from summaries_to
              file_from file_to w = (Ok tt, w')) :
  exists added removed renamed differences errors w1,
    compare_sheet_names (Dict.keys summaries_from) (Dict.keys summaries_to)
      summaries_from summaries_to = Ok (added, removed, renamed)
    /\ compare_dirs git_diff summaries_from summaries_to file_from file_to
         removed renamed (world_after_messages added removed renamed w)
       = (Ok differences, w1)
    /\ printed w1
       = printed (world_after_messages added removed renamed w) ++ errors
    /\ Forall is_engine_error errors
    /\ w' = World (tempfiles w1) (created w1)
                  (printed w1 ++ [join (map report_line differences)]).
Proof.
  unfold custom_diff in Hrun. unfold mbind at 1, M_bind at 1, lift in Hrun.
  destruct (compare_sheet_names (Dict.keys summaries_from)
              (Dict.keys summaries_to) summaries_from summaries_to)
    as [[[added removed] renamed]|e]; [|discriminate Hrun].
  exists added, removed, renamed.
  unfold mbind at 1, M_bind at 1 in Hrun.
  rewrite (foldW_print_world
             (fun sheet => green +:+ "Sheet " +:+ sheet
                           +:+ " has been added." +:+ LF)
             reset_format added w) in Hrun.
  unfold mbind at 1, M_bind at 1 in Hrun.
  match type of Hrun with
  | context [foldW _ tt removed ?w1] =>
      rewrite (foldW_print_world
                 (fun sheet => red +:+ "Sheet " +:+ sheet
                               +:+ " has been removed." +:+ LF)
                 reset_format removed w1) in Hrun
  end.
  unfold mbind at 1, M_bind at 1 in Hrun.
  rewrite foldW_print_renamed in Hrun.
  cbn [tempfiles created printed] in Hrun.
  rewrite (map_ext _ added_message added_message_printed) in Hrun.
  rewrite (map_ext _ removed_message removed_message_printed) in Hrun.
  rewrite <- !app_assoc in Hrun.
  fold (world_after_messages added removed renamed w) in Hrun.
  unfold mbind at 1, M_bind at 1 in Hrun.
  destruct (compare_dirs git_diff summaries_from summaries_to file_from
              file_to removed renamed
              (world_after_messages added removed renamed w))
    as [[differences|e] w1] eqn:Hdirs; [|discriminate Hrun].
  destruct (compare_loop_printed summaries_from summaries_to
              file_from file_to removed renamed
              (Dict.keys summaries_from) []
              (world_after_messages added removed renamed w))
    as (errors & Hp & Herr).
  unfold compare_dirs in Hdirs. rewrite Hdirs in Hp. cbn [snd] in Hp.
  exists differences, errors, w1.
  split; [reflexivity|]. split; [reflexivity|].
  split; [exact Hp|]. split; [exact Herr|].
  unfold print in Hrun. injection Hrun as <-.
  rewrite fold_left_append_join, append_nil_l, append_nil_r.
  now rewrite (map_ext _ report_line color_line_report).
Qed.

End Printing.

Lemma custom_diff_prints_witness :
  exists added removed renamed differences errors w1,
    compare_sheet_names (Dict.keys summaries_Sales_Notes)
      (Dict.keys summaries_Sales_Notes)
      summaries_Sales_Notes summaries_Sales_Notes
    = Ok (added, removed, renamed)
    /\ compare_dirs engine_y_to_z summaries_Sales_Notes summaries_Sales_Notes
         "a.xlsx" "b.xlsx" removed renamed
         (world_after_messages added removed renamed initial_world)
       = (Ok differences, w1)
    /\ printed w1
       = printed (world_after_messages added removed renamed initial_world)
         ++ errors
    /\ Forall is_engine_error errors
    /\ snd (custom_diff engine_y_to_z summaries_Sales_Notes
              summaries_Sales_Notes "a.xlsx" "b.xlsx" initial_world)
       = World (tempfiles w1) (created w1)
               (printed w1 ++ [join (map report_line differences)]).
Proof.
  apply (custom_diff_prints engine_y_to_z summaries_Sales_Notes
           summaries_Sales_Notes "a.xlsx" "b.xlsx" initial_world).
  vm_compute. reflexivity.
Defined.

(** ** Numbers as text: [str] and [int], hunk headers, row numbers *)

Lemma pretty_N_char_digit x :
  (x < 10)%N ->
  isdigit (pretty_N_char x) = true /\ ord (pretty_N_char x) - 48 = Z.of_N x.
Proof.
  intros H.
  assert (x = 0 \/ x = 1 \/ x = 2 \/ x = 3 \/ x = 4 \/ x = 5 \/ x = 6
          \/ x = 7 \/ x = 8 \/ x = 9)%N
    as [->|[->|[->|[->|[->|[->|[->|[->|[->| ->]]]]]]]]] by lia;
    now split.
Qed.

(** The digits [pretty_N_go] writes before [s] are decimal digits and
    stand for the number. *)
Lemma pretty_N_go_digits x : forall s,
  exists d,
    pretty_N_go x s = string_of_list_ascii d +:+ s
    /\ Forall (fun c => isdigit c = true) d
    /\ digits_value 0 d = Z.of_N x
    /\ ((0 < x)%N -> d <> []).
Proof.
  induction (N.lt_wf_0 x) as [x _ IH]. intros s.
  destruct (N.eq_dec x 0%N) as [->|Hx].
  - exists []. rewrite pretty_N_go_0. repeat split; [constructor|].
    intros H. lia.
  - assert (Hpos : (0 < x)%N) by lia.
    rewrite pretty_N_go_step by exact Hpos.
    destruct (IH (x `div` 10)%N (N.div_lt x 10 Hpos eq_refl)
                 (String (pretty_N_char (x `mod` 10)) s))
      as (d & Hd & Hdig & Hval & _).
    destruct (pretty_N_char_digit (x `mod` 10)%N) as [Hc Hv].
    { now apply N.mod_lt. }
    exists (d ++ [pretty_N_char (x `mod` 10)]).
    split; [rewrite Hd; now rewrite string_of_list_ascii_snoc|].
    split; [apply Forall_app; split; [exact Hdig | now constructor]|].
    split.
    + unfold digits_value in *. rewrite fold_left_app. cbn [fold_left].
      rewrite Hval, Hv. rewrite (N.div_mod x 10) at 3 by lia. lia.
    + intros _. now destruct d.
Qed.

(** The decimal notation of a natural number is a non-empty run of digits
    that stands for the number. *)
Lemma pretty_digits n :
  0 <= n ->
  exists c d,
    pretty n = String c d
    /\ Forall (fun c => isdigit c = true) (list_ascii_of_string (String c d))
    /\ digits_value 0 (list_ascii_of_string (String c d)) = n.
Proof.
  intros Hn. unfold pretty, pretty_Z. destruct n as [|p|p]; [| |lia].
  - exists "0"%char, "". repeat split. now repeat constructor.
  - unfold pretty, pretty_positive, pretty, pretty_N.
    destruct (decide (N.pos p = 0%N)) as [E|_]; [discriminate E|].
    destruct (pretty_N_go_digits (N.pos p) "") as (d & Hd & Hdig & Hval & Hne).
    rewrite Hd, append_nil_r.
    destruct d as [|c d]; [exfalso; apply Hne; [lia | reflexivity]|].
    exists c, (string_of_list_ascii d).
    split; [reflexivity|].
    cbn [list_ascii_of_string]. rewrite list_ascii_of_string_of_list_ascii.
    split; [exact Hdig | exact Hval].
Qed.

(** [int] reads the decimal notation of a natural number back, unless it
    has more digits than the limit. *)
Lemma int_pretty n :
  0 <= n ->
  int (pretty n) = if too_long (pretty n) then Raise ValueError else Ok n.
Proof.
  intros Hn. destruct (pretty_digits n Hn) as (c & d & -> & Hd & Hv).
  now rewrite (int_run c d Hd), Hv.
Qed.

Lemma span_digits_app d rest :
  Forall (fun c => isdigit c = true) (list_ascii_of_string d) ->
  match rest with
  | String c _ => isdigit c = false
  | EmptyString => True
  end ->
  span_digits (d +:+ rest) = (d, rest).
Proof.
  induction d as [|c d IH]; intros Hd Hrest.
  - rewrite append_nil_l. destruct rest as [|c rest]; [reflexivity|].
    cbn [span_digits]. now rewrite Hrest.
  - cbn [list_ascii_of_string] in Hd. apply Forall_cons in Hd as [Hc Hd].
    rewrite append_cons. cbn [span_digits].
    rewrite Hc. now rewrite (IH Hd Hrest).
Qed.

Lemma strip_prefix_append p s : strip_prefix p (p +:+ s) = Some s.
Proof.
  induction p as [|a p IH]; [now destruct s|].
  rewrite append_cons. cbn [strip_prefix]. now rewrite Ascii.eqb_refl.
Qed.

Lemma match_digits_pretty n c s rest :
  0 <= n -> isdigit c = false ->
  match_digits (pretty n +:+ String c s +:+ rest)
  = Some (pretty n, String c s +:+ rest).
Proof.
  intros Hn Hc. destruct (pretty_digits n Hn) as (c0 & d & -> & Hd & _).
  unfold match_digits.
  rewrite (span_digits_app (String c0 d) (String c s +:+ rest) Hd)
    by (rewrite append_cons; exact Hc).
  reflexivity.
Qed.

Lemma match_count_pretty n c s rest :
  0 <= n -> isdigit c = false ->
  match_count ("," +:+ pretty n +:+ String c s +:+ rest)
  = (Some (pretty n), String c s +:+ rest).
Proof.
  intros Hn Hc. rewrite append_cons, append_nil_l. unfold match_count.
  now rewrite (match_digits_pretty n c s rest Hn Hc).
Qed.

Lemma match_count_none c s rest :
  c <> ","%char ->
  match_count (String c s +:+ rest) = (None, String c s +:+ rest).
Proof.
  intros Hc. rewrite append_cons. unfold match_count.
  destruct c as [[] [] [] [] [] [] [] []]; try reflexivity. congruence.
Qed.

(** X20.  [hunk_header] reads back the hunk header the engine writes: from
    [@@ -a,b +c,d @@], followed by anything, it returns the four numbers,
    and from [@@ -a +c @@], where the counts are left out, it returns
    [a], 1, [c], 1 — unless one of the numbers is written with more digits
    than [int()] reads, in which case it raises [ValueError]. *)
Theorem hunk_header_reads_header
    (from_start from_count to_start to_count : Z) (rest : string)
    (Hfs : 0 <= from_start) (Hfc : 0 <= from_count)
    (Hts : 0 <= to_start) (Htc : 0 <= to_count) :
  hunk_header (header_text from_start from_count to_start to_count rest)
  = (if too_long (pretty from_start) || too_long (pretty from_count)
        || too_long (pretty to_start) || too_long (pretty to_count)
     then Raise ValueError
     else Ok (Some (from_start, from_count, to_start, to_count)))
  /\ hunk_header (header_text_without_counts from_start to_start rest)
     = (if too_long (pretty from_start) || too_long (pretty to_start)
        then Raise ValueError
        else Ok (Some (from_start, 1, to_start, 1))).
Proof.
  assert (Hcomma : isdigit "," = false) by reflexivity.
  assert (Hspace : isdigit " " = false) by reflexivity.
  assert (Hnc : " "%char <> ","%char) by discriminate.
  pose proof (int_pretty from_start Hfs) as E1.
  pose proof (int_pretty from_count Hfc) as E2.
  pose proof (int_pretty to_start Hts) as E3.
  pose proof (int_pretty to_count Htc) as E4.
  split.
  - unfold header_text, hunk_header, match_hunk_header.
    rewrite strip_prefix_append. cbn [mbind option_bind].
    rewrite (match_digits_pretty from_start "," "" _ Hfs Hcomma).
    cbn [mbind option_bind].
    rewrite (match_count_pretty from_count " " "+" _ Hfc Hspace).
    rewrite strip_prefix_append. cbn [mbind option_bind].
    rewrite (match_digits_pretty to_start "," "" _ Hts Hcomma).
    cbn [mbind option_bind].
    rewrite (match_count_pretty to_count " " "@@" _ Htc Hspace).
    rewrite strip_prefix_append. cbn [mbind option_bind].
    rewrite E1. destruct (too_long (pretty from_start)); [reflexivity|].
    rewrite result_bind_ok, E2.
    destruct (too_long (pretty from_count)); [reflexivity|].
    rewrite result_bind_ok, E3.
    destruct (too_long (pretty to_start)); [reflexivity|].
    rewrite result_bind_ok, E4.
    destruct (too_long (pretty to_count)); reflexivity.
  - unfold header_text_without_counts, hunk_header, match_hunk_header.
    rewrite strip_prefix_append. cbn [mbind option_bind].
    rewrite (match_digits_pretty from_start " " "+" _ Hfs Hspace).
    cbn [mbind option_bind].
    rewrite (match_count_none " " "+" _ Hnc).
    rewrite strip_prefix_append. cbn [mbind option_bind].
    rewrite (match_digits_pretty to_start " " "@@" rest Hts Hspace).
    cbn [mbind option_bind].
    rewrite (match_count_none " " "@@" _ Hnc).
    rewrite strip_prefix_append. cbn [mbind option_bind].
    rewrite E1. destruct (too_long (pretty from_start)); [reflexivity|].
    rewrite !result_bind_ok, E3.
    destruct (too_long (pretty to_start)); reflexivity.
Qed.

Lemma hunk_header_reads_header_witness :
  hunk_header "@@ -10,3 +12,4 @@ Sales"
  = Ok (Some (10, 3, 12, 4))
  /\ hunk_header "@@ -10 +12 @@ Sales" = Ok (Some (10, 1, 12, 1)).
Proof.
  apply (hunk_header_reads_header 10 3 12 4 " Sales"); lia.
Defined.



